(** * Buddy AI: conversation decision framework

    A shallow embedding of the deterministic core of the repository:
    - [conversation/constants.py] and [conversation/state_detector.py]
      (the priority-cascade classifier),
    - [prompts/guardrails.py] (the response validator),
    - [memory/profile_extractor.py], [memory/memory_store.py] and
      [memory/memory_referencer.py] (extraction, merge and rate-limited
      referencing).

    Python [str] values are lists of Unicode code points.  The parts of
    Python's Unicode database the code relies on ([str.lower], the
    alphanumeric test behind the regex class [\w], case-insensitive literal
    matching) are not part of the repository: they are the fields of the
    class [Unicode], and the facts about them that the proofs use are the
    fields of [UnicodeFacts]. *)

From Stdlib Require Import ZArith NArith List String Ascii Bool Floats Lia.
From stdpp Require Import gmap strings list pretty.

Set Warnings "-inexact-float,-abstract-large-number".

(* ===================================================================== *)
(** * Python strings *)
(* ===================================================================== *)

Module PyStr.

Abbreviation codepoint := N.
Abbreviation pystr := (list N).

Local Open Scope N_scope.

(** A string literal of the source that is pure ASCII. *)
Definition py (s : string) : pystr :=
  map N_of_ascii (list_ascii_of_string s).

Definition cp_eqb (a b : codepoint) : bool := N.eqb a b.

Definition in_range (lo hi c : codepoint) : bool :=
  (N.leb lo c && N.leb c hi)%bool.

Definition is_ascii (c : codepoint) : bool := N.ltb c 128.

(** [str.isspace] on one character (CPython's [_PyUnicode_IsWhitespace]);
    this is the set that [str.strip()] and [str.split()] use. *)
Definition is_space (c : codepoint) : bool :=
  (in_range 9 13 c || in_range 28 32 c || cp_eqb c 133 || cp_eqb c 160
   || cp_eqb c 5760 || in_range 8192 8202 c || cp_eqb c 8232
   || cp_eqb c 8233 || cp_eqb c 8239 || cp_eqb c 8287 || cp_eqb c 12288)%bool.

(** [str.lower] restricted to ASCII: [A-Z] go to [a-z]. *)
Definition ascii_lower (c : codepoint) : codepoint :=
  if in_range 65 90 c then c + 32 else c.

Fixpoint lstrip (s : pystr) : pystr :=
  match s with
  | [] => []
  | c :: s' => if is_space c then lstrip s' else s
  end.

Definition rstrip (s : pystr) : pystr := rev (lstrip (rev s)).

(** [s.strip()] *)
Definition strip (s : pystr) : pystr := rstrip (lstrip s).

(** [s.startswith(p)] *)
Fixpoint startswith (p s : pystr) : bool :=
  match p, s with
  | [], _ => true
  | _ :: _, [] => false
  | a :: p', b :: s' => (cp_eqb a b && startswith p' s')%bool
  end.

(** [p in s] *)
Fixpoint contains (p s : pystr) : bool :=
  (startswith p s
   || match s with
      | [] => false
      | _ :: s' => contains p s'
      end)%bool.

(** [s.find(p)], [None] standing for [-1]. *)
Fixpoint find (p s : pystr) : option nat :=
  if startswith p s then Some 0%nat
  else match s with
       | [] => None
       | _ :: s' => option_map S (find p s')
       end.

(** [s.count(c)] for a one-character [c]. *)
Definition count_char (c : codepoint) (s : pystr) : nat :=
  length (filter (fun x => cp_eqb x c = true) s).

(** [s.split()]: maximal runs of non-whitespace characters. *)
Fixpoint split_ws_aux (cur s : pystr) : list pystr :=
  match s with
  | [] => match cur with [] => [] | _ => [rev cur] end
  | c :: s' =>
      if is_space c then
        match cur with
        | [] => split_ws_aux [] s'
        | _ => rev cur :: split_ws_aux [] s'
        end
      else split_ws_aux (c :: cur) s'
  end.

Definition split_ws (s : pystr) : list pystr := split_ws_aux [] s.

(** [s.split(sep)] for a non-empty separator: non-overlapping occurrences
    from the left; [skip] counts the characters of an occurrence still to
    be passed over. *)
Fixpoint split_sep_aux (sep : pystr) (skip : nat) (cur s : pystr) : list pystr :=
  match s with
  | [] => [rev cur]
  | c :: s' =>
      match skip with
      | S k => split_sep_aux sep k cur s'
      | O =>
          if startswith sep s
          then rev cur :: split_sep_aux sep (length sep - 1)%nat [] s'
          else split_sep_aux sep 0%nat (c :: cur) s'
      end
  end.

Definition split_sep (sep s : pystr) : list pystr := split_sep_aux sep 0%nat [] s.

(** [sep.join(l)] *)
Fixpoint join (sep : pystr) (l : list pystr) : pystr :=
  match l with
  | [] => []
  | [w] => w
  | w :: l' => w ++ sep ++ join sep l'
  end.

(** [s[i:j]] for [0 <= i] (the source clamps both ends itself). *)
Definition slice (i j : nat) (s : pystr) : pystr := take (j - i)%nat (drop i s).

(** An optional character that, when present, is ASCII. *)
Definition ascii_opt (oc : option codepoint) : bool :=
  match oc with Some c => is_ascii c | None => true end.

(** Python's Unicode database, as far as the code consults it. *)
Class Unicode := {
  (** [str.lower()] (a function of the whole string: the final-sigma rule
      looks at the context) *)
  str_lower : pystr -> pystr;
  (** [str.isalnum()] on one character; the regex class [\w] is
      [isalnum] or underscore *)
  is_alnum : codepoint -> bool;
  (** [ci_eq a x]: under [re.IGNORECASE], the literal pattern character
      [a] matches the text character [x] *)
  ci_eq : codepoint -> codepoint -> bool
}.

Definition ascii_alnum (c : codepoint) : bool :=
  (in_range 48 57 c || in_range 65 90 c || in_range 97 122 c)%bool.

(** What the proofs assume of the database: its behaviour on ASCII, and that
    white space has no case mapping. *)
Class UnicodeFacts (U : Unicode) : Prop := {
  lower_ascii : forall s, forallb is_ascii s = true -> str_lower s = map ascii_lower s;
  lower_blank : forall s, forallb is_space s = true -> str_lower s = s;
  alnum_ascii : forall c, is_ascii c = true -> is_alnum c = ascii_alnum c;
  ci_eq_ascii : forall a x, is_ascii a = true -> is_ascii x = true ->
                            ci_eq a x = cp_eqb (ascii_lower a) (ascii_lower x)
}.

(** The database cut down to ASCII: every other code point is caseless and
    not alphanumeric.  Python agrees with it on every ASCII string. *)
Definition ascii_unicode : Unicode := {|
  str_lower := map ascii_lower;
  is_alnum := fun c => (is_ascii c && ascii_alnum c)%bool;
  ci_eq := fun a x => cp_eqb (ascii_lower a) (ascii_lower x)
|}.

End PyStr.
Export PyStr.

(* ===================================================================== *)
(** * conversation/constants.py *)
(* ===================================================================== *)

Module Constants.

Inductive ConversationState :=
| OUT_OF_SCOPE
| CONFUSED
| VALIDATION_SEEKING
| SELF_REFLECTION
| CAREER_CURIOSITY
| COMPARISON
| INFORMATION_SEEKING
| GREETING.

(** The constant as the source file holds it: between "sorry" and "I don't"
    it has the three code points U+00E2, U+20AC, U+201D. *)
Definition CANONICAL_OUT_OF_SCOPE_RESPONSE : pystr :=
  py "I'm sorry " ++ [226; 8364; 8221]%N
  ++ py " I don't have the right context to answer this."
  ++ [10; 10]%N
  ++ py "I can help with careers, education, and future planning, but for this it would be better to speak with a trusted adult like a teacher or parent."
  ++ [10; 10]%N
  ++ py "If you'd like, we can talk about your studies, career options, or future plans.".

(** The keys of [OUT_OF_SCOPE_PATTERNS]. *)
Inductive Category :=
| mental_health | relationships | family | politics_religion | explicit | violence.

(** A dict literal keeps the order in which its keys are written. *)
Definition OUT_OF_SCOPE_PATTERNS : list (Category * list pystr) :=
  [ (mental_health,
     map py ["depressed"; "depression"; "anxiety"; "anxious"; "suicide";
             "self-harm"; "self harm"; "cutting"; "kill myself"; "want to die";
             "panic attack"; "mental health"; "therapy"; "therapist";
             "stressed"; "overwhelmed"; "can't cope"; "breaking down"]%string);
    (relationships,
     map py ["boyfriend"; "girlfriend"; "dating"; "crush"; "love life";
             "breakup"; "broke up"; "relationship advice"; "ex-"; "my ex";
             "cheating"; "cheated"]%string);
    (family,
     map py ["parents fighting"; "divorce"; "family problems"; "abuse";
             "hitting me"; "beats me"; "scared of my parents"]%string);
    (politics_religion,
     map py ["politics"; "political"; "election"; "vote"; "government";
             "religion"; "religious"; "god"; "pray"; "muslim"; "hindu";
             "christian"; "caste"; "reservation"]%string);
    (explicit,
     map py ["sex"; "porn"; "naked"; "nude"]%string);
    (violence,
     map py ["fight"; "violence"; "weapon"; "gun"; "knife"; "hurt someone"]%string) ].

Definition CONFUSION_PATTERNS : list pystr :=
  map py ["i don't know"; "i dont know"; "idk";
          "i'm confused"; "im confused"; "confused";
          "i have no idea"; "no idea";
          "i'm lost"; "im lost"; "lost";
          "what should i do"; "help me";
          "i'm not sure"; "im not sure"; "not sure";
          "don't understand"; "dont understand";
          "everything is confusing"; "so confused";
          "no clue"; "clueless"]%string.

Definition VALIDATION_PATTERNS : list pystr :=
  map py ["am i good enough"; "can i become"; "will i be able to";
          "is it bad if"; "is it okay if"; "is it wrong";
          "should i"; "do you think i can";
          "am i smart enough"; "am i capable";
          "is it too late"; "is it possible for me";
          "can someone like me"; "people like me";
          "am i making a mistake"; "is this a bad choice"]%string.

Definition SELF_REFLECTION_PATTERNS : list pystr :=
  map py ["i like"; "i love"; "i enjoy";
          "i hate"; "i don't like"; "i dislike";
          "i'm good at"; "im good at"; "i am good at";
          "i'm bad at"; "im bad at"; "i am bad at";
          "i prefer"; "i find"; "i feel";
          "interests me"; "bores me";
          "i want to"; "i wish"; "i hope"]%string.

Definition CAREER_PATTERNS : list pystr :=
  map py ["what does a"; "what do"; "tell me about";
          "how to become"; "how do i become";
          "what is it like to be"; "what's it like";
          "career in"; "job as"; "work as";
          "day in the life"; "typical day"]%string.

Definition COMPARISON_PATTERNS : list pystr :=
  map py [" vs "; " versus "; " or ";
          "which is better"; "what's better"; "whats better";
          "difference between"; "compare";
          "should i choose"; "science or commerce";
          "engineering or"; "doctor or"; "better option"]%string.

Definition INFORMATION_PATTERNS : list pystr :=
  map py ["how much"; "salary"; "pay"; "income"; "earn";
          "entrance exam"; "exam"; "jee"; "neet"; "cat"; "clat";
          "college"; "university"; "iit"; "nit"; "aiims";
          "fee"; "fees"; "cost"; "tuition";
          "eligibility"; "qualification"; "degree"; "required";
          "years"; "duration"; "how long"]%string.

Definition GREETING_PATTERNS : list pystr :=
  map py ["hi"; "hello"; "hey"; "hii"; "hiii";
          "sup"; "yo"; "hola"; "namaste";
          "good morning"; "good afternoon"; "good evening";
          "what's up"; "whats up"; "howdy"]%string.

End Constants.
Export Constants.

(* ===================================================================== *)
(** * conversation/state_detector.py *)
(* ===================================================================== *)

Module StateDetector.
Section WithUnicode.
Context {U : Unicode}.

(** The regex class [\w]; outside the string (no character) counts as
    a non-word position. *)
Definition is_word (oc : option codepoint) : bool :=
  match oc with
  | Some c => (is_alnum c || cp_eqb c 95)%bool
  | None => false
  end.

(** [\b] between the character before and the character after. *)
Definition at_boundary (prev next : option codepoint) : bool :=
  xorb (is_word prev) (is_word next).

(** Matching the escaped literal [p] at the front of [t] under
    [re.IGNORECASE]: the last character consumed (or [prev] when [p] is empty)
    and the text that is left. *)
Fixpoint match_literal (p t : pystr) (prev : option codepoint)
  : option (option codepoint * pystr) :=
  match p with
  | [] => Some (prev, t)
  | a :: p' =>
      match t with
      | [] => None
      | x :: t' => if ci_eq a x then match_literal p' t' (Some x) else None
      end
  end.

(** [\b p \b] matched at the front of [t], [prev] being the character
    before it. *)
Definition match_word_at (p : pystr) (prev : option codepoint) (t : pystr) : bool :=
  (at_boundary prev (head t)
   && match match_literal p t prev with
      | Some (last, rest) => at_boundary last (head rest)
      | None => false
      end)%bool.

Fixpoint search_word_from (p : pystr) (prev : option codepoint) (t : pystr) : bool :=
  (match_word_at p prev t
   || match t with
      | [] => false
      | c :: t' => search_word_from p (Some c) t'
      end)%bool.

(** [re.compile(r'\b' + re.escape(p) + r'\b', re.IGNORECASE).search(t)],
    as a truth value. *)
Definition search_word (p t : pystr) : bool := search_word_from p None t.

(** The character just before the position reached after reading [pre],
    [prev] being the character before [pre]. *)
Fixpoint char_before (prev : option codepoint) (pre : pystr) : option codepoint :=
  match pre with
  | [] => prev
  | c :: pre' => char_before (Some c) pre'
  end.

(** What a match of [\b p \b] in [t] is: [t] splits into [pre ++ m ++ post]
    where [m] matches [p] character by character, ignoring case, and there
    is a word boundary on either side of [m]. *)
Definition word_occurrence (p t : pystr) : Prop :=
  exists pre m post,
    t = pre ++ m ++ post
    /\ Forall2 (fun a x => ci_eq a x = true) p m
    /\ at_boundary (char_before None pre) (head (m ++ post)) = true
    /\ at_boundary (char_before None (pre ++ m)) (head post) = true.

Definition _normalize_text (text : pystr) : pystr := strip (str_lower text).

Definition _check_patterns (text : pystr) (patterns : list pystr) : bool :=
  let text_lower := _normalize_text text in
  existsb (fun pattern => contains (str_lower pattern) text_lower) patterns.

Definition _check_out_of_scope (text : pystr) : option Category :=
  let text_lower := _normalize_text text in
  option_map fst
    (List.find (fun cp => existsb (fun pattern => search_word pattern text_lower) (snd cp))
               OUT_OF_SCOPE_PATTERNS).

Definition _is_greeting (text : pystr) : bool :=
  let text_lower := _normalize_text text in
  let words := split_ws text_lower in
  if (length words <=? 3)%nat then _check_patterns text GREETING_PATTERNS
  else existsb (fun pattern => startswith (str_lower pattern) text_lower) GREETING_PATTERNS.

Definition _is_confused (text : pystr) : bool :=
  _check_patterns text CONFUSION_PATTERNS.

Definition _is_validation_seeking (text : pystr) : bool :=
  _check_patterns text VALIDATION_PATTERNS.

Definition question_words : list pystr :=
  map py ["what"; "how"; "which"; "where"; "when"; "why"; "?"]%string.

(** The literal list in the body of [_is_self_reflection]. *)
Definition sharing_phrases : list pystr :=
  map py ["i like"; "i love"; "i enjoy"; "i hate"; "i'm good at"; "i prefer"]%string.

(** The local [is_question] of [_is_self_reflection]. *)
Definition is_question (text_lower : pystr) : bool :=
  existsb (fun q => contains q text_lower) question_words.

Definition _is_self_reflection (text : pystr) : bool :=
  let text_lower := _normalize_text text in
  if _check_patterns text SELF_REFLECTION_PATTERNS then
    (negb (is_question text_lower)
     || existsb (fun p => contains (str_lower p) text_lower) sharing_phrases)%bool
  else false.

Definition _is_career_curiosity (text : pystr) : bool :=
  _check_patterns text CAREER_PATTERNS.

Definition _is_comparison (text : pystr) : bool :=
  _check_patterns text COMPARISON_PATTERNS.

Definition _is_information_seeking (text : pystr) : bool :=
  _check_patterns text INFORMATION_PATTERNS.

(** [not s] for a string: the empty string is falsy. *)
Definition falsy (s : pystr) : bool :=
  match s with [] => true | _ => false end.

Definition detect_state (user_input : pystr) : ConversationState :=
  if (falsy user_input || falsy (strip user_input))%bool then CONFUSED
  else
    match _check_out_of_scope user_input with
    | Some out_of_scope_category => OUT_OF_SCOPE
    | None =>
        if _is_greeting user_input then GREETING
        else if _is_confused user_input then CONFUSED
        else if _is_validation_seeking user_input then VALIDATION_SEEKING
        else if _is_self_reflection user_input then SELF_REFLECTION
        else if _is_comparison user_input then COMPARISON
        else if _is_career_curiosity user_input then CAREER_CURIOSITY
        else if _is_information_seeking user_input then INFORMATION_SEEKING
        else CAREER_CURIOSITY
    end.

End WithUnicode.

(** Case-insensitive match of a pattern character with the ASCII tables. *)
Abbreviation ci_match := (fun a x : codepoint => @ci_eq ascii_unicode a x = true).

End StateDetector.
Export StateDetector.

(* ===================================================================== *)
(** * prompts/guardrails.py *)
(* ===================================================================== *)

Module Guardrails.

Definition FORBIDDEN_RECOMMENDATION_PHRASES : list pystr :=
  map py ["you should become"; "you should be a"; "you would be a great";
          "you would make a great"; "you are suited for"; "you're suited for";
          "you are perfect for"; "you're perfect for"; "i recommend";
          "i suggest you become"; "you should pursue"; "you should definitely";
          "you must become"]%string.

Definition FORBIDDEN_CORPORATE_PHRASES : list pystr :=
  map py ["unlock your potential"; "chase your dreams"; "synergy";
          "leverage your"; "optimize your"; "maximize your";
          "strategic career"; "career trajectory"; "professional development";
          "skill acquisition"; "paradigm shift"]%string.

Definition FORBIDDEN_JUDGMENTAL_PHRASES : list pystr :=
  map py ["you're not smart enough"; "you're not good enough";
          "that's a bad choice"; "that's a wrong choice"; "you shouldn't";
          "that's unrealistic"; "you can't become"]%string.

(** The ranges of the character class of [emoji_pattern]. *)
Definition emoji_ranges : list (codepoint * codepoint) :=
  [ (0x1F600, 0x1F64F); (0x1F300, 0x1F5FF); (0x1F680, 0x1F6FF);
    (0x1F700, 0x1F77F); (0x1F780, 0x1F7FF); (0x1F800, 0x1F8FF);
    (0x1F900, 0x1F9FF); (0x1FA00, 0x1FA6F); (0x1FA70, 0x1FAFF);
    (0x2702, 0x27B0); (0x24C2, 0x1F251) ]%N.

Definition in_emoji_class (c : codepoint) : bool :=
  existsb (fun r => in_range (fst r) (snd r) c) emoji_ranges.

(** [len(pattern.findall(text))] for the pattern [[class]+]: every match is a
    maximal run of characters of the class, so the matches are counted by
    their first characters.  [in_run] tells whether the previous character
    was in the class. *)
Fixpoint count_class_runs (in_run : bool) (text : pystr) : nat :=
  match text with
  | [] => 0
  | c :: text' =>
      if in_emoji_class c
      then (if in_run then 0 else 1) + count_class_runs true text'
      else count_class_runs false text'
  end.

Definition count_questions (text : pystr) : nat := count_char 63%N text.

Definition count_emojis (text : pystr) : nat := count_class_runs false text.

Definition count_paragraphs (text : pystr) : nat :=
  length (map strip
            (filter (fun p => falsy (strip p) = false) (split_sep [10; 10]%N text))).

Section WithUnicode.
Context {U : Unicode}.

Definition check_forbidden_phrases (text : pystr) : list pystr :=
  let text_lower := str_lower text in
  let all_forbidden :=
    FORBIDDEN_RECOMMENDATION_PHRASES ++ FORBIDDEN_CORPORATE_PHRASES
    ++ FORBIDDEN_JUDGMENTAL_PHRASES in
  filter (fun phrase => contains phrase text_lower = true) all_forbidden.

(** The entries of [violations]; [message] gives the string of each. *)
Inductive Violation :=
| TooManyQuestions (question_count max_questions : nat) (state : ConversationState)
| TooManyEmojis (emoji_count : nat)
| ForbiddenPhrases (forbidden : list pystr)
| ResponseTooLong (paragraph_count : nat)
| CanonicalRequired.

Definition max_questions_for (state : ConversationState) : nat :=
  match state with
  | OUT_OF_SCOPE => 0
  | CONFUSED | VALIDATION_SEEKING | SELF_REFLECTION => 1
  | _ => 2
  end.

(** [expected_start] of the source: "sorry", an em dash (U+2014), "I don't". *)
Definition expected_start : pystr :=
  py "I'm sorry " ++ [0x2014]%N ++ py " I don't have the right context".

Definition when {A} (b : bool) (x : A) : list A := if b then [x] else [].

Definition validate_response (response : pystr) (state : ConversationState)
  : bool * list Violation :=
  let question_count := count_questions response in
  let max_questions := max_questions_for state in
  let emoji_count := count_emojis response in
  let forbidden := check_forbidden_phrases response in
  let paragraph_count := count_paragraphs response in
  let violations :=
    when (max_questions <? question_count)
         (TooManyQuestions question_count max_questions state)
    ++ when (1 <? emoji_count) (TooManyEmojis emoji_count)
    ++ when (negb (bool_decide (forbidden = []))) (ForbiddenPhrases forbidden)
    ++ when (5 <? paragraph_count) (ResponseTooLong paragraph_count)
    ++ match state with
       | OUT_OF_SCOPE =>
           when (negb (startswith expected_start (strip response))) CanonicalRequired
       | _ => []
       end in
  ((length violations =? 0)%nat, violations).

End WithUnicode.

Definition state_name (state : ConversationState) : pystr :=
  py match state with
     | OUT_OF_SCOPE => "OUT_OF_SCOPE"
     | CONFUSED => "CONFUSED"
     | VALIDATION_SEEKING => "VALIDATION_SEEKING"
     | SELF_REFLECTION => "SELF_REFLECTION"
     | CAREER_CURIOSITY => "CAREER_CURIOSITY"
     | COMPARISON => "COMPARISON"
     | INFORMATION_SEEKING => "INFORMATION_SEEKING"
     | GREETING => "GREETING"
     end.

(** [str(n)] *)
Definition decimal (n : nat) : pystr :=
  py (pretty n).

(** The string appended to [violations] for each entry. *)
Definition message (v : Violation) : pystr :=
  match v with
  | TooManyQuestions question_count max_questions state =>
      py "Too many questions: " ++ decimal question_count ++ py " (max "
      ++ decimal max_questions ++ py " for " ++ state_name state ++ py ")"
  | TooManyEmojis emoji_count =>
      py "Too many emojis: " ++ decimal emoji_count ++ py " (max 1)"
  | ForbiddenPhrases forbidden =>
      py "Forbidden phrases found: " ++ join (py ", ") forbidden
  | ResponseTooLong paragraph_count =>
      py "Response too long: " ++ decimal paragraph_count ++ py " paragraphs (max 5)"
  | CanonicalRequired => py "OUT_OF_SCOPE must use canonical response"
  end.

(** The response that prompts/state_prompts.py quotes for [OUT_OF_SCOPE]:
    the text of [CANONICAL_OUT_OF_SCOPE_RESPONSE] with an em dash (U+2014)
    after "sorry". *)
Definition prompted_out_of_scope_response : pystr :=
  py "I'm sorry " ++ [0x2014]%N
  ++ py " I don't have the right context to answer this."
  ++ [10; 10]%N
  ++ py "I can help with careers, education, and future planning, but for this it would be better to speak with a trusted adult like a teacher or parent."
  ++ [10; 10]%N
  ++ py "If you'd like, we can talk about your studies, career options, or future plans.".

(** The two responses of the emoji examples: the emoji U+1F60A, U+1F389 and
    U+1F44D in a row, then " great!"; and U+1F60A alone, then " great!". *)
Definition three_emoji_great : pystr := [0x1F60A; 0x1F389; 0x1F44D]%N ++ py " great!".

Definition one_emoji_great : pystr := [0x1F60A]%N ++ py " great!".

End Guardrails.
Export Guardrails.

(* ===================================================================== *)
(** * memory/profile_extractor.py and memory/memory_store.py *)
(* ===================================================================== *)

Module Memory.

(** The dicts that the extractor produces and the store keeps: a trait has
    [content], [confidence] and [extracted_at]; a career mention has [career],
    [sentiment], [context] and [extracted_at].  A key that is absent is
    [None].  A confidence is a Python number, here a binary64 float. *)
Record Item := mkItem {
  content : option pystr;
  career : option pystr;
  confidence : option float;
  sentiment : option pystr;
  context : option pystr;
  extracted_at : option pystr
}.

(** A trait dict as [extract_from_message] builds it. *)
Definition trait (c : pystr) (conf : float) (at_ : pystr) : Item :=
  mkItem (Some c) None (Some conf) None None (Some at_).

(** A Python dict from [str] to items, in insertion order: assigning to a key
    that is present keeps its place. *)
Abbreviation odict := (list (pystr * Item)).

Fixpoint dict_get (k : pystr) (d : odict) : option Item :=
  match d with
  | [] => None
  | (k', v) :: d' => if decide (k = k') then Some v else dict_get k d'
  end.

Fixpoint dict_set (k : pystr) (v : Item) (d : odict) : odict :=
  match d with
  | [] => [(k, v)]
  | (k', v') :: d' =>
      if decide (k = k') then (k, v) :: d' else (k', v') :: dict_set k v d'
  end.

Definition values (d : odict) : list Item := map snd d.

(** [item.get("confidence", 0)] *)
Definition get_confidence (item : Item) : float :=
  default 0%float (confidence item).

(** [a > b] on confidences *)
Definition conf_gt (a b : float) : bool := PrimFloat.ltb b a.

(** A row of [student_profiles]; each JSON column is the list it encodes. *)
Record StudentProfile := mkProfile {
  student_id : Z;
  interests : list Item;
  dislikes : list Item;
  strengths : list Item;
  challenges : list Item;
  career_mentions : list Item
}.

(** The table, keyed by the unique [student_id]. *)
Abbreviation Table := (gmap Z StudentProfile).

(** The argument [extractions]: a dict from column names to lists of items. *)
Abbreviation Extractions := (gmap string (list Item)).

Section WithUnicode.
Context {U : Unicode}.

(** [item.get("content", item.get("career", "")).lower()] *)
Definition item_key (item : Item) : pystr :=
  str_lower (default (default [] (career item)) (content item)).

Definition merge_existing (merged : odict) (item : Item) : odict :=
  dict_set (item_key item) item merged.

Definition merge_new (merged : odict) (item : Item) : odict :=
  let key := item_key item in
  match dict_get key merged with
  | None => dict_set key item merged
  | Some old =>
      if conf_gt (get_confidence item) (get_confidence old)
      then dict_set key item merged
      else merged
  end.

Definition _merge_items (existing new : list Item) : list Item :=
  let merged := fold_left merge_existing existing [] in
  let merged := fold_left merge_new new merged in
  values merged.

Definition new_profile (sid : Z) : StudentProfile := mkProfile sid [] [] [] [] [].

Definition get_or_create_profile (db : Table) (sid : Z) : Table * StudentProfile :=
  match db !! sid with
  | Some profile => (db, profile)
  | None => (<[sid := new_profile sid]> db, new_profile sid)
  end.

(** The five columns that [update_profile] looks at. *)
Inductive Column := Interests | Dislikes | Strengths | Challenges | CareerMentions.

#[export] Instance Column_eq_dec : EqDecision Column.
Proof. solve_decision. Defined.

Definition column_key (c : Column) : string :=
  match c with
  | Interests => "interests"
  | Dislikes => "dislikes"
  | Strengths => "strengths"
  | Challenges => "challenges"
  | CareerMentions => "career_mentions"
  end.

Definition get_column (c : Column) (p : StudentProfile) : list Item :=
  match c with
  | Interests => interests p
  | Dislikes => dislikes p
  | Strengths => strengths p
  | Challenges => challenges p
  | CareerMentions => career_mentions p
  end.

Definition set_column (c : Column) (l : list Item) (p : StudentProfile) : StudentProfile :=
  match c with
  | Interests => mkProfile (student_id p) l (dislikes p) (strengths p) (challenges p) (career_mentions p)
  | Dislikes => mkProfile (student_id p) (interests p) l (strengths p) (challenges p) (career_mentions p)
  | Strengths => mkProfile (student_id p) (interests p) (dislikes p) l (challenges p) (career_mentions p)
  | Challenges => mkProfile (student_id p) (interests p) (dislikes p) (strengths p) l (career_mentions p)
  | CareerMentions => mkProfile (student_id p) (interests p) (dislikes p) (strengths p) (challenges p) l
  end.

(** One [if extractions.get(key): profile.col = self._merge_items(profile.col,
    extractions[key])]: an absent key and an empty list are both falsy. *)
Definition merge_column (extractions : Extractions) (c : Column) (p : StudentProfile)
  : StudentProfile :=
  match extractions !! column_key c with
  | Some (item :: items) => set_column c (_merge_items (get_column c p) (item :: items)) p
  | Some [] | None => p
  end.

Definition update_profile (db : Table) (sid : Z) (extractions : Extractions)
  : Table * StudentProfile :=
  let '(db, profile) := get_or_create_profile db sid in
  let profile := merge_column extractions Interests profile in
  let profile := merge_column extractions Dislikes profile in
  let profile := merge_column extractions Strengths profile in
  let profile := merge_column extractions Challenges profile in
  let profile := merge_column extractions CareerMentions profile in
  (<[sid := profile]> db, profile).

(** The tables that calls of [get_or_create_profile] and [update_profile]
    make out of the empty table. *)
Inductive reachable : Table -> Prop :=
| reach_empty : reachable ∅
| reach_create db sid :
    reachable db -> reachable (fst (get_or_create_profile db sid))
| reach_update db sid extractions :
    reachable db -> reachable (fst (update_profile db sid extractions)).

(** The dict entry of an item. *)
Definition entry (item : Item) : pystr * Item := (item_key item, item).

(** The dict built by the first loop of [_merge_items]. *)
Definition load (existing : list Item) : odict := fold_left merge_existing existing [].

(** The dict is keyed by [item_key], each key once. *)
Definition well_keyed (d : odict) : Prop :=
  NoDup (map fst d) /\ Forall (fun kv => fst kv = item_key (snd kv)) d.

(** No column of the profile holds two items with the same key. *)
Definition deduplicated (p : StudentProfile) : Prop :=
  forall c, NoDup (map item_key (get_column c p)).

(** The dict returned by [get_profile_summary], without the time stamp. *)
Record Summary := mkSummary {
  s_interests : list pystr;
  s_dislikes : list pystr;
  s_strengths : list pystr;
  s_challenges : list pystr;
  s_careers_discussed : list pystr
}.

(** [[i.get("content") for i in items if i.get("content")]] *)
Definition contents (items : list Item) : list pystr :=
  omap (fun i => match content i with
                 | Some (c :: cs) => Some (c :: cs)
                 | _ => None
                 end) items.

Definition careers_discussed (items : list Item) : list pystr :=
  omap (fun c => match career c with
                 | Some (k :: ks) =>
                     if bool_decide (sentiment c = Some (py "negative")) then None
                     else Some (k :: ks)
                 | _ => None
                 end) items.

Definition get_profile_summary (db : Table) (sid : Z) : Table * Summary :=
  let '(db, profile) := get_or_create_profile db sid in
  (db, mkSummary (contents (interests profile)) (contents (dislikes profile))
                 (contents (strengths profile)) (contents (challenges profile))
                 (careers_discussed (career_mentions profile))).

(** ** profile_extractor.py *)

Definition INTEREST_PATTERNS : list pystr :=
  map py ["i (?:really )?(?:like|love|enjoy) (?:to )?(.+?)(?:\.|,|$|!)";
          "i'm (?:really )?interested in (.+?)(?:\.|,|$|!)";
          "i find (.+?) (?:interesting|fascinating|exciting)";
          "(.+?) is (?:really )?(?:fun|interesting|exciting) (?:to me|for me)?";
          "i've always (?:liked|loved|enjoyed) (.+?)(?:\.|,|$|!)"]%string.

Definition DISLIKE_PATTERNS : list pystr :=
  map py ["i (?:really )?(?:hate|dislike|don't like) (.+?)(?:\.|,|$|!)";
          "i'm not (?:really )?interested in (.+?)(?:\.|,|$|!)";
          "(.+?) is (?:boring|dull|not for me)";
          "i (?:can't stand|avoid) (.+?)(?:\.|,|$|!)"]%string.

Definition STRENGTH_PATTERNS : list pystr :=
  map py ["i'm (?:really )?good at (.+?)(?:\.|,|$|!)";
          "i'm (?:quite )?skilled (?:at|in) (.+?)(?:\.|,|$|!)";
          "i do well (?:at|in|with) (.+?)(?:\.|,|$|!)";
          "my (?:strength|strong point) is (.+?)(?:\.|,|$|!)";
          "people say i'm good at (.+?)(?:\.|,|$|!)"]%string.

Definition CHALLENGE_PATTERNS : list pystr :=
  map py ["i'm (?:not (?:really )?)?(?:bad|weak) at (.+?)(?:\.|,|$|!)";
          "i struggle with (.+?)(?:\.|,|$|!)";
          "(.+?) is (?:difficult|hard|challenging) for me";
          "i (?:can't|cannot) (?:do|handle) (.+?) well"]%string.

Definition CAREER_KEYWORDS : list pystr :=
  map py ["engineer"; "doctor"; "lawyer"; "teacher"; "developer"; "designer";
          "architect"; "scientist"; "writer"; "artist"; "musician"; "accountant";
          "manager"; "consultant"; "analyst"; "programmer"; "pilot"; "chef";
          "entrepreneur"; "psychologist"; "journalist"; "photographer";
          "software"; "marketing"; "finance"; "medicine"; "law"; "business"]%string.

(** [compiled_patterns], in the order of the dict literal, with the column
    each category is appended to. *)
Definition compiled_patterns : list (Column * list pystr) :=
  [ (Interests, INTEREST_PATTERNS); (Dislikes, DISLIKE_PATTERNS);
    (Strengths, STRENGTH_PATTERNS); (Challenges, CHALLENGE_PATTERNS) ].

Definition fillers : list pystr :=
  map py ["to"; "the"; "a"; "an"; "doing"; "being"; "that"; "this"]%string.

Fixpoint drop_fillers (words : list pystr) : list pystr :=
  match words with
  | [] => []
  | w :: words' =>
      if bool_decide (str_lower w ∈ fillers) then drop_fillers words' else words
  end.

Definition _clean_extraction (text : pystr) : pystr :=
  let words := split_ws (strip text) in
  strip (join (py " ") (drop_fillers words)).

Definition _determine_career_sentiment (context : pystr) : pystr :=
  let positive_indicators :=
    map py ["like"; "love"; "want"; "interested"; "curious"; "dream"; "hope"]%string in
  let negative_indicators :=
    map py ["hate"; "dislike"; "don't want"; "not interested"; "boring"]%string in
  if existsb (fun indicator => contains indicator context) positive_indicators
  then py "positive"
  else if existsb (fun indicator => contains indicator context) negative_indicators
  then py "negative"
  else py "neutral".

Section Extractor.
(** [re.compile(p, re.IGNORECASE).findall(text)] for a pattern with one
    group: Python's regex engine is not part of the repository. *)
Variable re_findall : pystr -> pystr -> list pystr.
(** [datetime.now().isoformat()] at the n-th reading of the clock during
    the call. *)
Variable clock : nat -> pystr.

(** The traits appended for one category, before they are stamped. *)
Definition trait_candidates (message : pystr) (patterns : list pystr) : list pystr :=
  filter (fun cleaned => (2 < length cleaned)%nat)
         (map _clean_extraction (flat_map (fun p => re_findall p message) patterns)).

(** The career mention appended for one keyword, before it is stamped. *)
Definition career_candidate (message message_lower keyword : pystr)
  : option (pystr * pystr * pystr) :=
  match find keyword message_lower with
  | None => None
  | Some idx =>
      let ctx := slice (idx - 50) (min (length message_lower) (idx + 50)) message_lower in
      Some (keyword, _determine_career_sentiment ctx,
            slice (idx - 30) (min (length message) (idx + 30)) message)
  end.

(** Every append of [extract_from_message], in program order, as the
    column appended to and the item without its time stamp. *)
Definition appends (message : pystr) : list (Column * (pystr -> Item)) :=
  let message_lower := str_lower message in
  flat_map (fun cp =>
              map (fun cleaned => (fst cp, trait cleaned 0.8%float))
                  (trait_candidates message (snd cp)))
           compiled_patterns
  ++ omap (fun keyword =>
             match career_candidate message message_lower keyword with
             | Some (k, s, c) =>
                 Some (CareerMentions,
                       fun at_ => mkItem None (Some k) None (Some s) (Some c) (Some at_))
             | None => None
             end)
          CAREER_KEYWORDS.

(** The appends with the clock read at each of them. *)
Definition stamped (message : pystr) : list (Column * Item) :=
  imap (fun n ci => (fst ci, snd ci (clock n))) (appends message).

Definition column_of (c : Column) (l : list (Column * Item)) : list Item :=
  omap (fun ci => if bool_decide (column_key (fst ci) = column_key c)
                  then Some (snd ci) else None) l.

(** The initial value of [extractions]: every key with an empty list. *)
Definition no_extractions : Extractions :=
  <["interests" := []]>
    (<["dislikes" := []]>
       (<["strengths" := []]>
          (<["challenges" := []]>
             (<["career_mentions" := []]> ∅)))).

(** No trait pattern matches in the message and no career keyword occurs
    in it. *)
Definition no_matches (message : pystr) : Prop :=
  (forall c patterns p,
      In (c, patterns) compiled_patterns -> In p patterns -> re_findall p message = [])
  /\ (forall keyword,
        In keyword CAREER_KEYWORDS -> contains keyword (str_lower message) = false).

Definition extract_from_message (message : pystr) : Extractions :=
  let l := stamped message in
  <["interests" := column_of Interests l]>
    (<["dislikes" := column_of Dislikes l]>
       (<["strengths" := column_of Strengths l]>
          (<["challenges" := column_of Challenges l]>
             (<["career_mentions" := column_of CareerMentions l]> ∅)))).

End Extractor.
End WithUnicode.

(** ** memory_referencer.py *)

Local Open Scope Z_scope.

(** The referencer's own fields; it shares the store's table with its
    caller. *)
Record MemoryReferencer := mkReferencer {
  min_messages_between : Z;
  _last_reference_message_idx : gmap Z Z
}.

(** [MemoryReferencer(memory_store)] with the default interval. *)
Definition new_referencer : MemoryReferencer := mkReferencer 5 ∅.

Definition has_memories (s : Summary) : bool :=
  negb (bool_decide (s_interests s = []))
  || negb (bool_decide (s_dislikes s = []))
  || negb (bool_decide (s_strengths s = []))
  || negb (bool_decide (s_careers_discussed s = [])).

(** [draw] is the value [random.random()] returns when the function gets
    to call it. *)
Definition should_reference_memory (r : MemoryReferencer) (db : Table) (draw : float)
    (sid current_message_idx : Z) : Table * bool :=
  let last_ref_idx :=
    default (- min_messages_between r) (_last_reference_message_idx r !! sid) in
  if current_message_idx - last_ref_idx <? min_messages_between r then (db, false)
  else
    let '(db, profile_summary) := get_profile_summary db sid in
    if negb (has_memories profile_summary) then (db, false)
    else (db, PrimFloat.ltb draw 0.4%float).

Definition record_reference_used (r : MemoryReferencer) (sid message_idx : Z)
  : MemoryReferencer :=
  mkReferencer (min_messages_between r)
               (<[sid := message_idx]> (_last_reference_message_idx r)).

End Memory.
Export Memory.

(* ===================================================================== *)
(** * conversation/state_detector.py: the context of a state *)
(* ===================================================================== *)

Module StateContext.
Section WithUnicode.
Context {U : Unicode}.

(** The dict returned by [get_state_context]: the three keys it always
    sets, and the keys it adds for some states ([None] when the key is not
    set; the category itself may be [None]). *)
Record StateInfo := mkStateInfo {
  ctx_state : ConversationState;
  ctx_state_name : pystr;
  ctx_user_input : pystr;
  ctx_out_of_scope_category : option (option Category);
  ctx_reflection_type : option pystr;
  ctx_option_a : option pystr;
  ctx_option_b : option pystr
}.

(** The [if]/[elif] chain of the [SELF_REFLECTION] branch. *)
Definition reflection_type (text_lower : pystr) : pystr :=
  if (contains (py "like") text_lower || contains (py "love") text_lower
      || contains (py "enjoy") text_lower)%bool then py "positive"
  else if (contains (py "hate") text_lower
           || contains (py "dislike") text_lower)%bool then py "negative"
  else if contains (py "good at") text_lower then py "strength"
  else if contains (py "bad at") text_lower then py "challenge"
  else py "general".

(** The [COMPARISON] branch: the two options, when it sets them. *)
Definition comparison_options (text_lower : pystr) : option (pystr * pystr) :=
  if contains (py " vs ") text_lower then
    match split_sep (py " vs ") text_lower with
    | [a; b] => Some (strip a, strip b)
    | _ => None
    end
  else if contains (py " or ") text_lower then
    match split_sep (py " or ") text_lower with
    | a :: b :: _ => Some (strip a, strip b)
    | _ => None
    end
  else None.

Definition get_state_context (state : ConversationState) (user_input : pystr)
  : StateInfo :=
  let base c r o :=
    mkStateInfo state (state_name state) user_input c r (option_map fst o) (option_map snd o) in
  match state with
  | OUT_OF_SCOPE => base (Some (_check_out_of_scope user_input)) None None
  | SELF_REFLECTION => base None (Some (reflection_type (str_lower user_input))) None
  | COMPARISON => base None None (comparison_options (str_lower user_input))
  | _ => base None None None
  end.

End WithUnicode.
End StateContext.
Export StateContext.

(* ===================================================================== *)
(** * prompts/guardrails.py: the helpers of the validator *)
(* ===================================================================== *)

Module GuardrailHelpers.

#[export] Instance ConversationState_eq_dec : EqDecision ConversationState.
Proof. solve_decision. Defined.

Definition get_max_questions_for_state (state : ConversationState) : nat :=
  if bool_decide (state = OUT_OF_SCOPE) then 0
  else if bool_decide (state ∈ [CONFUSED; VALIDATION_SEEKING; SELF_REFLECTION]) then 1
  else 2.

(** The suggestion [suggest_fixes] appends for one violation string, if
    any. *)
Definition suggestion (violation : pystr) : option pystr :=
  if contains (py "Too many questions") violation then
    Some (py "- Reduce number of questions. Keep only the most important one.")
  else if contains (py "Too many emojis") violation then
    Some (py "- Remove extra emojis. Use at most one emoji per response.")
  else if contains (py "Forbidden phrases") violation then
    Some (py "- Rewrite to avoid direct recommendations or corporate language.")
  else if contains (py "too long") violation then
    Some (py "- Shorten response. Offer to go deeper instead of providing all info.")
  else if contains (py "canonical response") violation then
    Some (py "- For out-of-scope topics, use the exact canonical response.")
  else None.

Definition suggest_fixes (response : pystr) (violations : list pystr) : pystr :=
  join [10]%N (omap suggestion violations).

End GuardrailHelpers.
Export GuardrailHelpers.

(* ===================================================================== *)
(** * conversation/response_generator.py *)
(* ===================================================================== *)

Module ResponseGenerator.

(** An entry of [STATE_GUIDELINES]. *)
Record Guideline := mkGuideline {
  goal : pystr;
  do : list pystr;
  dont : list pystr;
  max_questions : nat
}.

Definition STATE_GUIDELINES (state : ConversationState) : option Guideline :=
  Some
    match state with
    | CONFUSED =>
        mkGuideline (py "Reduce pressure")
          (map py ["Normalize confusion"; "Ask ONE very easy question";
                   "Be warm and supportive"]%string)
          (map py ["List careers"; "Give advice"; "Overwhelm with options"]%string) 1
    | VALIDATION_SEEKING =>
        mkGuideline (py "Remove judgment")
          (map py ["Reframe away from ability"; "Redirect to exploration";
                   "Be encouraging without making promises"]%string)
          (map py ["Say yes or no directly"; "Predict success or failure";
                   "Give false assurance"]%string) 1
    | SELF_REFLECTION =>
        mkGuideline (py "Deepen awareness and trust")
          (map py ["Acknowledge the insight"; "Reflect it back";
                   "Ask one gentle follow-up"; "Store as memory"]%string)
          (map py ["Label the student"; "Jump to careers immediately";
                   "Make assumptions"]%string) 1
    | CAREER_CURIOSITY =>
        mkGuideline (py "Provide realistic exposure")
          (map py ["Explain day-to-day work"; "Describe what it feels like";
                   "End with a reflection question"]%string)
          (map py ["Hype prestige or status"; "Start with salary";
                   "Make it sound better than it is"]%string) 1
    | COMPARISON =>
        mkGuideline (py "Explain trade-offs")
          (map py ["Compare nature of work"; "Stay neutral";
                   "Ask preference-based question"]%string)
          (map py ["Rank options"; "Recommend one over other"; "Be biased"]%string) 1
    | INFORMATION_SEEKING =>
        mkGuideline (py "Provide clarity without overload")
          (map py ["Give basic facts"; "Keep concise";
                   "Offer to go deeper if interested"]%string)
          (map py ["Dump long lists"; "Push decisions"; "Overwhelm with data"]%string) 1
    | OUT_OF_SCOPE =>
        mkGuideline (py "Set boundary without breaking trust")
          (map py ["Acknowledge"; "Redirect gently";
                   "Leave door open for career talk"]%string)
          (map py ["Scold"; "Explain policy"; "Continue the topic"]%string) 0
    | GREETING =>
        mkGuideline (py "Build warmth and trust")
          (map py ["Respond warmly"; "Introduce yourself briefly";
                   "Invite conversation"]%string)
          (map py ["Be too formal"; "Give long introductions";
                   "Ask too many questions"]%string) 1
    end.

(** [STATE_GUIDELINES.get(state, STATE_GUIDELINES[ConversationState.CAREER_CURIOSITY])];
    the inner lookup is of a key that is present. *)
Definition guidelines_for (state : ConversationState) : Guideline :=
  default (mkGuideline [] [] [] 0)
    (match STATE_GUIDELINES state with
     | Some g => Some g
     | None => STATE_GUIDELINES CAREER_CURIOSITY
     end).

Definition get_canonical_response (state : ConversationState) : option pystr :=
  match state with
  | OUT_OF_SCOPE => Some CANONICAL_OUT_OF_SCOPE_RESPONSE
  | _ => None
  end.

Definition should_use_canonical_response (state : ConversationState) : bool :=
  match state with OUT_OF_SCOPE => true | _ => false end.

(** The dict returned by [get_response_constraints]. *)
Record Constraints := mkConstraints {
  c_max_questions : nat;
  c_max_emojis : nat;
  c_max_paragraphs : nat;
  c_require_question : bool;
  c_use_canonical : bool
}.

Definition get_response_constraints (state : ConversationState) : Constraints :=
  let guidelines := guidelines_for state in
  mkConstraints (max_questions guidelines) 1 4
    (match state with
     | OUT_OF_SCOPE | INFORMATION_SEEKING => false
     | _ => true
     end)
    (should_use_canonical_response state).

End ResponseGenerator.
Export ResponseGenerator.

(* ===================================================================== *)
(** * memory/profile_extractor.py: deduplication and conversations *)
(* ===================================================================== *)

Module Dedup.
Section WithUnicode.
Context {U : Unicode}.

(** The body of the loop of [_deduplicate]. *)
Definition dedup_step (seen : odict) (item : Item) : odict :=
  let key := item_key item in
  match dict_get key seen with
  | Some old =>
      if conf_gt (get_confidence item) (get_confidence old)
      then dict_set key item seen
      else seen
  | None => dict_set key item seen
  end.

Definition _deduplicate (items : list Item) : list Item :=
  values (fold_left dedup_step items []).

(** [merge_profiles]: every key of either dict, with the two lists
    concatenated and deduplicated. *)
Definition merge_profiles (existing new : Extractions) : Extractions :=
  merge (fun a b =>
           match a, b with
           | None, None => None
           | _, _ => Some (_deduplicate (default [] a ++ default [] b))
           end)
        existing new.

(** A message dict of a conversation. *)
Record Message := mkMessage {
  role : option pystr;
  msg_content : option pystr
}.

Section Extractor.
Variable re_findall : pystr -> pystr -> list pystr.
Variable clock : nat -> pystr.

(** The messages [extract_from_conversation] extracts from: those of the
    user when [student_only], with a content that is not empty. *)
Definition extracted_contents (messages : list Message) (student_only : bool)
  : list pystr :=
  omap (fun msg =>
          if (student_only && negb (bool_decide (role msg = Some (py "user"))))%bool
          then None
          else match default [] (msg_content msg) with
               | [] => None
               | content => Some content
               end)
       messages.

(** The extractions of the messages in turn, the clock running on from one
    call to the next. *)
Fixpoint extract_all (readings : nat) (contents : list pystr) : list Extractions :=
  match contents with
  | [] => []
  | content :: contents' =>
      extract_from_message re_findall (fun n => clock (readings + n)) content
      :: extract_all (readings + length (appends re_findall content)) contents'
  end.

Definition extract_from_conversation (messages : list Message) (student_only : bool)
  : Extractions :=
  let all := extract_all 0 (extracted_contents messages student_only) in
  let gather key := flat_map (fun e => default [] (e !! key)) all in
  <["interests" := _deduplicate (gather "interests")]>
    (<["dislikes" := _deduplicate (gather "dislikes")]>
       (<["strengths" := _deduplicate (gather "strengths")]>
          (<["challenges" := _deduplicate (gather "challenges")]>
             (<["career_mentions" := _deduplicate (gather "career_mentions")]> ∅)))).

End Extractor.
End WithUnicode.
End Dedup.
Export Dedup.

(* ===================================================================== *)
(** * memory/memory_referencer.py: references and the memory context *)
(* ===================================================================== *)

Module Reference.

Definition REFERENCE_TEMPLATES : list (pystr * list pystr) :=
  [ (py "interest",
     map py ["Earlier you mentioned you enjoy {content}...";
             "I remember you said you like {content}...";
             "You told me before that you find {content} interesting...";
             "Since you mentioned enjoying {content}..."]%string);
    (py "dislike",
     map py ["I know you mentioned not enjoying {content}...";
             "Since you said {content} isn't really your thing...";
             "You mentioned before that you don't particularly like {content}..."]%string);
    (py "strength",
     map py ["You mentioned being good at {content}...";
             "Since you said you're skilled at {content}...";
             "I remember you saying you do well in {content}..."]%string);
    (py "challenge",
     map py ["You mentioned finding {content} challenging...";
             "Since you said {content} is difficult for you..."]%string);
    (py "career",
     map py ["Last time we talked about {content}...";
             "When we discussed {content} before...";
             "You seemed interested in {content} earlier..."]%string) ].

(** [d.get(key)] on a dict literal. *)
Fixpoint templates_get (key : pystr) (d : list (pystr * list pystr))
  : option (list pystr) :=
  match d with
  | [] => None
  | (k, v) :: d' => if decide (key = k) then Some v else templates_get key d'
  end.

(** [template.format(content=content)] for a template whose only braces
    are those of [{content}] fields; [skip] counts the characters of a field
    still to be passed over. *)
Fixpoint format_content (skip : nat) (content template : pystr) : pystr :=
  match template with
  | [] => []
  | c :: template' =>
      match skip with
      | S k => format_content k content template'
      | O =>
          if startswith (py "{content}") template
          then content ++ format_content 8 content template'
          else c :: format_content 0 content template'
      end
  end.

(** [random.choice(l)]: the element at an index below [len(l)], [pick]
    standing for the random number behind it. *)
Definition choice {A} (pick : nat) (l : list A) : option A :=
  l !! (pick mod length l)%nat.

(** [pick_template] decides the [random.choice] of the template. *)
Definition _generate_reference (pick_template : nat) (memory_type content : pystr)
  : pystr :=
  let templates :=
    default (default [] (templates_get (py "interest") REFERENCE_TEMPLATES))
            (templates_get memory_type REFERENCE_TEMPLATES) in
  format_content 0 content (default [] (choice pick_template templates)).

Definition common_words : list pystr :=
  map py ["i"; "the"; "a"; "an"; "is"; "are"; "was"; "were"; "to"; "in"; "on";
          "at"; "for"]%string.

Section WithUnicode.
Context {U : Unicode}.

(** The two sets of words overlap outside [common_words]. *)
Definition _is_relevant (memory_content current_context : pystr) : bool :=
  let memory_words := split_ws (str_lower memory_content) in
  let context_words := split_ws current_context in
  existsb (fun w => bool_decide (w ∈ context_words)
                    && negb (bool_decide (w ∈ common_words)))%bool
          memory_words.

(** The random numbers one call may consume: the value of
    [random.random()], and those behind the [random.choice] of an interest
    and of a template. *)
Record Draws := mkDraws {
  draw_random : float;
  pick_interest : nat;
  pick_template : nat
}.

(** [current_topic or ""] *)
Definition or_empty (o : option pystr) : pystr := default [] o.

Definition get_relevant_reference (db : Table) (draws : Draws) (sid : Z)
    (current_topic current_input : option pystr) : Table * option (pystr * pystr) :=
  let '(db, profile_summary) := get_profile_summary db sid in
  let current_context := or_empty current_topic ++ py " " ++ or_empty current_input in
  let current_context_lower := str_lower current_context in
  let refer memory_type content :=
    Some (_generate_reference (pick_template draws) memory_type content, memory_type) in
  (db,
   match List.find (fun career => contains (str_lower career) current_context_lower)
                   (s_careers_discussed profile_summary) with
   | Some career => refer (py "career") career
   | None =>
   match List.find (fun interest => _is_relevant interest current_context_lower)
                   (s_interests profile_summary) with
   | Some interest => refer (py "interest") interest
   | None =>
   match List.find (fun strength => _is_relevant strength current_context_lower)
                   (s_strengths profile_summary) with
   | Some strength => refer (py "strength") strength
   | None =>
       if (negb (bool_decide (s_interests profile_summary = []))
           && PrimFloat.ltb (draw_random draws) 0.3)%bool
       then match choice (pick_interest draws) (s_interests profile_summary) with
            | Some interest => refer (py "interest") interest
            | None => None
            end
       else None
   end end end).

(** One informational line of the context, when the list is not empty. *)
Definition context_line (label : pystr) (n : nat) (l : list pystr) : list pystr :=
  match l with
  | [] => []
  | _ => [label ++ join (py ", ") (take n l)]
  end.

Definition build_memory_context (db : Table) (draws : Draws) (sid : Z)
    (include_reference : bool) (current_topic current_input : option pystr)
  : Table * pystr :=
  let '(db, profile_summary) := get_profile_summary db sid in
  let context_parts :=
    context_line (py "Student's interests: ") 5 (s_interests profile_summary)
    ++ context_line (py "Student's dislikes: ") 3 (s_dislikes profile_summary)
    ++ context_line (py "Student's strengths: ") 3 (s_strengths profile_summary)
    ++ context_line (py "Careers previously discussed: ") 5
                    (s_careers_discussed profile_summary) in
  if include_reference then
    let '(db, reference) :=
      get_relevant_reference db draws sid current_topic current_input in
    (db,
     join [10]%N
       (context_parts
        ++ match reference with
           | Some (text, _) =>
               [ [10]%N ++ py "You may naturally reference: '" ++ text ++ py "'";
                 py "(Only use this if it fits naturally in your response)" ]
           | None => []
           end))
  else (db, join [10]%N context_parts).

End WithUnicode.
End Reference.
Export Reference.

(* ===================================================================== *)
(** * Facts about Python strings *)
(* ===================================================================== *)

Module PyStrFacts.

Lemma lstrip_blank s : forallb is_space s = true -> lstrip s = [].
Proof.
  induction s as [|c s IH]; simpl; [reflexivity|].
  intros [Hc Hs]%andb_true_iff. rewrite Hc. auto.
Qed.

Lemma lstrip_nil_blank s : lstrip s = [] -> forallb is_space s = true.
Proof.
  induction s as [|c s IH]; simpl; [reflexivity|].
  destruct (is_space c); [auto | discriminate].
Qed.

Lemma lstrip_suffix s : exists pre, s = pre ++ lstrip s /\ forallb is_space pre = true.
Proof.
  induction s as [|c s (pre & E & Hpre)]; simpl.
  - exists []. split; reflexivity.
  - destruct (is_space c) eqn:Hc.
    + exists (c :: pre). simpl. rewrite Hc, Hpre. split; [congruence | reflexivity].
    + exists []. split; reflexivity.
Qed.

Lemma forallb_rev {A} (f : A -> bool) l : forallb f (rev l) = forallb f l.
Proof.
  induction l as [|x l IH]; simpl; [reflexivity|].
  rewrite forallb_app, IH. simpl. rewrite andb_true_r. apply andb_comm.
Qed.

Lemma strip_blank s : forallb is_space s = true -> strip s = [].
Proof.
  intros H. unfold strip, rstrip. rewrite (lstrip_blank s H). reflexivity.
Qed.

Lemma strip_nil_blank s : strip s = [] -> forallb is_space s = true.
Proof.
  unfold strip, rstrip. intros H.
  assert (H1 : lstrip (rev (lstrip s)) = []).
  { rewrite <- (rev_involutive (lstrip _)). rewrite H. reflexivity. }
  apply lstrip_nil_blank in H1. rewrite forallb_rev in H1.
  destruct (lstrip_suffix s) as (pre & E & Hpre).
  rewrite E, forallb_app, Hpre, H1. reflexivity.
Qed.

(** The empty and the white-space-only strings are those that [strip]
    empties. *)
Lemma strip_nil_iff s : strip s = [] <-> forallb is_space s = true.
Proof. split; [apply strip_nil_blank | apply strip_blank]. Qed.

Lemma forallb_sublist_lstrip (f : codepoint -> bool) s :
  forallb f s = true -> forallb f (lstrip s) = true.
Proof.
  induction s as [|c s IH]; simpl; [auto|].
  intros H. destruct (is_space c); [|exact H].
  apply andb_true_iff in H. tauto.
Qed.

Lemma forallb_strip (f : codepoint -> bool) s :
  forallb f s = true -> forallb f (strip s) = true.
Proof.
  intros H. unfold strip, rstrip. rewrite forallb_rev.
  apply forallb_sublist_lstrip. rewrite forallb_rev.
  apply forallb_sublist_lstrip, H.
Qed.

Lemma startswith_spec p s : startswith p s = true <-> exists post, s = p ++ post.
Proof.
  revert s. induction p as [|a p IH]; intros s; simpl.
  - split; [eauto | reflexivity].
  - destruct s as [|b s].
    + split; [discriminate | intros [post E]; discriminate].
    + rewrite andb_true_iff, IH. unfold cp_eqb. rewrite N.eqb_eq. split.
      * intros [-> [post ->]]. eauto.
      * intros [post E]. injection E as -> ->. eauto.
Qed.

(** [p in s] holds exactly when [p] occurs in [s] as a contiguous block. *)
Lemma contains_spec p s :
  contains p s = true <-> exists pre post, s = pre ++ p ++ post.
Proof.
  induction s as [|c s IH].
  - simpl. rewrite orb_false_r, startswith_spec. split.
    + intros [post E]. exists [], post. exact E.
    + intros (pre & post & E). destruct pre; simpl in E.
      * eauto.
      * discriminate.
  - cbn [contains]. rewrite orb_true_iff, IH, startswith_spec. split.
    + intros [[post E] | (pre & post & E)].
      * exists [], post. exact E.
      * exists (c :: pre), post. simpl. congruence.
    + intros (pre & post & E). destruct pre as [|c' pre]; simpl in E.
      * left. eauto.
      * right. injection E as -> ->. eauto.
Qed.

#[export] Instance ascii_unicode_facts : UnicodeFacts ascii_unicode.
Proof.
  split; simpl.
  - reflexivity.
  - induction s as [|c s IH]; simpl; [reflexivity|].
    intros [Hc Hs]%andb_true_iff. rewrite (IH Hs). f_equal.
    unfold ascii_lower. destruct (in_range 65 90 c) eqn:E; [|reflexivity].
    exfalso. revert Hc E. unfold is_space, in_range, cp_eqb.
    rewrite !orb_true_iff, !andb_true_iff, !N.leb_le, !N.eqb_eq. lia.
  - intros c ->. reflexivity.
  - reflexivity.
Qed.

End PyStrFacts.
Export PyStrFacts.

(* ===================================================================== *)
(** * The classifier *)
(* ===================================================================== *)

Module DetectorFacts.
Section WithUnicode.
Context {U : Unicode}.

Lemma char_before_app prev pre m :
  char_before prev (pre ++ m) = char_before (char_before prev pre) m.
Proof. revert prev. induction pre as [|c pre IH]; intros prev; simpl; auto. Qed.

Lemma match_literal_spec p t prev last rest :
  match_literal p t prev = Some (last, rest)
  <-> exists m, t = m ++ rest
                /\ Forall2 (fun a x => ci_eq a x = true) p m
                /\ last = char_before prev m.
Proof.
  revert t prev. induction p as [|a p IH]; intros t prev; simpl.
  - split.
    + intros [= <- <-]. exists []. repeat split. constructor.
    + intros (m & -> & Hm & ->). inversion Hm. reflexivity.
  - destruct t as [|x t].
    + split; [discriminate|]. intros (m & E & Hm & _).
      inversion Hm; subst. discriminate.
    + destruct (ci_eq a x) eqn:Hax.
      * rewrite IH. split.
        -- intros (m & -> & Hm & ->). exists (x :: m). repeat split.
           constructor; assumption.
        -- intros (m & E & Hm & ->). inversion Hm as [|? y ? m' Hy Hm']; subst.
           injection E as <- ->. exists m'. repeat split. assumption.
      * split; [discriminate|]. intros (m & E & Hm & _).
        inversion Hm as [|? y ? m' Hy Hm']; subst. injection E as <- ->. congruence.
Qed.

Lemma match_word_at_spec p prev t :
  match_word_at p prev t = true
  <-> exists m post,
        t = m ++ post
        /\ Forall2 (fun a x => ci_eq a x = true) p m
        /\ at_boundary prev (head t) = true
        /\ at_boundary (char_before prev m) (head post) = true.
Proof.
  unfold match_word_at. rewrite andb_true_iff. split.
  - intros [Hb H]. destruct (match_literal p t prev) as [[last rest]|] eqn:E;
      [|discriminate].
    apply match_literal_spec in E as (m & -> & Hm & ->).
    exists m, rest. auto.
  - intros (m & post & E & Hm & Hb1 & Hb2). split; [assumption|].
    assert (Hl : match_literal p t prev = Some (char_before prev m, post)).
    { apply match_literal_spec. exists m. auto. }
    rewrite Hl. assumption.
Qed.

Lemma search_word_from_spec p prev t :
  search_word_from p prev t = true
  <-> exists pre m post,
        t = pre ++ m ++ post
        /\ Forall2 (fun a x => ci_eq a x = true) p m
        /\ at_boundary (char_before prev pre) (head (m ++ post)) = true
        /\ at_boundary (char_before prev (pre ++ m)) (head post) = true.
Proof.
  revert prev. induction t as [|c t IH]; intros prev.
  - cbn [search_word_from]. rewrite orb_false_r, match_word_at_spec. split.
    + intros (m & post & E & Hm & Hb1 & Hb2). exists [], m, post.
      rewrite <- E. auto.
    + intros (pre & m & post & E & Hm & Hb1 & Hb2).
      destruct pre; [|discriminate]. exists m, post.
      change ([] ++ m ++ post) with (m ++ post) in E. rewrite <- E in Hb1. auto.
  - cbn [search_word_from]. rewrite orb_true_iff, match_word_at_spec, IH. split.
    + intros [(m & post & E & Hm & Hb1 & Hb2) | (pre & m & post & E & Hm & Hb1 & Hb2)].
      * exists [], m, post. rewrite <- E. auto.
      * exists (c :: pre), m, post. rewrite E. auto.
    + intros (pre & m & post & E & Hm & Hb1 & Hb2). destruct pre as [|c' pre].
      * left. exists m, post.
        change ([] ++ m ++ post) with (m ++ post) in E. rewrite <- E in Hb1. auto.
      * right. injection E as <- ->. exists pre, m, post. auto.
Qed.

(** The search of the compiled pattern finds exactly the word-boundary
    occurrences. *)
Lemma search_word_spec p t : search_word p t = true <-> word_occurrence p t.
Proof. apply search_word_from_spec. Qed.

Lemma word_occurrence_nonempty p t : p <> [] -> word_occurrence p t -> t <> [].
Proof.
  intros Hp (pre & m & post & -> & Hm & _) E.
  apply app_eq_nil in E as [_ E]. apply app_eq_nil in E as [-> _].
  inversion Hm; subst. congruence.
Qed.

Lemma out_of_scope_patterns_nonempty cat pats p :
  In (cat, pats) OUT_OF_SCOPE_PATTERNS -> In p pats -> p <> [].
Proof.
  intros Hc Hp.
  assert (H : forallb (fun cp => forallb (fun p => negb (falsy p)) (snd cp))
                      OUT_OF_SCOPE_PATTERNS = true) by reflexivity.
  rewrite forallb_forall in H. specialize (H _ Hc). simpl in H.
  rewrite forallb_forall in H. specialize (H _ Hp).
  destruct p; [discriminate | congruence].
Qed.

Lemma check_out_of_scope_found text cat pats p :
  In (cat, pats) OUT_OF_SCOPE_PATTERNS -> In p pats ->
  word_occurrence p (_normalize_text text) ->
  exists cat', _check_out_of_scope text = Some cat'.
Proof.
  intros Hc Hp Hw. unfold _check_out_of_scope.
  destruct (List.find _ OUT_OF_SCOPE_PATTERNS) as [[cat' pats']|] eqn:E.
  - exists cat'. reflexivity.
  - exfalso. pose proof (find_none _ _ E _ Hc) as Hn. simpl in Hn.
    assert (Ht : existsb (fun pattern => search_word pattern (_normalize_text text)) pats = true).
    { apply existsb_exists. exists p. split; [assumption|]. apply search_word_spec, Hw. }
    congruence.
Qed.

Context {UF : UnicodeFacts U}.

Lemma normalize_blank text : strip text = [] -> _normalize_text text = [].
Proof.
  intros H. unfold _normalize_text.
  rewrite (lower_blank text) by (apply strip_nil_iff, H). exact H.
Qed.

Lemma detect_state_out_of_scope text cat pats p :
  In (cat, pats) OUT_OF_SCOPE_PATTERNS -> In p pats ->
  word_occurrence p (_normalize_text text) ->
  detect_state text = OUT_OF_SCOPE.
Proof.
  intros Hc Hp Hw.
  assert (Hn : _normalize_text text <> []).
  { eapply word_occurrence_nonempty; [|exact Hw].
    eapply out_of_scope_patterns_nonempty; eassumption. }
  assert (Hs : strip text <> []).
  { intros E. apply Hn, normalize_blank, E. }
  destruct (check_out_of_scope_found text cat pats p Hc Hp Hw) as [cat' E].
  unfold detect_state. rewrite E.
  destruct text as [|c text]; [exfalso; apply Hs; reflexivity|].
  destruct (strip (c :: text)); [congruence | reflexivity].
Qed.

(** ** On ASCII input the database does not matter *)

Lemma existsb_ext_in {A} (f g : A -> bool) l :
  (forall x, In x l -> f x = g x) -> existsb f l = existsb g l.
Proof.
  induction l as [|x l IH]; intros H; simpl; [reflexivity|].
  rewrite (H x) by (left; reflexivity). rewrite IH; [reflexivity|].
  intros y Hy. apply H. right. exact Hy.
Qed.

Lemma find_ext_in {A} (f g : A -> bool) l :
  (forall x, In x l -> f x = g x) -> List.find f l = List.find g l.
Proof.
  induction l as [|x l IH]; intros H; simpl; [reflexivity|].
  rewrite (H x) by (left; reflexivity). rewrite IH; [reflexivity|].
  intros y Hy. apply H. right. exact Hy.
Qed.

Lemma ascii_lower_is_ascii s :
  forallb is_ascii s = true -> forallb is_ascii (map ascii_lower s) = true.
Proof.
  induction s as [|c s IH]; simpl; [reflexivity|].
  intros [Hc Hs]%andb_true_iff. rewrite (IH Hs), andb_true_r.
  revert Hc. unfold is_ascii, ascii_lower, in_range.
  destruct (N.leb 65 c && N.leb c 90)%bool eqn:E; [|auto].
  apply andb_true_iff in E as [_ E%N.leb_le]. rewrite !N.ltb_lt. lia.
Qed.

Lemma normalize_ascii s :
  forallb is_ascii s = true ->
  @_normalize_text U s = @_normalize_text ascii_unicode s.
Proof. intros H. unfold _normalize_text. rewrite (lower_ascii s H). reflexivity. Qed.

Lemma normalize_is_ascii s :
  forallb is_ascii s = true ->
  forallb is_ascii (@_normalize_text ascii_unicode s) = true.
Proof. intros H. apply forallb_strip, ascii_lower_is_ascii, H. Qed.

Lemma is_word_ascii oc :
  ascii_opt oc = true -> @is_word U oc = @is_word ascii_unicode oc.
Proof.
  destruct oc as [c|]; [|reflexivity]. simpl. intros Hc.
  rewrite (alnum_ascii c Hc), Hc. reflexivity.
Qed.

Lemma at_boundary_ascii prev next :
  ascii_opt prev = true -> ascii_opt next = true ->
  @at_boundary U prev next = @at_boundary ascii_unicode prev next.
Proof.
  intros Hp Hn. unfold at_boundary.
  rewrite (is_word_ascii prev Hp), (is_word_ascii next Hn). reflexivity.
Qed.

Lemma ascii_opt_head t : forallb is_ascii t = true -> ascii_opt (head t) = true.
Proof. destruct t; simpl; [reflexivity|]. intros [H _]%andb_true_iff. exact H. Qed.

Lemma match_literal_ascii p t prev :
  forallb is_ascii p = true -> forallb is_ascii t = true ->
  @match_literal U p t prev = @match_literal ascii_unicode p t prev.
Proof.
  revert t prev. induction p as [|a p IH]; intros t prev Hp Ht; simpl; [reflexivity|].
  destruct t as [|x t]; [reflexivity|].
  simpl in Hp, Ht. apply andb_true_iff in Hp as [Ha Hp]. apply andb_true_iff in Ht as [Hx Ht].
  rewrite (ci_eq_ascii a x Ha Hx), (IH t (Some x) Hp Ht). reflexivity.
Qed.

Lemma match_literal_keeps_ascii p t prev last rest :
  ascii_opt prev = true -> forallb is_ascii t = true ->
  @match_literal ascii_unicode p t prev = Some (last, rest) ->
  ascii_opt last = true /\ forallb is_ascii rest = true.
Proof.
  revert t prev. induction p as [|a p IH]; intros t prev Hprev Ht; simpl.
  - intros [= <- <-]. auto.
  - destruct t as [|x t]; [discriminate|].
    simpl in Ht. apply andb_true_iff in Ht as [Hx Ht].
    destruct (cp_eqb (ascii_lower a) (ascii_lower x)); [|discriminate].
    apply IH; assumption.
Qed.

Lemma match_word_at_ascii p prev t :
  forallb is_ascii p = true -> forallb is_ascii t = true -> ascii_opt prev = true ->
  @match_word_at U p prev t = @match_word_at ascii_unicode p prev t.
Proof.
  intros Hp Ht Hprev. unfold match_word_at.
  rewrite (at_boundary_ascii prev (head t) Hprev (ascii_opt_head t Ht)).
  rewrite (match_literal_ascii p t prev Hp Ht).
  destruct (@match_literal ascii_unicode p t prev) as [[last rest]|] eqn:E; [|reflexivity].
  destruct (match_literal_keeps_ascii p t prev last rest Hprev Ht E) as [Hl Hr].
  rewrite (at_boundary_ascii last (head rest) Hl (ascii_opt_head rest Hr)). reflexivity.
Qed.

Lemma search_word_from_ascii p prev t :
  forallb is_ascii p = true -> forallb is_ascii t = true -> ascii_opt prev = true ->
  @search_word_from U p prev t = @search_word_from ascii_unicode p prev t.
Proof.
  intros Hp. revert prev. induction t as [|c t IH]; intros prev Ht Hprev;
    cbn [search_word_from]; rewrite (match_word_at_ascii p prev _ Hp Ht Hprev);
    [reflexivity|].
  simpl in Ht. apply andb_true_iff in Ht as [Hc Ht].
  rewrite (IH (Some c) Ht Hc). reflexivity.
Qed.

Lemma check_patterns_ascii s patterns :
  forallb is_ascii s = true -> forallb (forallb is_ascii) patterns = true ->
  @_check_patterns U s patterns = @_check_patterns ascii_unicode s patterns.
Proof.
  intros Hs Hps. unfold _check_patterns. rewrite (normalize_ascii s Hs).
  apply existsb_ext_in. intros p Hp.
  rewrite forallb_forall in Hps. rewrite (lower_ascii p (Hps p Hp)). reflexivity.
Qed.

Lemma check_out_of_scope_ascii s :
  forallb is_ascii s = true ->
  @_check_out_of_scope U s = @_check_out_of_scope ascii_unicode s.
Proof.
  intros Hs. unfold _check_out_of_scope. rewrite (normalize_ascii s Hs). f_equal.
  apply find_ext_in. intros [cat pats] Hc. simpl.
  apply existsb_ext_in. intros p Hp. unfold search_word.
  apply search_word_from_ascii; [|apply normalize_is_ascii, Hs|reflexivity].
  assert (H : forallb (fun cp => forallb (forallb is_ascii) (snd cp))
                      OUT_OF_SCOPE_PATTERNS = true) by reflexivity.
  rewrite forallb_forall in H. specialize (H _ Hc). simpl in H.
  rewrite forallb_forall in H. exact (H p Hp).
Qed.

Lemma is_greeting_ascii s :
  forallb is_ascii s = true -> @_is_greeting U s = @_is_greeting ascii_unicode s.
Proof.
  intros Hs. unfold _is_greeting.
  rewrite (normalize_ascii s Hs), (check_patterns_ascii s GREETING_PATTERNS Hs eq_refl).
  destruct (length _ <=? 3)%nat; [reflexivity|].
  apply existsb_ext_in. intros p Hp.
  assert (H : forallb (forallb is_ascii) GREETING_PATTERNS = true) by reflexivity.
  rewrite forallb_forall in H. rewrite (lower_ascii p (H p Hp)). reflexivity.
Qed.

Lemma is_self_reflection_ascii s :
  forallb is_ascii s = true ->
  @_is_self_reflection U s = @_is_self_reflection ascii_unicode s.
Proof.
  intros Hs. unfold _is_self_reflection.
  rewrite (normalize_ascii s Hs),
    (check_patterns_ascii s SELF_REFLECTION_PATTERNS Hs eq_refl).
  destruct (@_check_patterns ascii_unicode s SELF_REFLECTION_PATTERNS); [|reflexivity].
  f_equal. apply existsb_ext_in. intros p Hp.
  assert (H : forallb (forallb is_ascii) sharing_phrases = true) by reflexivity.
  rewrite forallb_forall in H. rewrite (lower_ascii p (H p Hp)). reflexivity.
Qed.

Lemma check_patterns_nonblank text patterns :
  forallb (fun p => forallb is_ascii p && negb (falsy p))%bool patterns = true ->
  _check_patterns text patterns = true -> strip text <> [].
Proof.
  intros Hps H E. unfold _check_patterns in H. rewrite (normalize_blank text E) in H.
  apply existsb_exists in H as (p & Hp & Hc).
  rewrite forallb_forall in Hps. specialize (Hps p Hp).
  apply andb_true_iff in Hps as [Ha Hn].
  rewrite (lower_ascii p Ha) in Hc. destruct p; [discriminate Hn | discriminate Hc].
Qed.

Lemma sharing_phrases_lower p : In p sharing_phrases -> str_lower p = p.
Proof.
  intros Hp.
  assert (H : forallb (fun p => forallb is_ascii p
                                && bool_decide (map ascii_lower p = p))%bool
                      sharing_phrases = true) by reflexivity.
  rewrite forallb_forall in H. specialize (H p Hp).
  apply andb_true_iff in H as [Ha He]. rewrite (lower_ascii p Ha).
  apply bool_decide_eq_true in He. exact He.
Qed.

(** On an ASCII message the classifier's answer is the one computed with
    the ASCII tables. *)
Lemma detect_state_ascii s :
  forallb is_ascii s = true -> @detect_state U s = @detect_state ascii_unicode s.
Proof.
  intros Hs. unfold detect_state, _is_confused, _is_validation_seeking,
    _is_comparison, _is_career_curiosity, _is_information_seeking.
  rewrite (check_out_of_scope_ascii s Hs), (is_greeting_ascii s Hs),
    (is_self_reflection_ascii s Hs),
    (check_patterns_ascii s CONFUSION_PATTERNS Hs eq_refl),
    (check_patterns_ascii s VALIDATION_PATTERNS Hs eq_refl),
    (check_patterns_ascii s COMPARISON_PATTERNS Hs eq_refl),
    (check_patterns_ascii s CAREER_PATTERNS Hs eq_refl),
    (check_patterns_ascii s INFORMATION_PATTERNS Hs eq_refl).
  reflexivity.
Qed.

End WithUnicode.

(** ** Occurrences in the message as typed

    With the ASCII tables, an occurrence of a phrase in the raw message is
    still there after lowercasing and stripping, provided the phrase neither
    begins nor ends with white space. *)

Section Raw.

Lemma ascii_lower_idem c : ascii_lower (ascii_lower c) = ascii_lower c.
Proof.
  unfold ascii_lower, in_range.
  destruct (N.leb 65 c && N.leb c 90)%bool eqn:E; [|rewrite E; reflexivity].
  apply andb_true_iff in E as [H1%N.leb_le H2%N.leb_le].
  destruct (N.leb 65 (c + 32) && N.leb (c + 32) 90)%bool eqn:E'; [|reflexivity].
  apply andb_true_iff in E' as [_ H%N.leb_le]. lia.
Qed.

Lemma is_word_lower oc :
  @is_word ascii_unicode (option_map ascii_lower oc) = @is_word ascii_unicode oc.
Proof.
  destruct oc as [c|]; [|reflexivity]. simpl.
  unfold ascii_lower, is_ascii, ascii_alnum, in_range, cp_eqb.
  destruct (N.leb 65 c && N.leb c 90)%bool eqn:E; [|rewrite ?E; reflexivity].
  apply andb_true_iff in E as [H1%N.leb_le H2%N.leb_le].
  assert (Hl : (c <? 128)%N = true) by (apply N.ltb_lt; lia).
  assert (Hl' : (c + 32 <? 128)%N = true) by (apply N.ltb_lt; lia).
  assert (Hu' : (N.leb 97 (c + 32) && N.leb (c + 32) 122)%bool = true)
    by (apply andb_true_iff; split; apply N.leb_le; lia).
  rewrite Hl, Hl', Hu', !orb_true_r. reflexivity.
Qed.

Lemma is_word_space c : is_space c = true -> @is_word ascii_unicode (Some c) = false.
Proof.
  simpl. unfold is_space, is_ascii, ascii_alnum, in_range, cp_eqb.
  rewrite !orb_true_iff, !andb_true_iff, !N.leb_le, !N.eqb_eq. intros H.
  apply orb_false_iff. split.
  - apply andb_false_iff.
    destruct (N.ltb_spec c 128) as [Hlt|Hge]; [right | left; reflexivity].
    rewrite !orb_false_iff, !andb_false_iff, !N.leb_gt. lia.
  - apply N.eqb_neq. lia.
Qed.

Lemma ci_match_space a x : is_space a = false -> ci_match a x -> is_space x = false.
Proof.
  simpl. unfold cp_eqb. intros Ha E%N.eqb_eq.
  destruct (is_space x) eqn:Hx; [|reflexivity]. exfalso.
  assert (Hxl : ascii_lower x = x).
  { unfold ascii_lower, in_range.
    destruct (N.leb 65 x && N.leb x 90)%bool eqn:Ex; [|reflexivity].
    apply andb_true_iff in Ex as [H1%N.leb_le H2%N.leb_le].
    revert Hx. unfold is_space, in_range, cp_eqb.
    rewrite !orb_true_iff, !andb_true_iff, !N.leb_le, !N.eqb_eq. lia. }
  rewrite Hxl in E. subst x. revert Ha Hx.
  unfold ascii_lower, in_range.
  destruct (N.leb 65 a && N.leb a 90)%bool eqn:Ea; [|congruence].
  apply andb_true_iff in Ea as [H1%N.leb_le H2%N.leb_le]. intros _.
  unfold is_space, in_range, cp_eqb.
  rewrite !orb_true_iff, !andb_true_iff, !N.leb_le, !N.eqb_eq. lia.
Qed.

Lemma char_before_map prev l :
  char_before (option_map ascii_lower prev) (map ascii_lower l)
  = option_map ascii_lower (char_before prev l).
Proof.
  revert prev. induction l as [|c l IH]; intros prev; simpl; [reflexivity|].
  apply (IH (Some c)).
Qed.

Lemma head_map (l : pystr) : head (map ascii_lower l) = option_map ascii_lower (head l).
Proof. destruct l; reflexivity. Qed.

Lemma at_boundary_lower prev next :
  @at_boundary ascii_unicode (option_map ascii_lower prev) (option_map ascii_lower next)
  = @at_boundary ascii_unicode prev next.
Proof. unfold at_boundary. rewrite !is_word_lower. reflexivity. Qed.

Lemma ci_match_lower p m :
  Forall2 ci_match p m -> Forall2 ci_match p (map ascii_lower m).
Proof.
  induction 1 as [|a x p m Hax _ IH]; simpl; constructor; [|exact IH].
  simpl in *. rewrite ascii_lower_idem. exact Hax.
Qed.

(** Lowercasing the text keeps an occurrence. *)
Lemma word_occurrence_lower p t :
  @word_occurrence ascii_unicode p t ->
  @word_occurrence ascii_unicode p (map ascii_lower t).
Proof.
  intros (pre & m & post & -> & Hm & Hb1 & Hb2).
  exists (map ascii_lower pre), (map ascii_lower m), (map ascii_lower post).
  split; [rewrite !map_app; reflexivity|].
  split; [apply ci_match_lower, Hm|].
  rewrite <- !map_app, !head_map.
  change (@None codepoint) with (option_map ascii_lower None).
  rewrite !char_before_map, !at_boundary_lower. auto.
Qed.

Lemma lstrip_app_word a x c :
  is_space c = false -> lstrip (a ++ c :: x) = lstrip a ++ c :: x.
Proof.
  intros Hc. induction a as [|b a IH]; simpl.
  - rewrite Hc. reflexivity.
  - destruct (is_space b); [exact IH | reflexivity].
Qed.

Lemma rstrip_app_word x c b :
  is_space c = false -> rstrip (x ++ c :: b) = x ++ c :: rstrip b.
Proof.
  intros Hc. unfold rstrip.
  rewrite rev_app_distr. simpl. rewrite <- app_assoc. simpl.
  rewrite (lstrip_app_word (rev b) (rev x) c Hc).
  rewrite rev_app_distr. simpl. rewrite rev_involutive, <- app_assoc. reflexivity.
Qed.

Lemma char_before_nonempty prev prev' m : m <> [] -> char_before prev m = char_before prev' m.
Proof. destruct m; [congruence | reflexivity]. Qed.

Lemma is_word_before_lstrip prev pre :
  @is_word ascii_unicode prev = false ->
  @is_word ascii_unicode (char_before None (lstrip pre))
  = @is_word ascii_unicode (char_before prev pre).
Proof.
  revert prev. induction pre as [|c pre IH]; intros prev Hp.
  - simpl. rewrite Hp. reflexivity.
  - cbn [lstrip char_before]. destruct (is_space c) eqn:Hc.
    + apply IH, is_word_space, Hc.
    + reflexivity.
Qed.

Lemma rstrip_prefix s : exists suf, s = rstrip s ++ suf /\ forallb is_space suf = true.
Proof.
  destruct (lstrip_suffix (rev s)) as (pre & E & Hpre).
  exists (rev pre). split.
  - unfold rstrip. rewrite <- rev_app_distr, <- E, rev_involutive. reflexivity.
  - rewrite forallb_rev. exact Hpre.
Qed.

Lemma is_word_head_rstrip post :
  @is_word ascii_unicode (head (rstrip post)) = @is_word ascii_unicode (head post).
Proof.
  destruct (rstrip_prefix post) as (suf & E & Hs).
  destruct (rstrip post) as [|c r] eqn:Er.
  - simpl in E. subst post. destruct suf as [|c suf]; [reflexivity|].
    simpl in Hs. apply andb_true_iff in Hs as [Hc _].
    cbn [head]. rewrite (is_word_space c Hc). reflexivity.
  - rewrite E. reflexivity.
Qed.

(** Stripping the text keeps an occurrence of a phrase that has no white
    space at either end. *)
Lemma word_occurrence_strip p t :
  (exists a p', p = a :: p' /\ is_space a = false) ->
  (exists p' z, p = p' ++ [z] /\ is_space z = false) ->
  @word_occurrence ascii_unicode p t -> @word_occurrence ascii_unicode p (strip t).
Proof.
  intros (a & pa & Ea & Ha) (pz & z & Ez & Hz) (pre & m & post & -> & Hm & Hb1 & Hb2).
  assert (Hfirst : exists x m', m = x :: m' /\ is_space x = false).
  { rewrite Ea in Hm. inversion Hm as [|? x ? m' Hax Hm']; subst.
    exists x, m'. split; [reflexivity|]. apply (ci_match_space a x Ha Hax). }
  assert (Hlast : exists m' y, m = m' ++ [y] /\ is_space y = false).
  { rewrite Ez in Hm. apply Forall2_app_inv_l in Hm as (m1 & m2 & H1 & H2 & ->).
    inversion H2 as [|? y ? m3 Hzy H3]; subst. inversion H3; subst.
    exists m1, y. split; [reflexivity|]. apply (ci_match_space z y Hz Hzy). }
  destruct Hfirst as (x & mx & Ex & Hx). destruct Hlast as (my & y & Ey & Hy).
  assert (Hne : m <> []) by (rewrite Ex; discriminate).
  assert (Es : strip (pre ++ m ++ post) = lstrip pre ++ m ++ rstrip post).
  { unfold strip.
    assert (El : lstrip (pre ++ m ++ post) = lstrip pre ++ m ++ post).
    { rewrite Ex. exact (lstrip_app_word pre (mx ++ post) x Hx). }
    rewrite El, Ey, <- !app_assoc. cbn [app].
    rewrite (app_assoc (lstrip pre) my).
    rewrite (rstrip_app_word _ y post Hy), <- app_assoc. reflexivity. }
  exists (lstrip pre), m, (rstrip post). split; [exact Es|]. split; [exact Hm|].
  revert Hb1 Hb2. unfold at_boundary.
  rewrite (is_word_before_lstrip None pre eq_refl).
  rewrite !char_before_app.
  rewrite (char_before_nonempty (char_before None (lstrip pre)) (char_before None pre) m Hne).
  rewrite is_word_head_rstrip.
  rewrite Ex. cbn [app head]. auto.
Qed.

Lemma out_of_scope_patterns_ends cat pats p :
  In (cat, pats) OUT_OF_SCOPE_PATTERNS -> In p pats ->
  (exists a p', p = a :: p' /\ is_space a = false)
  /\ (exists p' z, p = p' ++ [z] /\ is_space z = false).
Proof.
  intros Hc Hp.
  assert (H : forallb (fun cp => forallb
                         (fun p => match p, rev p with
                                   | a :: _, z :: _ => negb (is_space a) && negb (is_space z)
                                   | _, _ => false
                                   end)%bool (snd cp))
                      OUT_OF_SCOPE_PATTERNS = true) by reflexivity.
  rewrite forallb_forall in H. specialize (H _ Hc). simpl in H.
  rewrite forallb_forall in H. specialize (H _ Hp).
  destruct p as [|a p']; [discriminate|].
  destruct (rev p' ++ [a]) as [|z r] eqn:Er; [discriminate|].
  change (rev p' ++ [a]) with (rev (a :: p')) in Er.
  apply andb_true_iff in H as [Ha%negb_true_iff Hz%negb_true_iff]. split.
  - exists a, p'. auto.
  - exists (rev r), z. split; [|exact Hz].
    rewrite <- (rev_involutive (a :: p')), Er. reflexivity.
Qed.

End Raw.

(** An ASCII message in which a trigger phrase occurs between word
    boundaries, in any letter case, is classified [OUT_OF_SCOPE]. *)
Lemma detect_state_out_of_scope_raw {U : Unicode} {UF : UnicodeFacts U} msg cat pats p :
  forallb is_ascii msg = true ->
  In (cat, pats) OUT_OF_SCOPE_PATTERNS -> In p pats ->
  @word_occurrence ascii_unicode p msg ->
  @detect_state U msg = OUT_OF_SCOPE.
Proof.
  intros Ha Hc Hp Hw. rewrite (detect_state_ascii msg Ha).
  apply (@detect_state_out_of_scope ascii_unicode _ msg cat pats p Hc Hp).
  destruct (out_of_scope_patterns_ends cat pats p Hc Hp) as [H1 H2].
  apply (word_occurrence_strip p _ H1 H2), word_occurrence_lower, Hw.
Qed.

End DetectorFacts.
Export DetectorFacts.

(* ===================================================================== *)
(** * Claims about the classifier *)
(* ===================================================================== *)

(** C1.  A message whose normalized text has a word-boundary occurrence of
    any phrase of any category of [OUT_OF_SCOPE_PATTERNS] is classified
    [OUT_OF_SCOPE], whatever else it contains; so is every ASCII message in
    which such a phrase occurs between word boundaries as typed, in any
    letter case; in particular the message
    "I'm depressed about my career choices" is. *)
Theorem out_of_scope_wins (U : Unicode) (UF : UnicodeFacts U) :
  (forall msg cat pats p,
      In (cat, pats) OUT_OF_SCOPE_PATTERNS -> In p pats ->
      word_occurrence p (_normalize_text msg) ->
      detect_state msg = OUT_OF_SCOPE)
  /\ (forall msg cat pats p,
        forallb is_ascii msg = true ->
        In (cat, pats) OUT_OF_SCOPE_PATTERNS -> In p pats ->
        @word_occurrence ascii_unicode p msg ->
        detect_state msg = OUT_OF_SCOPE)
  /\ detect_state (py "I'm depressed about my career choices") = OUT_OF_SCOPE.
Proof.
  split; [|split].
  - intros msg cat pats p. apply detect_state_out_of_scope.
  - intros msg cat pats p. apply detect_state_out_of_scope_raw.
  - rewrite detect_state_ascii by reflexivity. vm_compute. reflexivity.
Qed.

Lemma out_of_scope_wins_witness :
  @detect_state ascii_unicode (py "Hello, what does a doctor do about a Crush?")
  = OUT_OF_SCOPE.
Proof.
  apply (proj1 (proj2 (out_of_scope_wins ascii_unicode ascii_unicode_facts))
               _ relationships
               (map py ["boyfriend"; "girlfriend"; "dating"; "crush"; "love life";
                        "breakup"; "broke up"; "relationship advice"; "ex-"; "my ex";
                        "cheating"; "cheated"]%string)
               (py "crush")).
  - reflexivity.
  - vm_compute. tauto.
  - vm_compute. tauto.
  - apply search_word_spec. vm_compute. reflexivity.
Defined.

(** C3.  [detect_state] returns exactly one state on every input; an empty
    or white-space-only input gives [CONFUSED], in particular "" and three
    spaces do; and an input on which no rule fires gives the default
    [CAREER_CURIOSITY]. *)
Theorem detect_state_total (U : Unicode) :
  (forall s, exists! st, detect_state s = st)
  /\ (forall s, forallb is_space s = true -> detect_state s = CONFUSED)
  /\ detect_state (py "") = CONFUSED
  /\ detect_state (py "   ") = CONFUSED
  /\ (forall s,
        forallb is_space s = false ->
        _check_out_of_scope s = None ->
        _is_greeting s = false ->
        _is_confused s = false ->
        _is_validation_seeking s = false ->
        _is_self_reflection s = false ->
        _is_comparison s = false ->
        _is_career_curiosity s = false ->
        _is_information_seeking s = false ->
        detect_state s = CAREER_CURIOSITY).
Proof.
  assert (Hblank : forall s, forallb is_space s = true -> detect_state s = CONFUSED).
  { intros s H. unfold detect_state. rewrite (strip_blank s H).
    simpl. rewrite orb_true_r. reflexivity. }
  split; [|split; [exact Hblank|split; [|split]]].
  - intros s. exists (detect_state s). split; [reflexivity | auto].
  - apply Hblank. reflexivity.
  - apply Hblank. reflexivity.
  - intros s Hs H1 H2 H3 H4 H5 H6 H7 H8. unfold detect_state.
    rewrite H1, H2, H3, H4, H5, H6, H7, H8.
    destruct (falsy s || falsy (strip s))%bool eqn:E; [|reflexivity].
    exfalso. assert (Hn : strip s = []).
    { apply orb_true_iff in E as [E|E].
      - destruct s; [reflexivity | discriminate E].
      - destruct (strip s); [reflexivity | discriminate E]. }
    apply strip_nil_iff in Hn. congruence.
Qed.

Lemma detect_state_total_witness :
  @detect_state ascii_unicode (py "zebra") = CAREER_CURIOSITY.
Proof.
  apply (proj2 (proj2 (proj2 (proj2 (detect_state_total ascii_unicode)))));
    vm_compute; reflexivity.
Defined.

(** C7, as the code has it.  For a message that contains a self-reflection
    phrase, fires no earlier rule and is interrogative, the result is
    [SELF_REFLECTION] exactly when its normalized text contains, anywhere,
    one of the six phrases listed in [_is_self_reflection]; otherwise the
    result is the one of the later rules. *)
Theorem self_reflection_when_interrogative (U : Unicode) (UF : UnicodeFacts U) :
  forall msg,
    _check_patterns msg SELF_REFLECTION_PATTERNS = true ->
    _check_out_of_scope msg = None ->
    _is_greeting msg = false ->
    _is_confused msg = false ->
    _is_validation_seeking msg = false ->
    is_question (_normalize_text msg) = true ->
    (detect_state msg = SELF_REFLECTION
     <-> exists p, In p sharing_phrases /\ contains p (_normalize_text msg) = true)
    /\ ((forall p, In p sharing_phrases -> contains p (_normalize_text msg) = false) ->
        detect_state msg
        = if _is_comparison msg then COMPARISON
          else if _is_career_curiosity msg then CAREER_CURIOSITY
          else if _is_information_seeking msg then INFORMATION_SEEKING
          else CAREER_CURIOSITY).
Proof.
  intros msg Hsr Hoos Hg Hc Hv Hq.
  assert (Hnb : (falsy msg || falsy (strip msg))%bool = false).
  { pose proof (check_patterns_nonblank msg SELF_REFLECTION_PATTERNS eq_refl Hsr) as Hn.
    destruct msg as [|c msg]; [exfalso; apply Hn; reflexivity|].
    destruct (strip (c :: msg)); [congruence | reflexivity]. }
  assert (Hex : existsb (fun p => contains (str_lower p) (_normalize_text msg))
                        sharing_phrases = true
                <-> exists p, In p sharing_phrases
                              /\ contains p (_normalize_text msg) = true).
  { rewrite existsb_exists. split; intros (p & Hp & H); exists p; split; auto.
    - rewrite (sharing_phrases_lower p Hp) in H. exact H.
    - rewrite (sharing_phrases_lower p Hp). exact H. }
  assert (Hd : detect_state msg
               = if existsb (fun p => contains (str_lower p) (_normalize_text msg))
                            sharing_phrases
                 then SELF_REFLECTION
                 else if _is_comparison msg then COMPARISON
                      else if _is_career_curiosity msg then CAREER_CURIOSITY
                           else if _is_information_seeking msg then INFORMATION_SEEKING
                                else CAREER_CURIOSITY).
  { unfold detect_state. rewrite Hnb, Hoos, Hg, Hc, Hv.
    unfold _is_self_reflection. rewrite Hsr, Hq. reflexivity. }
  split.
  - rewrite <- Hex, Hd.
    destruct (existsb _ sharing_phrases); [tauto|].
    split; [|discriminate].
    destruct (_is_comparison msg); [discriminate|].
    destruct (_is_career_curiosity msg); [discriminate|].
    destruct (_is_information_seeking msg); discriminate.
  - intros Hno. rewrite Hd.
    destruct (existsb _ sharing_phrases); [|reflexivity].
    destruct (proj1 Hex eq_refl) as (p & Hp & H).
    rewrite (Hno p Hp) in H. discriminate.
Qed.

Lemma self_reflection_when_interrogative_witness :
  @detect_state ascii_unicode (py "why do i like math?") = SELF_REFLECTION.
Proof.
  apply (proj1 (self_reflection_when_interrogative ascii_unicode ascii_unicode_facts
                  (py "why do i like math?")
                  eq_refl eq_refl eq_refl eq_refl eq_refl eq_refl)).
  exists (py "i like"). split; [vm_compute; tauto | reflexivity].
Defined.

(** C7 as stated fails on "why do i like math?": the message contains the
    self-reflection phrase "i like", fires no earlier rule, is interrogative
    and is classified [SELF_REFLECTION], yet neither the message nor its
    normalized text begins with any of the six phrases. *)
Lemma self_reflection_begins_counterexample :
  let msg := py "why do i like math?" in
  @_check_patterns ascii_unicode msg SELF_REFLECTION_PATTERNS = true
  /\ @_check_out_of_scope ascii_unicode msg = None
  /\ @_is_greeting ascii_unicode msg = false
  /\ @_is_confused ascii_unicode msg = false
  /\ @_is_validation_seeking ascii_unicode msg = false
  /\ is_question (@_normalize_text ascii_unicode msg) = true
  /\ @detect_state ascii_unicode msg = SELF_REFLECTION
  /\ existsb (fun p => startswith p msg) sharing_phrases = false
  /\ existsb (fun p => startswith p (@_normalize_text ascii_unicode msg))
             sharing_phrases = false.
Proof. vm_compute. repeat split; reflexivity. Qed.

(* ===================================================================== *)
(** * The validator *)
(* ===================================================================== *)

Module GuardrailFacts.
Section WithUnicode.
Context {U : Unicode}.

Lemma in_when {A} (b : bool) (x y : A) : In y (when b x) <-> b = true /\ y = x.
Proof.
  destruct b; simpl; split.
  - intros [<- | []]. auto.
  - intros [_ ->]. auto.
  - intros [].
  - intros [H _]. discriminate H.
Qed.

Lemma when_nil {A} (b : bool) (x : A) : when b x = [] <-> b = false.
Proof. destruct b; simpl; split; congruence. Qed.

Lemma length_zero_nil {A} (l : list A) : (length l =? 0)%nat = true <-> l = [].
Proof. destruct l; simpl; split; congruence. Qed.

(** The response is valid exactly when no check appended anything. *)
Lemma valid_iff response state :
  fst (validate_response response state) = true
  <-> (count_questions response <= max_questions_for state
       /\ count_emojis response <= 1
       /\ check_forbidden_phrases response = []
       /\ count_paragraphs response <= 5
       /\ (state = OUT_OF_SCOPE -> startswith expected_start (strip response) = true))%nat.
Proof.
  unfold validate_response. cbn [fst]. rewrite length_zero_nil.
  rewrite !app_nil, !when_nil, !Nat.ltb_ge, negb_false_iff, bool_decide_eq_true.
  assert (Hc : match state with
               | OUT_OF_SCOPE =>
                   when (negb (startswith expected_start (strip response)))
                        CanonicalRequired
               | _ => []
               end = []
               <-> (state = OUT_OF_SCOPE
                    -> startswith expected_start (strip response) = true)).
  { destruct state; try (split; [discriminate | reflexivity]).
    rewrite when_nil, negb_false_iff. tauto. }
  rewrite Hc. tauto.
Qed.

(** An emoji-count violation is reported exactly when [count_emojis]
    exceeds one. *)
Lemma emoji_violation_iff response state n :
  In (TooManyEmojis n) (snd (validate_response response state))
  <-> (1 < count_emojis response)%nat /\ n = count_emojis response.
Proof.
  unfold validate_response. cbn [snd]. rewrite !in_app_iff, !in_when. split.
  - intros [[_ H] | [[H E] | [[_ H] | [[_ H] | H]]]]; try discriminate H.
    + injection E as ->. apply Nat.ltb_lt in H. auto.
    + destruct state; try destruct H. apply in_when in H as [_ H]. discriminate H.
  - intros [H ->]. apply Nat.ltb_lt in H. auto.
Qed.

(** The canonical-response violation is reported exactly for state
    [OUT_OF_SCOPE] and a stripped response that does not start with
    [expected_start]. *)
Lemma canonical_violation_iff response state :
  In CanonicalRequired (snd (validate_response response state))
  <-> state = OUT_OF_SCOPE /\ startswith expected_start (strip response) = false.
Proof.
  unfold validate_response. cbn [snd]. rewrite !in_app_iff, !in_when. split.
  - intros [[_ H] | [[_ H] | [[_ H] | [[_ H] | H]]]]; try discriminate H.
    destruct state; try destruct H. apply in_when in H as [H _].
    apply negb_true_iff in H. auto.
  - intros [-> H]. do 4 right. apply in_when. rewrite H. auto.
Qed.

End WithUnicode.
End GuardrailFacts.
Export GuardrailFacts.

(** C2, as the code has it.  For state [OUT_OF_SCOPE] a response is valid
    exactly when it has no question mark, at most one emoji run, no
    forbidden phrase, at most five paragraphs and, once stripped, starts
    with [expected_start]; a response that, stripped, does not start with
    [expected_start] is invalid and carries the canonical-response
    violation, and no other response carries it. *)
Theorem out_of_scope_validation (U : Unicode) :
  forall text,
    (fst (validate_response text OUT_OF_SCOPE) = true
     <-> count_questions text = 0%nat
         /\ (count_emojis text <= 1)%nat
         /\ check_forbidden_phrases text = []
         /\ (count_paragraphs text <= 5)%nat
         /\ startswith expected_start (strip text) = true)
    /\ (startswith expected_start (strip text) = false ->
        fst (validate_response text OUT_OF_SCOPE) = false
        /\ In CanonicalRequired (snd (validate_response text OUT_OF_SCOPE)))
    /\ (In CanonicalRequired (snd (validate_response text OUT_OF_SCOPE)) ->
        startswith expected_start (strip text) = false).
Proof.
  intros text. split; [|split].
  - rewrite valid_iff. cbn [max_questions_for]. split.
    + intros (Hq & He & Hf & Hp & Hc). repeat split; auto. lia.
    + intros (Hq & He & Hf & Hp & Hc). repeat split; auto. lia.
  - intros H. split.
    + destruct (fst (validate_response text OUT_OF_SCOPE)) eqn:E; [|reflexivity].
      apply valid_iff in E as (_ & _ & _ & _ & Hc). rewrite (Hc eq_refl) in H.
      discriminate H.
    + apply canonical_violation_iff. auto.
  - intros H. apply canonical_violation_iff in H as [_ H]. exact H.
Qed.

Lemma out_of_scope_validation_witness :
  fst (@validate_response ascii_unicode (py "Let's talk about something else.") OUT_OF_SCOPE)
  = false
  /\ In CanonicalRequired
        (snd (@validate_response ascii_unicode (py "Let's talk about something else.")
                                 OUT_OF_SCOPE)).
Proof.
  apply (proj1 (proj2 (out_of_scope_validation ascii_unicode
                         (py "Let's talk about something else.")))).
  vm_compute. reflexivity.
Defined.

(** C2 as stated fails on the text "I'm sorry — I don't have the right
    context": it is valid for [OUT_OF_SCOPE], yet it is shorter than the
    canonical response and so does not start with it. *)
Lemma canonical_iff_counterexample :
  let text := py "I'm sorry " ++ [0x2014]%N ++ py " I don't have the right context" in
  fst (@validate_response ascii_unicode text OUT_OF_SCOPE) = true
  /\ startswith CANONICAL_OUT_OF_SCOPE_RESPONSE text = false
  /\ (length text < length CANONICAL_OUT_OF_SCOPE_RESPONSE)%nat.
Proof. vm_compute. repeat split; lia. Qed.

(** The constant of constants.py itself: its fourth word is not the em dash
    of [expected_start], so the validator rejects it. *)
Lemma canonical_constant_rejected :
  @validate_response ascii_unicode CANONICAL_OUT_OF_SCOPE_RESPONSE OUT_OF_SCOPE
  = (false, [CanonicalRequired]).
Proof. vm_compute. reflexivity. Qed.

(** The same text with the em dash, as prompts/state_prompts.py quotes it, is
    accepted. *)
Lemma prompted_response_accepted :
  @validate_response ascii_unicode prompted_out_of_scope_response OUT_OF_SCOPE
  = (true, []).
Proof. vm_compute. reflexivity. Qed.

(** C5, on the code.  [count_emojis] counts runs of emoji, not emoji: the
    response with three emoji in a row has count 1 and gets no emoji-count
    violation, like the response with one emoji. *)
Theorem emoji_run_counts_once (U : Unicode) :
  count_emojis three_emoji_great = 1%nat
  /\ (forall n, ~ In (TooManyEmojis n)
                     (snd (validate_response three_emoji_great CAREER_CURIOSITY)))
  /\ count_emojis one_emoji_great = 1%nat
  /\ (forall n, ~ In (TooManyEmojis n)
                     (snd (validate_response one_emoji_great CAREER_CURIOSITY))).
Proof.
  assert (H3 : count_emojis three_emoji_great = 1%nat) by reflexivity.
  assert (H1 : count_emojis one_emoji_great = 1%nat) by reflexivity.
  repeat split; auto.
  - intros n [H _]%emoji_violation_iff. rewrite H3 in H. lia.
  - intros n [H _]%emoji_violation_iff. rewrite H1 in H. lia.
Qed.

(* ===================================================================== *)
(** * The profile store *)
(* ===================================================================== *)

Module MemoryFacts.

Lemma conf_gt_irrefl x : conf_gt x x = false.
Proof.
  unfold conf_gt. rewrite ltb_spec. unfold SFltb, SFcompare.
  destruct (Prim2SF x) as [[|]|[|]| |[|] m e]; try reflexivity.
  all: rewrite Z.compare_refl; rewrite ?Pos.compare_refl; try reflexivity.
  all: unfold CompOpp; rewrite ?Pos.compare_refl; reflexivity.
Qed.

Section Dict.

Lemma dict_get_none k (d : odict) : dict_get k d = None <-> ~ In k (map fst d).
Proof.
  induction d as [|[k' v] d IH]; simpl; [tauto|].
  destruct (decide (k = k')) as [->|Hne].
  - split; [discriminate | intros H; exfalso; apply H; auto].
  - rewrite IH. split; [intros H [E|E]; [congruence | tauto] | tauto].
Qed.

Lemma dict_set_fresh k v (d : odict) :
  ~ In k (map fst d) -> dict_set k v d = d ++ [(k, v)].
Proof.
  induction d as [|[k' v'] d IH]; simpl; [reflexivity|]. intros H.
  destruct (decide (k = k')) as [->|Hne]; [exfalso; apply H; auto|].
  rewrite IH by tauto. reflexivity.
Qed.

Lemma dict_set_present k v (d1 d2 : odict) v' :
  ~ In k (map fst d1) ->
  dict_set k v (d1 ++ (k, v') :: d2) = d1 ++ (k, v) :: d2.
Proof.
  induction d1 as [|[k1 v1] d1 IH]; simpl; intros H.
  - destruct (decide (k = k)); [reflexivity | congruence].
  - destruct (decide (k = k1)) as [->|Hne]; [exfalso; apply H; auto|].
    rewrite IH by tauto. reflexivity.
Qed.

Lemma dict_get_present k (d1 d2 : odict) v :
  ~ In k (map fst d1) -> dict_get k (d1 ++ (k, v) :: d2) = Some v.
Proof.
  induction d1 as [|[k1 v1] d1 IH]; simpl; intros H.
  - destruct (decide (k = k)); [reflexivity | congruence].
  - destruct (decide (k = k1)) as [->|Hne]; [exfalso; apply H; auto|].
    apply IH. tauto.
Qed.

(** Assigning to a key that is present changes no key. *)
Lemma dict_set_keys_present k v (d : odict) :
  In k (map fst d) -> map fst (dict_set k v d) = map fst d.
Proof.
  induction d as [|[k' v'] d IH]; simpl; [tauto|]. intros H.
  destruct (decide (k = k')) as [->|Hne]; simpl; [reflexivity|].
  rewrite IH; [reflexivity|]. destruct H; congruence.
Qed.

Lemma dict_set_nodup k v (d : odict) :
  NoDup (map fst d) -> NoDup (map fst (dict_set k v d)).
Proof.
  intros H. destruct (decide (k ∈ map fst d)) as [Hin|Hout];
    rewrite list_elem_of_In in *.
  - rewrite dict_set_keys_present by exact Hin. exact H.
  - rewrite (dict_set_fresh _ _ _ Hout), map_app. simpl.
    apply NoDup_app. split; [exact H|]. split.
    + intros x Hx [->|[]]%list_elem_of_In. apply Hout, list_elem_of_In, Hx.
    + apply NoDup_singleton.
Qed.

Lemma dict_set_in k v (d : odict) kv :
  In kv (dict_set k v d) -> kv = (k, v) \/ In kv d.
Proof.
  induction d as [|[k' v'] d IH]; simpl.
  - intros [<-|[]]. auto.
  - destruct (decide (k = k')) as [->|Hne]; simpl.
    + intros [<-|H]; auto.
    + intros [<-|H]; auto. destruct (IH H); auto.
Qed.

End Dict.

Section WithUnicode.
Context {U : Unicode}.

Lemma well_keyed_nil : well_keyed [].
Proof. split; constructor. Qed.

Lemma well_keyed_set d item :
  well_keyed d -> well_keyed (dict_set (item_key item) item d).
Proof.
  intros [Hn Hk]. split; [apply dict_set_nodup, Hn|].
  apply List.Forall_forall. intros kv Hkv.
  apply dict_set_in in Hkv as [->|Hkv]; [reflexivity|].
  rewrite List.Forall_forall in Hk. apply Hk, Hkv.
Qed.

Lemma well_keyed_merge_existing d item :
  well_keyed d -> well_keyed (merge_existing d item).
Proof. apply well_keyed_set. Qed.

Lemma well_keyed_merge_new d item : well_keyed d -> well_keyed (merge_new d item).
Proof.
  intros H. unfold merge_new.
  destruct (dict_get (item_key item) d) as [old|]; [|apply well_keyed_set, H].
  destruct (conf_gt _ _); [apply well_keyed_set, H | exact H].
Qed.

Lemma well_keyed_fold (f : odict -> Item -> odict) items d :
  (forall d item, well_keyed d -> well_keyed (f d item)) ->
  well_keyed d -> well_keyed (fold_left f items d).
Proof.
  intros Hf. revert d. induction items as [|i items IH]; intros d H; simpl; auto.
Qed.

Lemma well_keyed_values d :
  well_keyed d -> map item_key (values d) = map fst d /\ map entry (values d) = d.
Proof.
  intros [_ Hk]. unfold values. induction d as [|[k v] d IH]; simpl; [auto|].
  inversion Hk as [|? ? Hkv Hk']; subst. simpl in Hkv.
  destruct (IH Hk') as [E1 E2]. unfold entry at 1. rewrite E1, E2, <- Hkv. auto.
Qed.

(** Whatever the inputs, the merged list has each key once. *)
Lemma merge_items_nodup existing new :
  NoDup (map item_key (_merge_items existing new)).
Proof.
  unfold _merge_items.
  assert (H : well_keyed (fold_left merge_new new (fold_left merge_existing existing []))).
  { apply well_keyed_fold; [apply well_keyed_merge_new|].
    apply well_keyed_fold; [apply well_keyed_merge_existing | apply well_keyed_nil]. }
  rewrite (proj1 (well_keyed_values _ H)). apply H.
Qed.

(** A list with each key once is loaded as it is. *)
Lemma load_from d items :
  NoDup (map fst d ++ map item_key items) ->
  fold_left merge_existing items d = d ++ map entry items.
Proof.
  revert d. induction items as [|i items IH]; intros d H; simpl.
  - rewrite app_nil_r. reflexivity.
  - assert (Hi : ~ In (item_key i) (map fst d)).
    { intros Hin. apply NoDup_app in H as (_ & H & _).
      apply (H (item_key i)); [apply list_elem_of_In, Hin | simpl; left]. }
    unfold merge_existing at 2. rewrite (dict_set_fresh _ _ _ Hi).
    rewrite IH.
    + rewrite <- app_assoc. reflexivity.
    + rewrite map_app. simpl. rewrite <- app_assoc. exact H.
Qed.

Lemma load_nodup items :
  NoDup (map item_key items) -> load items = map entry items.
Proof. intros H. unfold load. rewrite load_from; [reflexivity | exact H]. Qed.

Lemma map_fst_entry items : map fst (map entry items) = map item_key items.
Proof. rewrite map_map. reflexivity. Qed.

Lemma values_entry items : values (map entry items) = items.
Proof. unfold values. rewrite map_map. apply map_id. Qed.

Lemma merge_items_unfold existing new :
  _merge_items existing new = values (fold_left merge_new new (load existing)).
Proof. reflexivity. Qed.

(** A new key is appended. *)
Lemma merge_items_novel existing n :
  NoDup (map item_key existing) -> ~ In (item_key n) (map item_key existing) ->
  _merge_items existing [n] = existing ++ [n].
Proof.
  intros Hn Hk. rewrite merge_items_unfold, (load_nodup _ Hn). simpl.
  unfold merge_new.
  assert (Hk' : ~ In (item_key n) (map fst (map entry existing))).
  { rewrite map_fst_entry. exact Hk. }
  rewrite (proj2 (dict_get_none _ _) Hk'), (dict_set_fresh _ _ _ Hk').
  change [(item_key n, n)] with (map entry [n]).
  rewrite <- map_app. apply values_entry.
Qed.

(** On a key that is present, the incoming item replaces the stored one
    when its confidence is greater, and only then. *)
Lemma merge_items_collision l1 e l2 n :
  NoDup (map item_key (l1 ++ e :: l2)) -> item_key e = item_key n ->
  _merge_items (l1 ++ e :: l2) [n]
  = l1 ++ (if conf_gt (get_confidence n) (get_confidence e) then n else e) :: l2.
Proof.
  intros Hn Hk. rewrite merge_items_unfold, (load_nodup _ Hn). simpl.
  assert (H1 : ~ In (item_key n) (map fst (map entry l1))).
  { rewrite map_fst_entry, <- Hk. rewrite map_app in Hn. simpl in Hn.
    apply NoDup_app in Hn as (_ & Hn & _). intros Hin.
    apply (Hn (item_key e)); [apply list_elem_of_In, Hin | left]. }
  unfold merge_new. rewrite map_app. cbn [map].
  change (entry e) with (item_key e, e). rewrite Hk.
  rewrite (dict_get_present _ _ _ _ H1).
  destruct (conf_gt (get_confidence n) (get_confidence e));
    rewrite ?(dict_set_present _ _ _ _ _ H1);
    unfold values; rewrite map_app; cbn [map snd];
    fold (values (map entry l1)); fold (values (map entry l2));
    rewrite !values_entry; reflexivity.
Qed.

(** Merging the incoming items in two batches is merging them at once. *)
Lemma merge_items_app existing new1 new2 :
  _merge_items existing (new1 ++ new2)
  = _merge_items (_merge_items existing new1) new2.
Proof.
  rewrite !merge_items_unfold, fold_left_app.
  set (d1 := fold_left merge_new new1 (load existing)).
  assert (H : well_keyed d1).
  { apply well_keyed_fold; [apply well_keyed_merge_new|].
    apply well_keyed_fold; [apply well_keyed_merge_existing | apply well_keyed_nil]. }
  destruct (well_keyed_values d1 H) as [E1 E2].
  rewrite load_nodup; [rewrite E2; reflexivity|].
  rewrite E1. apply H.
Qed.

(** ** The columns of a profile *)

Lemma get_set_column_same c l p : get_column c (set_column c l p) = l.
Proof. destruct c; reflexivity. Qed.

Lemma get_set_column_other c c' l p :
  c <> c' -> get_column c (set_column c' l p) = get_column c p.
Proof. destruct c, c'; intros H; try reflexivity; congruence. Qed.

Lemma merge_column_falsy (extractions : Extractions) c p :
  extractions !! column_key c = None \/ extractions !! column_key c = Some [] ->
  merge_column extractions c p = p.
Proof. unfold merge_column. intros [-> | ->]; reflexivity. Qed.

Lemma merge_column_other (extractions : Extractions) c c' p :
  c <> c' -> get_column c (merge_column extractions c' p) = get_column c p.
Proof.
  intros H. unfold merge_column.
  destruct (extractions !! column_key c') as [[|item items]|]; try reflexivity.
  apply get_set_column_other, H.
Qed.

Lemma merge_column_deduplicated (extractions : Extractions) c p :
  deduplicated p -> deduplicated (merge_column extractions c p).
Proof.
  intros H c'. unfold merge_column.
  destruct (extractions !! column_key c) as [[|item items]|]; try apply H.
  destruct (decide (c' = c)) as [->|Hne].
  - rewrite get_set_column_same. apply merge_items_nodup.
  - rewrite get_set_column_other by exact Hne. apply H.
Qed.

(** ** The table *)

Lemma get_or_create_lookup (db : Table) sid :
  fst (get_or_create_profile db sid) !! sid = Some (snd (get_or_create_profile db sid)).
Proof.
  unfold get_or_create_profile. destruct (db !! sid) eqn:E; simpl.
  - exact E.
  - apply lookup_insert_eq.
Qed.

Lemma get_or_create_lookup_ne (db : Table) sid sid' :
  sid <> sid' -> fst (get_or_create_profile db sid) !! sid' = db !! sid'.
Proof.
  intros H. unfold get_or_create_profile. destruct (db !! sid); simpl.
  - reflexivity.
  - apply lookup_insert_ne, H.
Qed.

Lemma update_profile_unfold (db : Table) sid (extractions : Extractions) :
  update_profile db sid extractions
  = let profile :=
      merge_column extractions CareerMentions
        (merge_column extractions Challenges
           (merge_column extractions Strengths
              (merge_column extractions Dislikes
                 (merge_column extractions Interests
                    (snd (get_or_create_profile db sid)))))) in
    (<[sid := profile]> (fst (get_or_create_profile db sid)), profile).
Proof.
  unfold update_profile. destruct (get_or_create_profile db sid). reflexivity.
Qed.

Lemma update_profile_lookup (db : Table) sid (extractions : Extractions) :
  fst (update_profile db sid extractions) !! sid
  = Some (snd (update_profile db sid extractions)).
Proof. rewrite update_profile_unfold. simpl. apply lookup_insert_eq. Qed.

Lemma update_profile_lookup_ne (db : Table) sid sid' (extractions : Extractions) :
  sid <> sid' -> fst (update_profile db sid extractions) !! sid' = db !! sid'.
Proof.
  intros H. rewrite update_profile_unfold. simpl.
  rewrite lookup_insert_ne by exact H. apply get_or_create_lookup_ne, H.
Qed.

(** [update_profile] leaves a column alone when the extractions have
    nothing for it. *)
Lemma update_profile_column (db : Table) sid (extractions : Extractions) c :
  extractions !! column_key c = None \/ extractions !! column_key c = Some [] ->
  get_column c (snd (update_profile db sid extractions))
  = get_column c (snd (get_or_create_profile db sid)).
Proof.
  intros H. rewrite update_profile_unfold. cbn [snd].
  destruct c;
    repeat first [ rewrite (merge_column_falsy extractions _ _ H)
                 | rewrite merge_column_other by discriminate ];
    reflexivity.
Qed.

Lemma new_profile_deduplicated sid : deduplicated (new_profile sid).
Proof. intros c. destruct c; constructor. Qed.

Lemma reachable_deduplicated (db : Table) :
  reachable db -> forall sid p, db !! sid = Some p -> deduplicated p.
Proof.
  induction 1 as [|db sid Hr IH|db sid extractions Hr IH]; intros sid' p Hp.
  - rewrite lookup_empty in Hp. discriminate Hp.
  - destruct (decide (sid = sid')) as [<-|Hne].
    + rewrite get_or_create_lookup in Hp. injection Hp as <-.
      unfold get_or_create_profile. destruct (db !! sid) eqn:E; simpl.
      * apply (IH sid), E.
      * apply new_profile_deduplicated.
    + rewrite get_or_create_lookup_ne in Hp by exact Hne. apply (IH sid'), Hp.
  - destruct (decide (sid = sid')) as [<-|Hne].
    + rewrite update_profile_lookup in Hp. injection Hp as <-.
      rewrite update_profile_unfold. cbn [snd].
      repeat apply merge_column_deduplicated.
      unfold get_or_create_profile. destruct (db !! sid) eqn:E; simpl.
      * apply (IH sid), E.
      * apply new_profile_deduplicated.
    + rewrite update_profile_lookup_ne in Hp by exact Hne. apply (IH sid'), Hp.
Qed.

Lemma nodup_lookup {A B} (f : A -> B) (l : list A) i j a b :
  NoDup (map f l) -> i <> j -> l !! i = Some a -> l !! j = Some b -> f a <> f b.
Proof.
  intros Hn Hij Ha Hb E. apply Hij.
  apply (proj1 (NoDup_alt (map f l)) Hn i j (f a)).
  - rewrite list_lookup_fmap, Ha. reflexivity.
  - rewrite list_lookup_fmap, Hb, E. reflexivity.
Qed.

End WithUnicode.
End MemoryFacts.
Export MemoryFacts.

(* ===================================================================== *)
(** * The extractor *)
(* ===================================================================== *)

Module ExtractorFacts.

Lemma find_none p s : contains p s = false -> find p s = None.
Proof.
  induction s as [|c s IH]; cbn [contains find]; intros H;
    apply orb_false_iff in H as [H1 H2]; rewrite H1; [reflexivity|].
  rewrite (IH H2). reflexivity.
Qed.

Lemma flat_map_nil {A B} (f : A -> list B) l :
  (forall x, In x l -> f x = []) -> flat_map f l = [].
Proof.
  induction l as [|x l IH]; intros H; simpl; [reflexivity|].
  rewrite (H x) by (left; reflexivity). apply IH.
  intros y Hy. apply H. right. exact Hy.
Qed.

Lemma omap_none {A B} (f : A -> option B) l :
  (forall x, In x l -> f x = None) -> omap f l = [].
Proof.
  induction l as [|x l IH]; intros H; simpl; [reflexivity|].
  rewrite (H x) by (left; reflexivity). apply IH.
  intros y Hy. apply H. right. exact Hy.
Qed.

Section WithUnicode.
Context {U : Unicode}.
Variable re_findall : pystr -> pystr -> list pystr.
Variable clock : nat -> pystr.

Lemma appends_no_matches message :
  no_matches re_findall message -> appends re_findall message = [].
Proof.
  intros [Ht Hk]. unfold appends.
  rewrite flat_map_nil, omap_none; [reflexivity| |].
  - intros keyword Hin. unfold career_candidate.
    rewrite (find_none _ _ (Hk keyword Hin)). reflexivity.
  - intros [c patterns] Hin. simpl. unfold trait_candidates.
    rewrite flat_map_nil; [reflexivity|].
    intros p Hp. apply (Ht c patterns p Hin Hp).
Qed.

(** A message without matches yields the empty list under every key. *)
Lemma extract_no_matches message :
  no_matches re_findall message ->
  extract_from_message re_findall clock message = no_extractions.
Proof.
  intros H. unfold extract_from_message, stamped.
  rewrite (appends_no_matches message H). reflexivity.
Qed.

End WithUnicode.

Lemma no_extractions_lookup c : no_extractions !! column_key c = Some [].
Proof. destruct c; reflexivity. Qed.

End ExtractorFacts.
Export ExtractorFacts.

(* ===================================================================== *)
(** * Claims about the profile store *)
(* ===================================================================== *)

(** C4, as the code has it.  The merge is keyed by the lowercased content:
    the result has each key once; an incoming item with a new key is
    appended; on a key that is present the incoming item replaces the
    stored one exactly when its confidence is strictly greater, so on a tie
    the stored item stays; merging in batches is merging at once.  Merging
    "reading" at 0.8 with an incoming "Reading" at 0.9 leaves the single
    incoming item, with confidence 0.9. *)
Theorem merge_items_keyed (U : Unicode) (UF : UnicodeFacts U) :
  (forall existing new, NoDup (map item_key (_merge_items existing new)))
  /\ (forall existing n,
        NoDup (map item_key existing) ->
        ~ In (item_key n) (map item_key existing) ->
        _merge_items existing [n] = existing ++ [n])
  /\ (forall l1 e l2 n,
        NoDup (map item_key (l1 ++ e :: l2)) -> item_key e = item_key n ->
        _merge_items (l1 ++ e :: l2) [n]
        = l1 ++ (if conf_gt (get_confidence n) (get_confidence e) then n else e) :: l2)
  /\ (forall l1 e l2 n,
        NoDup (map item_key (l1 ++ e :: l2)) -> item_key e = item_key n ->
        get_confidence n = get_confidence e ->
        _merge_items (l1 ++ e :: l2) [n] = l1 ++ e :: l2)
  /\ (forall existing new1 new2,
        _merge_items existing (new1 ++ new2)
        = _merge_items (_merge_items existing new1) new2)
  /\ (forall t0 t1,
        _merge_items [trait (py "reading") 0.8 t0] [trait (py "Reading") 0.9 t1]
        = [trait (py "Reading") 0.9 t1]).
Proof.
  split; [exact merge_items_nodup|].
  split; [exact merge_items_novel|].
  split; [exact merge_items_collision|].
  split; [|split; [exact merge_items_app|]].
  - intros l1 e l2 n Hn Hk Hc.
    rewrite (merge_items_collision l1 e l2 n Hn Hk), Hc, conf_gt_irrefl. reflexivity.
  - intros t0 t1.
    assert (Hk : item_key (trait (py "reading") 0.8 t0)
                 = item_key (trait (py "Reading") 0.9 t1)).
    { unfold item_key. simpl. rewrite !lower_ascii by reflexivity. reflexivity. }
    change [trait (py "reading") 0.8 t0] with ([] ++ trait (py "reading") 0.8 t0 :: []).
    rewrite (merge_items_collision [] _ [] _); [reflexivity| |exact Hk].
    apply NoDup_singleton.
Qed.

Lemma merge_items_keyed_witness :
  @_merge_items ascii_unicode
    [trait (py "chess") 0.8 (py "2024-05-01T10:00:00");
     trait (py "reading") 0.8 (py "2024-05-01T10:00:00")]
    [trait (py "Reading") 0.8 (py "2024-05-02T09:30:00")]
  = [trait (py "chess") 0.8 (py "2024-05-01T10:00:00");
     trait (py "reading") 0.8 (py "2024-05-01T10:00:00")].
Proof.
  apply (proj1 (proj2 (proj2 (proj2 (merge_items_keyed ascii_unicode ascii_unicode_facts))))
               [trait (py "chess") 0.8 (py "2024-05-01T10:00:00")]
               (trait (py "reading") 0.8 (py "2024-05-01T10:00:00"))
               []
               (trait (py "Reading") 0.8 (py "2024-05-02T09:30:00"))).
  - apply (bool_decide_unpack _). vm_compute. exact I.
  - reflexivity.
  - reflexivity.
Defined.

(** C4 as stated fails on a tie: with "reading" at 0.8 stored and "Reading"
    at 0.8 incoming, the merge returns the stored item, not the incoming
    one. *)
Lemma merge_tie_counterexample :
  let stored := trait (py "reading") 0.8 (py "2024-05-01T10:00:00") in
  let incoming := trait (py "Reading") 0.8 (py "2024-05-02T09:30:00") in
  @item_key ascii_unicode stored = @item_key ascii_unicode incoming
  /\ get_confidence stored = get_confidence incoming
  /\ @_merge_items ascii_unicode [stored] [incoming] = [stored]
  /\ @_merge_items ascii_unicode [stored] [incoming] <> [incoming].
Proof. vm_compute. repeat split. discriminate. Qed.

(** C8.  In every table reached from the empty one by calls of
    [get_or_create_profile] and [update_profile], no column of a stored
    profile holds, at two different positions, items with the same key; in
    particular no two of its traits have contents that are equal once
    lowercased. *)
Theorem stored_profiles_deduplicated (U : Unicode) :
  forall db sid p c,
    reachable db -> db !! sid = Some p ->
    NoDup (map item_key (get_column c p))
    /\ (forall i j a b,
          i <> j -> get_column c p !! i = Some a -> get_column c p !! j = Some b ->
          item_key a <> item_key b)
    /\ (forall i j a b ca cb,
          i <> j -> get_column c p !! i = Some a -> get_column c p !! j = Some b ->
          content a = Some ca -> content b = Some cb ->
          str_lower ca <> str_lower cb).
Proof.
  intros db sid p c Hr Hp.
  pose proof (reachable_deduplicated db Hr sid p Hp c) as Hn.
  split; [exact Hn|]. split.
  - intros i j a b. apply nodup_lookup, Hn.
  - intros i j a b ca cb Hij Ha Hb Hca Hcb.
    pose proof (nodup_lookup item_key _ i j a b Hn Hij Ha Hb) as H.
    unfold item_key in H. rewrite Hca, Hcb in H. exact H.
Qed.

(** C10.  [update_profile] leaves a column as it was (empty, when the
    profile is created by the call) when the extractions have no entry or an
    empty list for it, and stores the profile it returns; the extraction of
    a message without matches is empty under every key, and merging it
    leaves the whole profile, and the table, as [get_or_create_profile]
    gives them. *)
Theorem update_profile_frame (U : Unicode) :
  (forall (db : Table) sid (extractions : Extractions) c,
      extractions !! column_key c = None \/ extractions !! column_key c = Some [] ->
      get_column c (snd (update_profile db sid extractions))
      = get_column c (snd (get_or_create_profile db sid))
      /\ fst (update_profile db sid extractions) !! sid
         = Some (snd (update_profile db sid extractions)))
  /\ (forall re_findall clock message (db : Table) sid,
        no_matches re_findall message ->
        extract_from_message re_findall clock message = no_extractions
        /\ update_profile db sid (extract_from_message re_findall clock message)
           = get_or_create_profile db sid).
Proof.
  split.
  - intros db sid extractions c H. split.
    + apply update_profile_column, H.
    + apply update_profile_lookup.
  - intros re_findall clock message db sid H.
    rewrite (extract_no_matches re_findall clock message H).
    split; [reflexivity|].
    rewrite update_profile_unfold. cbv zeta.
    rewrite !merge_column_falsy by (right; apply no_extractions_lookup).
    rewrite insert_id by apply get_or_create_lookup.
    destruct (get_or_create_profile db sid). reflexivity.
Qed.

Lemma stored_profiles_deduplicated_witness :
  NoDup (map (@item_key ascii_unicode)
             (get_column Interests
                (snd (@update_profile ascii_unicode ∅ 1
                        {[ "interests"%string :=
                             [trait (py "reading") 0.8 (py "2024-05-01T10:00:00");
                              trait (py "Reading") 0.9 (py "2024-05-01T10:00:01")] ]})))).
Proof.
  apply (proj1 (stored_profiles_deduplicated ascii_unicode _ 1%Z _ Interests
                  (reach_update ∅ 1%Z _ reach_empty)
                  (update_profile_lookup ∅ 1%Z _))).
Defined.

Lemma update_profile_frame_witness :
  let db : Table :=
    {[ 1%Z := mkProfile 1 [trait (py "chess") 0.8 (py "2024-05-01T10:00:00")] [] [] [] [] ]} in
  get_column Interests
    (snd (@update_profile ascii_unicode db 1
            {[ "strengths"%string := [trait (py "math") 0.8 (py "2024-05-02T09:30:00")] ]}))
  = [trait (py "chess") 0.8 (py "2024-05-01T10:00:00")]
  /\ @update_profile ascii_unicode db 1
       (@extract_from_message ascii_unicode (fun _ _ => []) (fun _ => py "2024-05-02T09:30:00")
          (py "What time does the sun rise?"))
     = (db, mkProfile 1 [trait (py "chess") 0.8 (py "2024-05-01T10:00:00")] [] [] [] []).
Proof.
  intros db. split.
  - transitivity (get_column Interests (snd (get_or_create_profile db 1))); [|reflexivity].
    refine (proj1 (proj1 (update_profile_frame ascii_unicode) db 1%Z _ Interests _)).
    left. reflexivity.
  - transitivity (get_or_create_profile db 1); [|reflexivity].
    refine (proj2 (proj2 (update_profile_frame ascii_unicode)
                     (fun _ _ => []) (fun _ => py "2024-05-02T09:30:00")
                     (py "What time does the sun rise?") db 1%Z _)).
    split.
    + reflexivity.
    + intros keyword Hin.
      assert (H : forallb (fun k => negb (contains k (@str_lower ascii_unicode
                                                        (py "What time does the sun rise?"))))
                          CAREER_KEYWORDS = true) by reflexivity.
      rewrite forallb_forall in H. apply negb_true_iff, H, Hin.
Defined.

(* ===================================================================== *)
(** * The referencer *)
(* ===================================================================== *)

Module ReferencerFacts.

Local Open Scope Z_scope.

(** The rate-limit test of [should_reference_memory]. *)
Lemma rate_limited r db draw sid idx last :
  _last_reference_message_idx r !! sid = Some last ->
  idx - last < min_messages_between r ->
  should_reference_memory r db draw sid idx = (db, false).
Proof.
  intros Hl Hlt. unfold should_reference_memory. rewrite Hl. simpl.
  rewrite (proj2 (Z.ltb_lt _ _) Hlt). reflexivity.
Qed.

(** An identity without a recorded reference passes the rate-limit test
    from index 0 on. *)
Lemma fresh_not_limited r sid idx :
  _last_reference_message_idx r !! sid = None ->
  (idx - default (- min_messages_between r) (_last_reference_message_idx r !! sid)
   <? min_messages_between r) = (idx <? 0).
Proof.
  intros ->. simpl. destruct (Z.ltb_spec idx 0); [apply Z.ltb_lt | apply Z.ltb_ge]; lia.
Qed.

Lemma record_others r sid others :
  Forall (fun o => fst o <> sid) others ->
  let r' := fold_left (fun r o => record_reference_used r (fst o) (snd o)) others r in
  min_messages_between r' = min_messages_between r
  /\ _last_reference_message_idx r' !! sid = _last_reference_message_idx r !! sid.
Proof.
  intros H. revert r. induction H as [|o others Ho _ IH]; intros r; simpl; [auto|].
  destruct (IH (record_reference_used r (fst o) (snd o))) as [E1 E2].
  rewrite E1, E2. simpl. rewrite lookup_insert_ne by exact Ho. auto.
Qed.

End ReferencerFacts.
Export ReferencerFacts.

(** What [should_reference_memory] does for an identity without a recorded
    reference: with the default [-min_messages_between] for the last index,
    the rate-limit test only rejects negative indices; at every index from
    0 on the answer is true exactly when the profile has memories and the
    draw is below 0.4. *)
Theorem fresh_identity_reference (r : MemoryReferencer) (db : Table) (draw : float)
    (sid idx : Z) :
  _last_reference_message_idx r !! sid = None ->
  ((idx < 0)%Z -> should_reference_memory r db draw sid idx = (db, false))
  /\ ((0 <= idx)%Z ->
      snd (should_reference_memory r db draw sid idx)
      = (has_memories (snd (get_profile_summary db sid)) && PrimFloat.ltb draw 0.4)%bool).
Proof.
  intros Hf. unfold should_reference_memory.
  rewrite (fresh_not_limited r sid idx Hf). split; intros H.
  - rewrite (proj2 (Z.ltb_lt _ _) H). reflexivity.
  - rewrite (proj2 (Z.ltb_ge _ _) H).
    destruct (get_profile_summary db sid) as [db' summary]. simpl.
    destruct (has_memories summary); reflexivity.
Qed.

Lemma fresh_identity_reference_witness :
  snd (should_reference_memory new_referencer
         {[ 1%Z := mkProfile 1 [trait (py "chess") 0.8 (py "2024-05-01T10:00:00")] [] [] [] [] ]}
         0.1 1 2)
  = true.
Proof.
  rewrite (proj2 (fresh_identity_reference new_referencer
                    {[ 1%Z := mkProfile 1 [trait (py "chess") 0.8 (py "2024-05-01T10:00:00")]
                                        [] [] [] [] ]}
                    0.1%float 1%Z 2%Z eq_refl)).
  - reflexivity.
  - vm_compute. discriminate.
Defined.

(** C6.  The code departs from the claim, and from the rate limit that
    [test_should_reference_rate_limiting] expects for the first messages: a
    new referencer, a profile populated by [update_profile] and a draw of
    0.1 give true at each of the turn indices 1, 2, 3 and 4, where the claim
    requires false. *)
Lemma early_reference_counterexample :
  let db := fst (@update_profile ascii_unicode ∅ 1
                   {[ "interests"%string :=
                        [trait (py "chess") 0.8 (py "2024-05-01T10:00:00")] ]}) in
  _last_reference_message_idx new_referencer !! 1%Z = None
  /\ has_memories (snd (get_profile_summary db 1)) = true
  /\ map (fun idx => snd (should_reference_memory new_referencer db 0.1 1 idx))
         [1; 2; 3; 4]%Z
     = [true; true; true; true].
Proof. vm_compute. repeat split. Qed.

(** C9.  Once [record_reference_used] has recorded a reference for an
    identity at turn [t1], and whatever is recorded for other identities
    afterwards, [should_reference_memory] answers false for that identity
    at every turn [t2] with [t2 - t1] below the interval (5 for a referencer
    made with the default). *)
Theorem no_reference_within_interval (r : MemoryReferencer) (db : Table) (draw : float)
    (sid t1 t2 : Z) (others : list (Z * Z)) :
  Forall (fun o => fst o <> sid) others ->
  (t2 - t1 < min_messages_between r)%Z ->
  should_reference_memory
    (fold_left (fun r o => record_reference_used r (fst o) (snd o)) others
               (record_reference_used r sid t1))
    db draw sid t2
  = (db, false).
Proof.
  intros Ho Hlt.
  destruct (record_others (record_reference_used r sid t1) sid others Ho) as [E1 E2].
  apply (rate_limited _ db draw sid t2 t1).
  - rewrite E2. simpl. apply lookup_insert_eq.
  - rewrite E1. exact Hlt.
Qed.

Lemma no_reference_within_interval_witness :
  should_reference_memory
    (record_reference_used (record_reference_used new_referencer 1 5) 2 6)
    {[ 1%Z := mkProfile 1 [trait (py "chess") 0.8 (py "2024-05-01T10:00:00")] [] [] [] [] ]}
    0.1 1 9
  = ({[ 1%Z := mkProfile 1 [trait (py "chess") 0.8 (py "2024-05-01T10:00:00")] [] [] [] [] ]},
     false).
Proof.
  apply (no_reference_within_interval new_referencer _ 0.1%float 1%Z 5%Z 9%Z [(2, 6)%Z]).
  - constructor; [discriminate | constructor].
  - reflexivity.
Defined.

(* ===================================================================== *)
(** * More about the classifier *)
(* ===================================================================== *)

Module DetectorMore.

Lemma falsy_strip_blank s : falsy (strip s) = forallb is_space s.
Proof.
  destruct (forallb is_space s) eqn:E.
  - rewrite (strip_blank s E). reflexivity.
  - destruct (strip s) eqn:Es; [|reflexivity].
    apply strip_nil_iff in Es. congruence.
Qed.

Lemma falsy_or_strip s : (falsy s || falsy (strip s))%bool = falsy (strip s).
Proof. destruct s; reflexivity. Qed.

(** The classifier looks at its input only through the normalized text and
    through whether the input is blank. *)
Lemma detect_state_congr {U : Unicode} a b :
  _normalize_text a = _normalize_text b -> falsy (strip a) = falsy (strip b) ->
  detect_state a = detect_state b.
Proof.
  intros Hn Hb.
  unfold detect_state, _check_out_of_scope, _is_greeting, _is_confused,
    _is_validation_seeking, _is_self_reflection, _is_comparison,
    _is_career_curiosity, _is_information_seeking, _check_patterns.
  rewrite !falsy_or_strip, Hn, Hb. reflexivity.
Qed.

Lemma is_space_ascii_lower c : is_space (ascii_lower c) = is_space c.
Proof.
  unfold ascii_lower, in_range.
  destruct (N.leb 65 c && N.leb c 90)%bool eqn:E; [|reflexivity].
  apply andb_true_iff in E as [H1%N.leb_le H2%N.leb_le].
  assert (H : forall x, (65 <= x <= 122)%N -> is_space x = false).
  { intros x Hx. unfold is_space, in_range, cp_eqb.
    rewrite !orb_false_iff, !andb_false_iff, !N.leb_gt, !N.eqb_neq. lia. }
  rewrite !H by lia. reflexivity.
Qed.

Lemma blank_ascii_lower s : forallb is_space (map ascii_lower s) = forallb is_space s.
Proof.
  induction s as [|c s IH]; simpl; [reflexivity|].
  rewrite is_space_ascii_lower, IH. reflexivity.
Qed.

Lemma lower_blank_id s : forallb is_space s = true -> map ascii_lower s = s.
Proof. intros H. exact (@lower_blank ascii_unicode _ s H). Qed.

Lemma lstrip_pad pre s : forallb is_space pre = true -> lstrip (pre ++ s) = lstrip s.
Proof.
  induction pre as [|c pre IH]; simpl; [reflexivity|].
  intros [Hc Hp]%andb_true_iff. rewrite Hc. auto.
Qed.

Lemma rstrip_pad s post : forallb is_space post = true -> rstrip (s ++ post) = rstrip s.
Proof.
  intros H. unfold rstrip. rewrite rev_app_distr, lstrip_pad; [reflexivity|].
  rewrite forallb_rev. exact H.
Qed.

Lemma lstrip_head s c r : lstrip s = c :: r -> is_space c = false.
Proof.
  induction s as [|x s IH]; simpl; [discriminate|].
  destruct (is_space x) eqn:E; [exact IH | intros [= <- _]; exact E].
Qed.

Lemma lstrip_idem_app s post :
  forallb is_space post = true -> rstrip (lstrip (s ++ post)) = rstrip (lstrip s).
Proof.
  intros Hp. destruct (lstrip_suffix s) as (w & E & Hw).
  rewrite E at 1. rewrite <- app_assoc, (lstrip_pad w _ Hw).
  destruct (lstrip s) as [|c r] eqn:El.
  - simpl. rewrite (lstrip_blank post Hp). reflexivity.
  - pose proof (lstrip_head s c r El) as Hc. simpl. rewrite Hc.
    apply (rstrip_pad (c :: r) post Hp).
Qed.

(** White space around a text does not survive [strip]. *)
Lemma strip_pad pre s post :
  forallb is_space pre = true -> forallb is_space post = true ->
  strip (pre ++ s ++ post) = strip s.
Proof.
  intros Hpre Hpost. unfold strip.
  rewrite (lstrip_pad pre _ Hpre). apply lstrip_idem_app, Hpost.
Qed.

Lemma greeting_patterns_lower {U : Unicode} {UF : UnicodeFacts U} p :
  In p GREETING_PATTERNS -> str_lower p = p.
Proof.
  intros Hp.
  assert (H : forallb (fun p => forallb is_ascii p
                                && bool_decide (map ascii_lower p = p))%bool
                      GREETING_PATTERNS = true) by reflexivity.
  rewrite forallb_forall in H. specialize (H p Hp).
  apply andb_true_iff in H as [Ha He]. rewrite (lower_ascii p Ha).
  apply bool_decide_eq_true in He. exact He.
Qed.

Lemma contains_trans p q s :
  contains p q = true -> contains q s = true -> contains p s = true.
Proof.
  rewrite !contains_spec. intros (a & b & ->) (c & d & ->).
  exists (c ++ a), (b ++ d). rewrite <- !app_assoc. reflexivity.
Qed.

End DetectorMore.
Export DetectorMore.

(** X1. Letter case does not matter to the classifier: two ASCII messages that
    are equal once lowercased get the same state. *)
Theorem detect_state_ignores_case (U : Unicode) (UF : UnicodeFacts U) (a b : pystr) :
  forallb is_ascii a = true -> forallb is_ascii b = true ->
  map ascii_lower a = map ascii_lower b ->
  detect_state a = detect_state b.
Proof.
  intros Ha Hb E. rewrite (detect_state_ascii a Ha), (detect_state_ascii b Hb).
  apply detect_state_congr.
  - unfold _normalize_text. simpl. rewrite E. reflexivity.
  - rewrite !falsy_strip_blank, <- (blank_ascii_lower a), <- (blank_ascii_lower b), E.
    reflexivity.
Qed.

Lemma detect_state_ignores_case_witness :
  @detect_state ascii_unicode (py "WHAT DOES A Pilot DO")
  = @detect_state ascii_unicode (py "what does a pilot do").
Proof.
  apply (detect_state_ignores_case ascii_unicode ascii_unicode_facts); reflexivity.
Defined.

(** X2. White space before and after an ASCII message does not matter to the
    classifier. *)
Theorem detect_state_ignores_padding (U : Unicode) (UF : UnicodeFacts U)
    (pre s post : pystr) :
  forallb is_ascii (pre ++ s ++ post) = true ->
  forallb is_space pre = true -> forallb is_space post = true ->
  detect_state (pre ++ s ++ post) = detect_state s.
Proof.
  intros Ha Hpre Hpost.
  assert (Hs : forallb is_ascii s = true).
  { rewrite !forallb_app, !andb_true_iff in Ha. tauto. }
  rewrite (detect_state_ascii _ Ha), (detect_state_ascii s Hs).
  apply detect_state_congr.
  - unfold _normalize_text. simpl. rewrite !map_app.
    rewrite (lower_blank_id pre Hpre), (lower_blank_id post Hpost).
    apply strip_pad; assumption.
  - rewrite (strip_pad pre s post Hpre Hpost). reflexivity.
Qed.

Lemma detect_state_ignores_padding_witness :
  @detect_state ascii_unicode ([32; 9]%N ++ py "i am lost" ++ [10]%N)
  = @detect_state ascii_unicode (py "i am lost").
Proof.
  apply (detect_state_ignores_padding ascii_unicode ascii_unicode_facts); reflexivity.
Defined.

(** X3. The classifier answers [OUT_OF_SCOPE] exactly when a phrase of
    [OUT_OF_SCOPE_PATTERNS] has a word-boundary occurrence in the normalized
    message. *)
Theorem out_of_scope_exactly (U : Unicode) (UF : UnicodeFacts U) (msg : pystr) :
  detect_state msg = OUT_OF_SCOPE
  <-> exists cat pats p,
        In (cat, pats) OUT_OF_SCOPE_PATTERNS /\ In p pats
        /\ word_occurrence p (_normalize_text msg).
Proof.
  split.
  - unfold detect_state.
    destruct (falsy msg || falsy (strip msg))%bool; [discriminate|].
    destruct (_check_out_of_scope msg) as [cat|] eqn:E.
    + intros _. unfold _check_out_of_scope in E.
      destruct (List.find _ OUT_OF_SCOPE_PATTERNS) as [[cat' pats]|] eqn:Ef;
        [|discriminate].
      apply find_some in Ef as [Hin Hex]. simpl in Hex.
      apply existsb_exists in Hex as (p & Hp & Hs).
      exists cat', pats, p. repeat split; try assumption.
      apply search_word_spec, Hs.
    + destruct (_is_greeting msg); [discriminate|].
      destruct (_is_confused msg); [discriminate|].
      destruct (_is_validation_seeking msg); [discriminate|].
      destruct (_is_self_reflection msg); [discriminate|].
      destruct (_is_comparison msg); [discriminate|].
      destruct (_is_career_curiosity msg); [discriminate|].
      destruct (_is_information_seeking msg); discriminate.
  - intros (cat & pats & p & Hc & Hp & Hw).
    apply (detect_state_out_of_scope msg cat pats p Hc Hp Hw).
Qed.

Lemma out_of_scope_exactly_witness :
  exists cat pats p,
    In (cat, pats) OUT_OF_SCOPE_PATTERNS /\ In p pats
    /\ @word_occurrence ascii_unicode p
         (@_normalize_text ascii_unicode (py "Exams make me Anxious")).
Proof.
  apply (proj1 (out_of_scope_exactly ascii_unicode ascii_unicode_facts
                  (py "Exams make me Anxious"))).
  vm_compute. reflexivity.
Defined.

(** X4. In a message of at most three words a greeting pattern counts wherever
    it occurs, inside a word too: unless the message is out of scope, it is
    classified [GREETING]. *)
Theorem short_message_greeting (U : Unicode) (UF : UnicodeFacts U) (msg p : pystr) :
  In p GREETING_PATTERNS ->
  (length (split_ws (_normalize_text msg)) <= 3)%nat ->
  contains p (_normalize_text msg) = true ->
  detect_state msg = GREETING \/ detect_state msg = OUT_OF_SCOPE.
Proof.
  intros Hp Hw Hc.
  assert (Hg : _check_patterns msg GREETING_PATTERNS = true).
  { unfold _check_patterns. apply existsb_exists. exists p. split; [exact Hp|].
    rewrite (greeting_patterns_lower p Hp). exact Hc. }
  pose proof (check_patterns_nonblank msg GREETING_PATTERNS eq_refl Hg) as Hn.
  unfold detect_state. rewrite falsy_or_strip.
  destruct (strip msg) as [|c r] eqn:Es; [congruence|]. simpl.
  destruct (_check_out_of_scope msg); [right; reflexivity|]. left.
  unfold _is_greeting. rewrite (proj2 (Nat.leb_le _ _) Hw), Hg. reflexivity.
Qed.

Lemma short_message_greeting_witness :
  @detect_state ascii_unicode (py "I like this") = GREETING
  \/ @detect_state ascii_unicode (py "I like this") = OUT_OF_SCOPE.
Proof.
  apply (short_message_greeting ascii_unicode ascii_unicode_facts _ (py "hi")).
  - vm_compute. tauto.
  - vm_compute. lia.
  - reflexivity.
Defined.

(** X5. The reflection type of [get_state_context]: a text with "dislike" in
    it contains "like" and is typed positive, so the type is negative exactly
    for a text with "hate" and none of "like", "love", "enjoy". *)
Theorem reflection_type_negative (U : Unicode) (user_input : pystr) :
  let text_lower := str_lower user_input in
  let info := get_state_context SELF_REFLECTION user_input in
  (contains (py "dislike") text_lower = true ->
   ctx_reflection_type info = Some (py "positive"))
  /\ (ctx_reflection_type info = Some (py "negative")
      <-> contains (py "hate") text_lower = true
          /\ contains (py "like") text_lower = false
          /\ contains (py "love") text_lower = false
          /\ contains (py "enjoy") text_lower = false).
Proof.
  intros text_lower info. subst info. cbn -[py reflection_type contains].
  change (str_lower user_input) with text_lower. clearbody text_lower.
  assert (Hd : contains (py "dislike") text_lower = true ->
               contains (py "like") text_lower = true).
  { apply contains_trans. reflexivity. }
  unfold reflection_type. split.
  - intros H. rewrite (Hd H). reflexivity.
  - destruct (contains (py "like") text_lower) eqn:E1; simpl.
    { split; [intros [= H]; vm_compute in H; discriminate H | intros (_ & H & _); discriminate H]. }
    destruct (contains (py "love") text_lower) eqn:E2; simpl.
    { split; [intros [= H]; vm_compute in H; discriminate H | intros (_ & _ & H & _); discriminate H]. }
    destruct (contains (py "enjoy") text_lower) eqn:E3; simpl.
    { split; [intros [= H]; vm_compute in H; discriminate H | intros (_ & _ & _ & H); discriminate H]. }
    destruct (contains (py "dislike") text_lower) eqn:E4.
    { specialize (Hd eq_refl). discriminate Hd. }
    destruct (contains (py "hate") text_lower) eqn:E5; simpl.
    { split; auto. }
    split; [|intros (H & _); discriminate H].
    destruct (contains (py "good at") text_lower);
      [intros [= H]; vm_compute in H; discriminate H|].
    destruct (contains (py "bad at") text_lower);
      intros [= H]; vm_compute in H; discriminate H.
Qed.

Lemma reflection_type_negative_witness :
  ctx_reflection_type (@get_state_context ascii_unicode SELF_REFLECTION
                                          (py "I really Dislike chemistry"))
  = Some (py "positive").
Proof.
  apply (proj1 (reflection_type_negative ascii_unicode (py "I really Dislike chemistry"))).
  reflexivity.
Defined.

(* ===================================================================== *)
(** * More about the validator *)
(* ===================================================================== *)

Module GuardrailMore.

Lemma count_class_runs_app b l1 l2 :
  count_class_runs b (l1 ++ l2)
  = (count_class_runs b l1
     + count_class_runs (from_option in_emoji_class b (last l1)) l2)%nat.
Proof.
  revert b. induction l1 as [|c l1 IH]; intros b; [reflexivity|].
  cbn [app count_class_runs]. rewrite last_cons.
  destruct (in_emoji_class c) eqn:Ec.
  - rewrite IH. destruct (last l1); simpl; [|rewrite Ec]; lia.
  - rewrite IH. destruct (last l1); simpl; [|rewrite Ec]; reflexivity.
Qed.

Lemma count_class_runs_run b run :
  run <> [] -> forallb in_emoji_class run = true ->
  count_class_runs b run = (if b then 0 else 1)%nat.
Proof.
  intros Hne. revert b. induction run as [|c run IH]; intros b H; [congruence|].
  simpl in H. apply andb_true_iff in H as [Hc Hr]. cbn [count_class_runs]. rewrite Hc.
  destruct run as [|c' run']; [simpl; lia|].
  rewrite (IH ltac:(discriminate) true Hr). lia.
Qed.

Lemma count_class_runs_after b post :
  (forall c, head post = Some c -> in_emoji_class c = false) ->
  count_class_runs b post = count_class_runs false post.
Proof.
  destruct post as [|c post]; [reflexivity|]. intros H.
  cbn [count_class_runs]. rewrite (H c eq_refl). reflexivity.
Qed.

Lemma last_in_class run :
  run <> [] -> forallb in_emoji_class run = true ->
  from_option in_emoji_class false (last run) = true.
Proof.
  intros Hne H. destruct (last run) as [c|] eqn:El.
  - simpl. rewrite forallb_forall in H. apply H.
    apply list_elem_of_In, last_Some_elem_of, El.
  - apply last_None in El. congruence.
Qed.

(** A too-many-questions violation is reported exactly when the count
    exceeds the limit used for the state. *)
Lemma question_violation_iff {U : Unicode} response state q m st :
  In (TooManyQuestions q m st) (snd (validate_response response state))
  <-> (max_questions_for state < count_questions response)%nat
      /\ q = count_questions response /\ m = max_questions_for state /\ st = state.
Proof.
  unfold validate_response. cbn [snd]. rewrite !in_app_iff, !in_when. split.
  - intros [[H E] | [[_ H] | [[_ H] | [[_ H] | H]]]]; try discriminate H.
    + injection E as -> -> ->. apply Nat.ltb_lt in H. auto.
    + destruct state; try destruct H. apply in_when in H as [_ H]. discriminate H.
  - intros (H & -> & -> & ->). apply Nat.ltb_lt in H. auto.
Qed.

End GuardrailMore.
Export GuardrailMore.

(** X6. The character class of [emoji_pattern] is the union of four intervals
    of code points; the first of them, from U+24C2 to U+1F251, holds the
    whole block of CJK Unified Ideographs, U+4E00 to U+9FFF, so each of its
    characters is in the class. *)
Theorem emoji_class_intervals (c : codepoint) :
  (in_emoji_class c = true
   <-> (0x24C2 <= c <= 0x1F251)%N \/ (0x1F300 <= c <= 0x1F5FF)%N
       \/ (0x1F600 <= c <= 0x1F64F)%N \/ (0x1F680 <= c <= 0x1FAFF)%N)
  /\ ((0x4E00 <= c <= 0x9FFF)%N -> in_emoji_class c = true).
Proof.
  assert (H : in_emoji_class c = true
              <-> (0x24C2 <= c <= 0x1F251)%N \/ (0x1F300 <= c <= 0x1F5FF)%N
                  \/ (0x1F600 <= c <= 0x1F64F)%N \/ (0x1F680 <= c <= 0x1FAFF)%N).
  { unfold in_emoji_class, emoji_ranges, in_range. cbn [existsb fst snd].
    rewrite !orb_true_iff, !andb_true_iff, !N.leb_le. lia. }
  split; [exact H|]. intros Hc. apply H. left. lia.
Qed.

Lemma emoji_class_intervals_witness : in_emoji_class 0x4E2D%N = true.
Proof. apply (proj2 (emoji_class_intervals 0x4E2D%N)). lia. Defined.

(** X7. [count_emojis] counts runs: a run of characters of the class, however
    long, set between characters outside the class adds one to the count of
    what is before it and what is after it. *)
Theorem emoji_run_adds_one (pre run post : pystr) :
  run <> [] -> forallb in_emoji_class run = true ->
  (forall c, last pre = Some c -> in_emoji_class c = false) ->
  (forall c, head post = Some c -> in_emoji_class c = false) ->
  count_emojis (pre ++ run ++ post) = (count_emojis pre + 1 + count_emojis post)%nat.
Proof.
  intros Hne Hrun Hpre Hpost. unfold count_emojis.
  rewrite !count_class_runs_app.
  assert (Hb : from_option in_emoji_class false (last pre) = false).
  { destruct (last pre) as [c|]; [apply Hpre; reflexivity | reflexivity]. }
  rewrite Hb, (count_class_runs_run false run Hne Hrun).
  rewrite (count_class_runs_after _ post Hpost). lia.
Qed.

Lemma emoji_run_adds_one_witness :
  count_emojis (py "Nice " ++ [0x1F60A; 0x1F389; 0x1F44D; 0x1F525]%N ++ py " work")
  = (count_emojis (py "Nice ") + 1 + count_emojis (py " work"))%nat.
Proof.
  apply emoji_run_adds_one.
  - discriminate.
  - reflexivity.
  - intros c [= <-]. reflexivity.
  - intros c [= <-]. reflexivity.
Defined.

(** X8. For every state other than [OUT_OF_SCOPE], a response that keeps
    within the [max_questions], [max_emojis] and [max_paragraphs] that
    [get_response_constraints] returns for the state, and has no forbidden
    phrase, passes [validate_response] for that state without a violation.
    For [OUT_OF_SCOPE] such a response passes exactly when, once stripped, it
    starts with the opening that [validate_response] itself holds, which is
    no part of the constraints returned. *)
Theorem constraints_imply_valid (U : Unicode) (response : pystr)
    (state : ConversationState) :
  let c := get_response_constraints state in
  (count_questions response <= c_max_questions c)%nat ->
  (count_emojis response <= c_max_emojis c)%nat ->
  (count_paragraphs response <= c_max_paragraphs c)%nat ->
  check_forbidden_phrases response = [] ->
  (state <> OUT_OF_SCOPE -> validate_response response state = (true, []))
  /\ (state = OUT_OF_SCOPE ->
      (fst (validate_response response state) = true
       <-> startswith expected_start (strip response) = true)).
Proof.
  intros c Hq He Hp Hf. subst c. simpl in He, Hp.
  assert (Hm : (count_questions response <= max_questions_for state)%nat).
  { destruct state; simpl in *; lia. }
  split.
  - intros Hs.
    assert (Hv : fst (validate_response response state) = true).
    { apply valid_iff. split; [|split; [|split; [|split]]].
      - exact Hm.
      - exact He.
      - exact Hf.
      - lia.
      - intros ->. congruence. }
    destruct (validate_response response state) as [b v] eqn:E.
    simpl in Hv. subst b. f_equal.
    unfold validate_response in E. injection E as E1 E2.
    apply length_zero_nil in E1. congruence.
  - intros Hs. rewrite valid_iff. split.
    + intros (_ & _ & _ & _ & H). apply H, Hs.
    + intros H. split; [|split; [|split; [|split]]].
      * exact Hm.
      * exact He.
      * exact Hf.
      * lia.
      * intros _. exact H.
Qed.

Lemma constraints_imply_valid_witness :
  @validate_response ascii_unicode
     (py "It is normal to feel unsure. What is one thing you enjoy?") CONFUSED
  = (true, []).
Proof.
  refine (proj1 (constraints_imply_valid ascii_unicode
                   (py "It is normal to feel unsure. What is one thing you enjoy?")
                   CONFUSED _ _ _ _) _);
    first [vm_compute; lia | reflexivity | discriminate].
Defined.

(** X9. The three places that hold a question limit agree as far as the
    validator needs: [get_max_questions_for_state] is the limit
    [validate_response] enforces, a violation is reported exactly above it,
    and the limit of [STATE_GUIDELINES] never exceeds it. *)
Theorem question_limits_agree (U : Unicode) (response : pystr)
    (state : ConversationState) :
  ((exists q m st, In (TooManyQuestions q m st) (snd (validate_response response state)))
   <-> (get_max_questions_for_state state < count_questions response)%nat)
  /\ (max_questions (guidelines_for state) <= get_max_questions_for_state state)%nat
  /\ (c_require_question (get_response_constraints state) = true ->
      (1 <= c_max_questions (get_response_constraints state))%nat).
Proof.
  assert (E : get_max_questions_for_state state = max_questions_for state)
    by (destruct state; reflexivity).
  split; [|split].
  - rewrite E. split.
    + intros (q & m & st & H). apply question_violation_iff in H. tauto.
    + intros H. exists (count_questions response), (max_questions_for state), state.
      apply question_violation_iff. auto.
  - destruct state; vm_compute; lia.
  - destruct state; vm_compute; first [lia | discriminate].
Qed.

(** X10. A response that is valid for one state is valid for every state,
    other than [OUT_OF_SCOPE], whose question limit is not lower. *)
Theorem valid_for_looser_state (U : Unicode) (response : pystr)
    (s1 s2 : ConversationState) :
  s2 <> OUT_OF_SCOPE ->
  (get_max_questions_for_state s1 <= get_max_questions_for_state s2)%nat ->
  fst (validate_response response s1) = true ->
  fst (validate_response response s2) = true.
Proof.
  intros Hs Hm H. apply valid_iff in H as (Hq & He & Hf & Hp & _).
  apply valid_iff. split; [|split; [|split; [|split]]]; try assumption.
  - assert (E : forall s, get_max_questions_for_state s = max_questions_for s)
      by (intros s; destruct s; reflexivity).
    rewrite !E in Hm. lia.
  - congruence.
Qed.

Lemma valid_for_looser_state_witness :
  fst (@validate_response ascii_unicode
         (py "That sounds interesting. What do you like about it?") GREETING)
  = true.
Proof.
  apply (valid_for_looser_state ascii_unicode _ CONFUSED GREETING).
  - discriminate.
  - vm_compute. lia.
  - reflexivity.
Defined.

Lemma question_limits_agree_witness :
  (1 <= c_max_questions (get_response_constraints GREETING))%nat.
Proof.
  apply (proj2 (proj2 (question_limits_agree ascii_unicode [] GREETING))).
  reflexivity.
Defined.

Module SuggestionFacts.

Lemma contains_in p s c : contains p s = true -> In c p -> In c s.
Proof.
  rewrite contains_spec. intros (pre & post & ->) H.
  rewrite !in_app_iff. auto.
Qed.

Lemma contains_lacking p s c : In c p -> ~ In c s -> contains p s = false.
Proof.
  intros Hp Hs. destruct (contains p s) eqn:E; [|reflexivity].
  exfalso. apply Hs, (contains_in p s c E Hp).
Qed.

Lemma contains_prefix p rest : contains p (p ++ rest) = true.
Proof. apply contains_spec. exists [], rest. reflexivity. Qed.

Lemma in_join c sep (l : list pystr) :
  In c (join sep l) -> In c sep \/ exists x, In x l /\ In c x.
Proof.
  induction l as [|x l IH]; [intros []|].
  destruct l as [|y l'].
  - simpl. intros H. right. exists x. auto.
  - change (join sep (x :: y :: l')) with (x ++ sep ++ join sep (y :: l')).
    rewrite !in_app_iff. intros [H|[H|H]].
    + right. exists x. split; [left; reflexivity | exact H].
    + left. exact H.
    + destruct (IH H) as [H'|(z & Hz & Hc)]; [left; exact H'|].
      right. exists z. split; [right; exact Hz | exact Hc].
Qed.

Lemma pretty_go_digits x s :
  forallb (in_range 48 57) (py s) = true ->
  forallb (in_range 48 57) (py (pretty_N_go x s)) = true.
Proof.
  revert s. induction (N.lt_wf_0 x) as [x _ IH]; intros s Hs.
  assert (x = 0 \/ 0 < x)%N as [->|Hx] by lia.
  - rewrite pretty_N_go_0. exact Hs.
  - rewrite pretty_N_go_step by exact Hx. apply IH.
    + apply N.div_lt; [exact Hx | lia].
    + change (py (String (pretty_N_char (x `mod` 10)) s))
        with (N_of_ascii (pretty_N_char (x `mod` 10)) :: py s).
      cbn [forallb]. rewrite Hs, andb_true_r.
      unfold pretty_N_char. repeat case_match; reflexivity.
Qed.

(** [str(n)] consists of digits. *)
Lemma decimal_digits n : forallb (in_range 48 57) (decimal n) = true.
Proof.
  unfold decimal, pretty, pretty_nat, pretty, pretty_N.
  case_decide; [reflexivity|]. apply pretty_go_digits. reflexivity.
Qed.

Lemma decimal_lacks n c : in_range 48 57 c = false -> ~ In c (decimal n).
Proof.
  intros Hc Hin. pose proof (decimal_digits n) as H.
  rewrite forallb_forall in H. rewrite (H c Hin) in Hc. discriminate Hc.
Qed.

Lemma forbidden_lack_capitals {U : Unicode} response x c :
  In x (check_forbidden_phrases response) -> in_range 65 90 c = true -> ~ In c x.
Proof.
  intros Hx Hc Hin. unfold check_forbidden_phrases in Hx.
  apply list_elem_of_In, list_elem_of_filter in Hx as [_ Hx%list_elem_of_In].
  assert (H : forallb (forallb (fun c => negb (in_range 65 90 c)))
                      (FORBIDDEN_RECOMMENDATION_PHRASES ++ FORBIDDEN_CORPORATE_PHRASES
                       ++ FORBIDDEN_JUDGMENTAL_PHRASES) = true) by reflexivity.
  rewrite forallb_forall in H. specialize (H x Hx).
  rewrite forallb_forall in H. specialize (H c Hin).
  rewrite Hc in H. discriminate H.
Qed.

End SuggestionFacts.
Export SuggestionFacts.

(** X11. Every violation that [validate_response] reports has, through its
    message, exactly the suggestion of its own kind in [suggest_fixes]: the
    message of one kind never matches the test of another. *)
Theorem each_violation_has_its_fix (U : Unicode) (response : pystr)
    (state : ConversationState) (v : Violation) :
  In v (snd (validate_response response state)) ->
  suggestion (message v)
  = Some match v with
         | TooManyQuestions _ _ _ =>
             py "- Reduce number of questions. Keep only the most important one."
         | TooManyEmojis _ =>
             py "- Remove extra emojis. Use at most one emoji per response."
         | ForbiddenPhrases _ =>
             py "- Rewrite to avoid direct recommendations or corporate language."
         | ResponseTooLong _ =>
             py "- Shorten response. Offer to go deeper instead of providing all info."
         | CanonicalRequired =>
             py "- For out-of-scope topics, use the exact canonical response."
         end.
Proof.
  intros Hv. unfold suggestion. destruct v as [q m st|n|l|n|].
  - assert (H : contains (py "Too many questions") (message (TooManyQuestions q m st)) = true).
    { apply contains_spec. exists [], (py ": " ++ decimal q ++ py " (max "
        ++ decimal m ++ py " for " ++ state_name st ++ py ")"). reflexivity. }
    rewrite H. reflexivity.
  - assert (H1 : contains (py "Too many questions") (message (TooManyEmojis n)) = false).
    { apply (contains_lacking _ _ 113%N); [vm_compute; tauto|].
      cbn [message]. rewrite !in_app_iff. intros [H|[H|H]].
      - vm_compute in H. repeat destruct H as [H|H]; try discriminate H; exact H.
      - revert H. apply decimal_lacks. reflexivity.
      - vm_compute in H. repeat destruct H as [H|H]; try discriminate H; exact H. }
    assert (H2 : contains (py "Too many emojis") (message (TooManyEmojis n)) = true).
    { apply contains_spec. exists [], (py ": " ++ decimal n ++ py " (max 1)"). reflexivity. }
    rewrite H1, H2. reflexivity.
  - assert (Hl : l = check_forbidden_phrases response).
    { unfold validate_response in Hv. cbn [snd] in Hv.
      rewrite !in_app_iff, !in_when in Hv.
      destruct Hv as [[_ H] | [[_ H] | [[_ H] | [[_ H] | H]]]]; try discriminate H.
      - injection H as ->. reflexivity.
      - destruct state; try destruct H. apply in_when in H as [_ H]. discriminate H. }
    assert (HT : ~ In 84%N (message (ForbiddenPhrases l))).
    { cbn [message]. rewrite in_app_iff. intros [H|H].
      - vm_compute in H. repeat destruct H as [H|H]; try discriminate H; exact H.
      - apply in_join in H as [H|(x & Hx & Hc)].
        + vm_compute in H. repeat destruct H as [H|H]; try discriminate H; exact H.
        + subst l. revert Hc. apply (forbidden_lack_capitals response x); [exact Hx | reflexivity]. }
    rewrite (contains_lacking (py "Too many questions") _ 84%N
               ltac:(vm_compute; tauto) HT).
    rewrite (contains_lacking (py "Too many emojis") _ 84%N
               ltac:(vm_compute; tauto) HT).
    assert (H : contains (py "Forbidden phrases") (message (ForbiddenPhrases l)) = true).
    { apply contains_spec. exists [], (py " found: " ++ join (py ", ") l). reflexivity. }
    rewrite H. reflexivity.
  - assert (Hno : forall c, in_range 48 57 c = false ->
                            ~ In c (py "Response too long: ") ->
                            ~ In c (py " paragraphs (max 5)") ->
                            ~ In c (message (ResponseTooLong n))).
    { intros c Hd Ha Hb. cbn [message]. rewrite !in_app_iff. intros [H|[H|H]]; auto.
      revert H. apply decimal_lacks, Hd. }
    assert (HT : ~ In 84%N (message (ResponseTooLong n))).
    { apply Hno; [reflexivity| |]; vm_compute; intros H;
        repeat destruct H as [H|H]; try discriminate H; exact H. }
    assert (HF : ~ In 70%N (message (ResponseTooLong n))).
    { apply Hno; [reflexivity| |]; vm_compute; intros H;
        repeat destruct H as [H|H]; try discriminate H; exact H. }
    rewrite (contains_lacking (py "Too many questions") _ 84%N
               ltac:(vm_compute; tauto) HT).
    rewrite (contains_lacking (py "Too many emojis") _ 84%N
               ltac:(vm_compute; tauto) HT).
    rewrite (contains_lacking (py "Forbidden phrases") _ 70%N
               ltac:(vm_compute; tauto) HF).
    assert (H : contains (py "too long") (message (ResponseTooLong n)) = true).
    { apply contains_spec.
      exists (py "Response "), (py ": " ++ decimal n ++ py " paragraphs (max 5)").
      reflexivity. }
    rewrite H. reflexivity.
  - reflexivity.
Qed.

Lemma each_violation_has_its_fix_witness :
  suggestion (message (TooManyQuestions 3 1 CONFUSED))
  = Some (py "- Reduce number of questions. Keep only the most important one.").
Proof.
  apply (each_violation_has_its_fix ascii_unicode
           (py "What do you enjoy? What are your hobbies? What subjects do you like?")
           CONFUSED (TooManyQuestions 3 1 CONFUSED)).
  vm_compute. tauto.
Defined.

(* ===================================================================== *)
(** * More about the profile store *)
(* ===================================================================== *)

Module MemoryMore.

Lemma dict_set_keys_iff k v (d : odict) k' :
  In k' (map fst (dict_set k v d)) <-> k' = k \/ In k' (map fst d).
Proof.
  destruct (decide (k ∈ map fst d)) as [Hin|Hout]; rewrite list_elem_of_In in *.
  - rewrite (dict_set_keys_present k v d Hin). split; [auto|].
    intros [->|H]; assumption.
  - rewrite (dict_set_fresh k v d Hout), map_app, in_app_iff. simpl. split.
    + intros [H|[<-|[]]]; auto.
    + intros [->|H]; auto.
Qed.

Lemma dict_get_some_key k (d : odict) v : dict_get k d = Some v -> In k (map fst d).
Proof.
  intros H. destruct (decide (k ∈ map fst d)) as [Hin|Hout];
    rewrite list_elem_of_In in *; [exact Hin|].
  apply dict_get_none in Hout. congruence.
Qed.

Section WithUnicode.
Context {U : Unicode}.

Lemma merge_new_keys d item k :
  In k (map fst (merge_new d item)) <-> k = item_key item \/ In k (map fst d).
Proof.
  unfold merge_new. destruct (dict_get (item_key item) d) as [old|] eqn:E;
    [|apply dict_set_keys_iff].
  destruct (conf_gt _ _); [apply dict_set_keys_iff|].
  split; [auto|]. intros [->|H]; [|exact H]. apply (dict_get_some_key _ _ _ E).
Qed.

Lemma fold_merge_new_keys items d k :
  In k (map fst (fold_left merge_new items d))
  <-> In k (map fst d) \/ In k (map item_key items).
Proof.
  revert d. induction items as [|i items IH]; intros d; simpl; [tauto|].
  rewrite IH, merge_new_keys. intuition (subst; auto).
Qed.

Lemma fold_merge_existing_keys items d k :
  In k (map fst (fold_left merge_existing items d))
  <-> In k (map fst d) \/ In k (map item_key items).
Proof.
  revert d. induction items as [|i items IH]; intros d; simpl; [tauto|].
  rewrite IH. unfold merge_existing. rewrite dict_set_keys_iff.
  intuition (subst; auto).
Qed.

Lemma merge_new_in d item kv :
  In kv (merge_new d item) -> kv = entry item \/ In kv d.
Proof.
  unfold merge_new. destruct (dict_get (item_key item) d) as [old|];
    [|apply dict_set_in].
  destruct (conf_gt _ _); [apply dict_set_in | auto].
Qed.

Lemma fold_merge_new_in items d kv :
  In kv (fold_left merge_new items d) -> In kv d \/ In (snd kv) items.
Proof.
  revert d. induction items as [|i items IH]; intros d; simpl; [auto|].
  intros H. apply IH in H as [H|H]; [|auto].
  apply merge_new_in in H as [->|H]; auto.
Qed.

Lemma fold_merge_existing_in items d kv :
  In kv (fold_left merge_existing items d) -> In kv d \/ In (snd kv) items.
Proof.
  revert d. induction items as [|i items IH]; intros d; simpl; [auto|].
  intros H. apply IH in H as [H|H]; [|auto].
  apply dict_set_in in H as [->|H]; auto.
Qed.

Lemma merged_well_keyed existing new :
  well_keyed (fold_left merge_new new (load existing)).
Proof.
  apply well_keyed_fold; [apply well_keyed_merge_new|].
  apply well_keyed_fold; [apply well_keyed_merge_existing | apply well_keyed_nil].
Qed.

Lemma merge_items_keys_iff existing new k :
  In k (map item_key (_merge_items existing new))
  <-> In k (map item_key existing) \/ In k (map item_key new).
Proof.
  rewrite merge_items_unfold.
  rewrite (proj1 (well_keyed_values _ (merged_well_keyed existing new))).
  rewrite fold_merge_new_keys. unfold load. rewrite fold_merge_existing_keys.
  simpl. tauto.
Qed.

Lemma merge_items_in existing new m :
  In m (_merge_items existing new) -> In m existing \/ In m new.
Proof.
  rewrite merge_items_unfold. unfold values. rewrite in_map_iff.
  intros ([k m'] & <- & H). simpl.
  apply fold_merge_new_in in H as [H|H]; [|auto].
  apply fold_merge_existing_in in H as [[]|H]. auto.
Qed.

Lemma merge_new_fresh d item :
  ~ In (item_key item) (map fst d) -> merge_new d item = d ++ [entry item].
Proof.
  intros H. unfold merge_new.
  rewrite (proj2 (dict_get_none _ _) H). apply dict_set_fresh, H.
Qed.

Lemma fold_merge_new_nodup d items :
  NoDup (map fst d ++ map item_key items) ->
  fold_left merge_new items d = d ++ map entry items.
Proof.
  revert d. induction items as [|i items IH]; intros d H; simpl.
  - rewrite app_nil_r. reflexivity.
  - assert (Hi : ~ In (item_key i) (map fst d)).
    { intros Hin. apply NoDup_app in H as (_ & H & _).
      apply (H (item_key i)); [apply list_elem_of_In, Hin | simpl; left]. }
    rewrite (merge_new_fresh _ _ Hi), IH.
    + rewrite <- app_assoc. reflexivity.
    + rewrite map_app. simpl. rewrite <- app_assoc. exact H.
Qed.

Lemma dedup_step_merge_new seen item : dedup_step seen item = merge_new seen item.
Proof.
  unfold dedup_step, merge_new. destruct (dict_get _ seen); reflexivity.
Qed.

Lemma fold_dedup_merge_new items d :
  fold_left dedup_step items d = fold_left merge_new items d.
Proof.
  revert d. induction items as [|i items IH]; intros d; simpl; [reflexivity|].
  rewrite dedup_step_merge_new. apply IH.
Qed.

Lemma deduplicate_merge existing new :
  NoDup (map item_key existing) ->
  _deduplicate (existing ++ new) = _merge_items existing new.
Proof.
  intros H. unfold _deduplicate. rewrite fold_dedup_merge_new, fold_left_app.
  rewrite (fold_merge_new_nodup [] existing H). simpl.
  rewrite merge_items_unfold, (load_nodup existing H). reflexivity.
Qed.

Lemma deduplicate_nodup items : NoDup (map item_key (_deduplicate items)).
Proof.
  unfold _deduplicate. rewrite fold_dedup_merge_new.
  assert (H : well_keyed (fold_left merge_new items [])).
  { apply well_keyed_fold; [apply well_keyed_merge_new | apply well_keyed_nil]. }
  rewrite (proj1 (well_keyed_values _ H)). apply H.
Qed.

(** The column of the profile that [update_profile] returns. *)
Lemma update_profile_column_merged (db : Table) sid (extractions : Extractions) c :
  get_column c (snd (update_profile db sid extractions))
  = match extractions !! column_key c with
    | Some (item :: items) =>
        _merge_items (get_column c (snd (get_or_create_profile db sid))) (item :: items)
    | _ => get_column c (snd (get_or_create_profile db sid))
    end.
Proof.
  destruct (extractions !! column_key c) as [[|item items]|] eqn:E.
  - apply update_profile_column. auto.
  - rewrite update_profile_unfold. cbn [snd].
    assert (Hc : forall p, get_column c (merge_column extractions c p)
                           = _merge_items (get_column c p) (item :: items)).
    { intros p. unfold merge_column. rewrite E. apply get_set_column_same. }
    destruct c;
      repeat first [ rewrite Hc | rewrite merge_column_other by discriminate ];
      reflexivity.
  - apply update_profile_column. auto.
Qed.

Lemma student_id_set_column c l p : student_id (set_column c l p) = student_id p.
Proof. destruct c; reflexivity. Qed.

Lemma student_id_merge_column (extractions : Extractions) c p :
  student_id (merge_column extractions c p) = student_id p.
Proof.
  unfold merge_column. destruct (extractions !! column_key c) as [[|i l]|];
    try reflexivity. apply student_id_set_column.
Qed.

Lemma in_contents items item c :
  In item items -> content item = Some c -> c <> [] -> In c (contents items).
Proof.
  intros Hin Hc Hne. unfold contents. apply list_elem_of_In, list_elem_of_omap.
  exists item. split; [apply list_elem_of_In, Hin|]. rewrite Hc.
  destruct c; [congruence | reflexivity].
Qed.

End WithUnicode.
End MemoryMore.
Export MemoryMore.

(** X12. The merge neither loses a key nor invents an item: the keys of the
    result are those of the stored and of the incoming list, and every item of
    the result is one of theirs. *)
Theorem merge_keeps_keys (U : Unicode) (existing new : list Item) :
  (forall k, In k (map item_key (_merge_items existing new))
             <-> In k (map item_key existing) \/ In k (map item_key new))
  /\ (forall m, In m (_merge_items existing new) -> In m existing \/ In m new).
Proof.
  split; [apply merge_items_keys_iff | apply merge_items_in].
Qed.

Lemma merge_keeps_keys_witness :
  In (trait (py "Chess") 0.9 (py "2024-05-02T09:30:00"))
     [trait (py "chess") 0.8 (py "2024-05-01T10:00:00")]
  \/ In (trait (py "Chess") 0.9 (py "2024-05-02T09:30:00"))
        [trait (py "Chess") 0.9 (py "2024-05-02T09:30:00")].
Proof.
  apply (proj2 (merge_keeps_keys ascii_unicode _ _)).
  vm_compute. tauto.
Defined.

(** X13. On a stored list without duplicate keys the two merges of the
    repository agree: [_deduplicate] of the concatenation, which is what
    [merge_profiles] computes for a key, is [_merge_items]; and merging
    nothing leaves the list as it is. *)
Theorem deduplicate_agrees_with_merge (U : Unicode)
    (existing new : Extractions) (key : string) (la lb : list Item) :
  existing !! key = Some la -> new !! key = Some lb ->
  NoDup (map item_key la) ->
  merge_profiles existing new !! key = Some (_merge_items la lb)
  /\ _deduplicate (la ++ lb) = _merge_items la lb
  /\ _merge_items la [] = la.
Proof.
  intros Ha Hb Hn. split; [|split].
  - unfold merge_profiles. rewrite lookup_merge, Ha, Hb. simpl.
    rewrite (deduplicate_merge la lb Hn). reflexivity.
  - apply deduplicate_merge, Hn.
  - rewrite merge_items_unfold, (load_nodup la Hn). simpl. apply values_entry.
Qed.

Lemma deduplicate_agrees_with_merge_witness :
  @merge_profiles ascii_unicode
     {[ "interests"%string := [trait (py "chess") 0.8 (py "2024-05-01T10:00:00")] ]}
     {[ "interests"%string := [trait (py "Chess") 0.9 (py "2024-05-02T09:30:00")] ]}
  !! "interests"%string
  = Some (@_merge_items ascii_unicode
            [trait (py "chess") 0.8 (py "2024-05-01T10:00:00")]
            [trait (py "Chess") 0.9 (py "2024-05-02T09:30:00")]).
Proof.
  refine (proj1 (deduplicate_agrees_with_merge ascii_unicode _ _ "interests"%string
                   _ _ _ _ _)).
  - reflexivity.
  - reflexivity.
  - apply NoDup_singleton.
Defined.

(** X14. What is stored for one student is never changed by an update or a
    summary for another, and a summary never overwrites a stored profile. *)
Theorem other_students_untouched (U : Unicode) (db : Table) (sid sid' : Z)
    (extractions : Extractions) :
  (sid <> sid' -> fst (update_profile db sid extractions) !! sid' = db !! sid')
  /\ (sid <> sid' -> fst (get_profile_summary db sid) !! sid' = db !! sid')
  /\ (forall p, db !! sid' = Some p -> fst (get_profile_summary db sid) !! sid' = Some p).
Proof.
  assert (E : fst (get_profile_summary db sid) = fst (get_or_create_profile db sid)).
  { unfold get_profile_summary. destruct (get_or_create_profile db sid). reflexivity. }
  split; [|split].
  - apply update_profile_lookup_ne.
  - intros H. rewrite E. apply get_or_create_lookup_ne, H.
  - intros p Hp. rewrite E. destruct (decide (sid = sid')) as [->|Hne].
    + unfold get_or_create_profile. rewrite Hp. exact Hp.
    + rewrite get_or_create_lookup_ne by exact Hne. exact Hp.
Qed.

Lemma other_students_untouched_witness :
  fst (@update_profile ascii_unicode
         {[ 2%Z := mkProfile 2 [trait (py "chess") 0.8 (py "2024-05-01T10:00:00")] [] [] [] [] ]}
         1 {[ "interests"%string := [trait (py "math") 0.8 (py "2024-05-02T09:30:00")] ]})
  !! 2%Z
  = Some (mkProfile 2 [trait (py "chess") 0.8 (py "2024-05-01T10:00:00")] [] [] [] []).
Proof.
  rewrite (proj1 (other_students_untouched ascii_unicode _ 1%Z 2%Z _)).
  - reflexivity.
  - discriminate.
Defined.

(** X15. In every table reached from the empty one, the profile stored under
    an id carries that id. *)
Theorem stored_profile_id (U : Unicode) (db : Table) (sid : Z) (p : StudentProfile) :
  reachable db -> db !! sid = Some p -> student_id p = sid.
Proof.
  intros Hr. revert sid p.
  induction Hr as [|db sid0 Hr IH|db sid0 extractions Hr IH]; intros sid p Hp.
  - rewrite lookup_empty in Hp. discriminate Hp.
  - destruct (decide (sid0 = sid)) as [->|Hne].
    + rewrite get_or_create_lookup in Hp. injection Hp as <-.
      unfold get_or_create_profile. destruct (db !! sid) eqn:E; simpl.
      * apply IH, E.
      * reflexivity.
    + rewrite get_or_create_lookup_ne in Hp by exact Hne. apply IH, Hp.
  - destruct (decide (sid0 = sid)) as [->|Hne].
    + rewrite update_profile_lookup in Hp. injection Hp as <-.
      rewrite update_profile_unfold. cbn [snd].
      rewrite !student_id_merge_column.
      unfold get_or_create_profile. destruct (db !! sid) eqn:E; simpl.
      * apply IH, E.
      * reflexivity.
    + rewrite update_profile_lookup_ne in Hp by exact Hne. apply IH, Hp.
Qed.

Lemma stored_profile_id_witness :
  student_id (snd (@update_profile ascii_unicode ∅ 7
                     {[ "interests"%string :=
                          [trait (py "math") 0.8 (py "2024-05-02T09:30:00")] ]}))
  = 7%Z.
Proof.
  apply (stored_profile_id ascii_unicode _ 7%Z _ (reach_update ∅ 7%Z _ reach_empty)
           (update_profile_lookup ∅ 7%Z _)).
Defined.

(** X16. What [update_profile] is given for a trait column can be read back
    from the summary up to letter case: for every incoming item with a content
    there is, among the contents of the column after the update, one that is
    equal to it once lowercased (all items having contents). *)
Theorem updated_content_in_summary (U : Unicode) (db : Table) (sid : Z)
    (extractions : Extractions) (items : list Item) (item : Item) (c : pystr) :
  extractions !! "interests"%string = Some items ->
  In item items -> content item = Some c -> c <> [] ->
  Forall (fun i => exists x, content i = Some x /\ x <> [])
         (interests (snd (get_or_create_profile db sid)) ++ items) ->
  exists c',
    In c' (s_interests (snd (get_profile_summary
                               (fst (update_profile db sid extractions)) sid)))
    /\ str_lower c' = str_lower c.
Proof.
  intros Hex Hin Hc Hne Hall.
  assert (Hs : s_interests (snd (get_profile_summary
                                   (fst (update_profile db sid extractions)) sid))
               = contents (_merge_items (interests (snd (get_or_create_profile db sid)))
                                        items)).
  { unfold get_profile_summary, get_or_create_profile at 1.
    rewrite update_profile_lookup. cbn [snd s_interests].
    pose proof (update_profile_column_merged db sid extractions Interests) as E.
    cbn [column_key get_column] in E. rewrite Hex in E.
    destruct items as [|i0 items']; [destruct Hin|]. rewrite E. reflexivity. }
  rewrite Hs.
  set (old := interests (snd (get_or_create_profile db sid))) in *.
  assert (Hk : In (item_key item) (map item_key (_merge_items old items))).
  { apply merge_items_keys_iff. right. apply in_map, Hin. }
  apply in_map_iff in Hk as (m & Hkm & Hm).
  assert (Hm' : In m (old ++ items)).
  { apply in_app_iff, merge_items_in, Hm. }
  rewrite List.Forall_forall in Hall. destruct (Hall m Hm') as (cm & Hcm & Hcmne).
  exists cm. split.
  - apply (in_contents _ m cm Hm Hcm Hcmne).
  - unfold item_key in Hkm. rewrite Hcm, Hc in Hkm. exact Hkm.
Qed.

Lemma updated_content_in_summary_witness :
  exists c',
    In c' (s_interests
             (snd (get_profile_summary
                     (fst (@update_profile ascii_unicode
                             {[ 1%Z := mkProfile 1 [trait (py "Technology") 0.9
                                                      (py "2024-05-01T10:00:00")]
                                                  [] [] [] [] ]}
                             1 {[ "interests"%string :=
                                    [trait (py "technology") 0.8
                                           (py "2024-05-02T09:30:00")] ]}))
                     1)))
    /\ @str_lower ascii_unicode c' = @str_lower ascii_unicode (py "technology").
Proof.
  refine (updated_content_in_summary ascii_unicode _ 1%Z _ _ _ (py "technology")
            _ _ _ _ _).
  - reflexivity.
  - left. reflexivity.
  - reflexivity.
  - discriminate.
  - vm_compute. repeat constructor; eexists; (split; [reflexivity | discriminate]).
Defined.

(* ===================================================================== *)
(** * More about the referencer *)
(* ===================================================================== *)

Module ReferenceFacts.

Lemma contains_cons c x s : contains c s = true -> contains c (x :: s) = true.
Proof. intros H. cbn [contains]. rewrite H. apply orb_true_r. Qed.

Lemma contains_here c rest : contains c (c ++ rest) = true.
Proof. apply contains_spec. exists [], rest. reflexivity. Qed.

Lemma choice_in {A} pick (l : list A) x : choice pick l = Some x -> In x l.
Proof.
  unfold choice. intros H. apply list_elem_of_In, list_elem_of_lookup. eauto.
Qed.

Lemma choice_some {A} pick (l : list A) : l <> [] -> exists x, choice pick l = Some x.
Proof.
  intros H. unfold choice. apply lookup_lt_is_Some_2.
  apply Nat.mod_upper_bound. destruct l; [congruence | discriminate].
Qed.

(** The sentence made for a career, an interest or a strength holds the
    content as given. *)
Lemma generate_reference_contains pick memory_type content :
  In memory_type [py "career"; py "interest"; py "strength"] ->
  contains content (_generate_reference pick memory_type content) = true.
Proof.
  intros Hm. unfold _generate_reference.
  set (templates := default _ (templates_get memory_type REFERENCE_TEMPLATES)).
  destruct (choice_some pick templates) as [tpl Ht].
  { destruct Hm as [<-|[<-|[<-|[]]]]; vm_compute; discriminate. }
  rewrite Ht. apply choice_in in Ht. cbn [default].
  destruct Hm as [<-|[<-|[<-|[]]]]; vm_compute in Ht;
    repeat (destruct Ht as [<-|Ht]; [cbv -[app contains]; repeat apply contains_cons; apply contains_here|]);
    destruct Ht.
Qed.

Lemma summary_twice (db : Table) sid :
  get_profile_summary (fst (get_profile_summary db sid)) sid
  = get_profile_summary db sid.
Proof.
  unfold get_profile_summary, get_or_create_profile.
  destruct (db !! sid) eqn:E; simpl; [rewrite E | rewrite lookup_insert_eq];
    reflexivity.
Qed.

Lemma has_memories_false s :
  has_memories s = false
  <-> s_interests s = [] /\ s_dislikes s = [] /\ s_strengths s = []
      /\ s_careers_discussed s = [].
Proof.
  unfold has_memories.
  rewrite !orb_false_iff, !negb_false_iff, !bool_decide_eq_true. tauto.
Qed.

Lemma join_cons_nonempty sep x (l : list pystr) : x <> [] -> join sep (x :: l) <> [].
Proof.
  intros Hx. destruct l as [|y l]; [exact Hx|].
  change (join sep (x :: y :: l)) with (x ++ sep ++ join sep (y :: l)).
  destruct x; [congruence | discriminate].
Qed.

Section WithUnicode.
Context {U : Unicode}.

Lemma reference_unfold (db : Table) draws sid topic input :
  exists r, get_relevant_reference db draws sid topic input
            = (fst (get_profile_summary db sid), r).
Proof.
  unfold get_relevant_reference. destruct (get_profile_summary db sid). eauto.
Qed.

End WithUnicode.
End ReferenceFacts.
Export ReferenceFacts.

(** X17. [build_memory_context] returns the empty string exactly for a student
    whose summary has no interest, dislike, strength or discussed career,
    whether a reference is asked for or not and whatever the random numbers. *)
Theorem memory_context_empty_iff (U : Unicode) (db : Table) (draws : Draws) (sid : Z)
    (include_reference : bool) (current_topic current_input : option pystr) :
  snd (build_memory_context db draws sid include_reference current_topic current_input)
  = []
  <-> has_memories (snd (get_profile_summary db sid)) = false.
Proof.
  unfold build_memory_context.
  pose proof (summary_twice db sid) as Ht.
  unfold get_relevant_reference.
  destruct (get_profile_summary db sid) as [db' s] eqn:Es. cbn [fst snd] in *.
  rewrite Ht. split.
  - intros H. destruct (has_memories s) eqn:Hm; [exfalso|reflexivity].
    assert (Hp : exists x rest,
               context_line (py "Student's interests: ") 5 (s_interests s)
               ++ context_line (py "Student's dislikes: ") 3 (s_dislikes s)
               ++ context_line (py "Student's strengths: ") 3 (s_strengths s)
               ++ context_line (py "Careers previously discussed: ") 5
                               (s_careers_discussed s)
               = x :: rest /\ x <> []).
    { unfold context_line.
      destruct (s_interests s) as [|i1 il] eqn:E1; [|eexists _, _; split; [reflexivity | discriminate]].
      destruct (s_dislikes s) as [|d1 dl] eqn:E2; [|eexists _, _; split; [reflexivity | discriminate]].
      destruct (s_strengths s) as [|s1 sl] eqn:E3; [|eexists _, _; split; [reflexivity | discriminate]].
      destruct (s_careers_discussed s) as [|c1 cl] eqn:E4; [|eexists _, _; split; [reflexivity | discriminate]].
      unfold has_memories in Hm. rewrite E1, E2, E3, E4 in Hm. discriminate Hm. }
    destruct Hp as (x & rest & Ep & Hx). rewrite Ep in H.
    destruct include_reference; cbn [snd] in H.
    + revert H. apply join_cons_nonempty, Hx.
    + revert H. apply join_cons_nonempty, Hx.
  - intros Hm. apply has_memories_false in Hm as (E1 & E2 & E3 & E4).
    rewrite E1, E2, E3, E4. destruct include_reference; reflexivity.
Qed.

Lemma memory_context_empty_iff_witness :
  has_memories
    (snd (get_profile_summary
            {[ 1%Z := mkProfile 1 [] [] [] [trait (py "maths") 0.8%float (py "t")] [] ]}
            1))
  = false.
Proof.
  apply (proj1 (memory_context_empty_iff ascii_unicode _ (mkDraws 0.1 0 0) 1%Z true
                  None (Some (py "maths is hard")))).
  reflexivity.
Defined.

(** X18. A reference is only ever made for a discussed career, an interest or
    a strength of the summary, never for a dislike or a challenge, and its
    sentence holds that content as it is stored. *)
Theorem reference_kinds (U : Unicode) (db : Table) (draws : Draws) (sid : Z)
    (current_topic current_input : option pystr) (text memory_type : pystr) :
  snd (get_relevant_reference db draws sid current_topic current_input)
  = Some (text, memory_type) ->
  let summary := snd (get_profile_summary db sid) in
  exists content,
    contains content text = true
    /\ ((memory_type = py "career" /\ In content (s_careers_discussed summary))
        \/ (memory_type = py "interest" /\ In content (s_interests summary))
        \/ (memory_type = py "strength" /\ In content (s_strengths summary))).
Proof.
  unfold get_relevant_reference.
  destruct (get_profile_summary db sid) as [db' s]. cbn [snd].
  destruct (List.find _ (s_careers_discussed s)) as [career|] eqn:Ec.
  { intros [= <- <-]. exists career. split.
    - apply generate_reference_contains. simpl. auto.
    - left. split; [reflexivity|]. apply (List.find_some _ _ Ec). }
  destruct (List.find _ (s_interests s)) as [interest|] eqn:Ei.
  { intros [= <- <-]. exists interest. split.
    - apply generate_reference_contains. simpl. auto.
    - right. left. split; [reflexivity|]. apply (List.find_some _ _ Ei). }
  destruct (List.find _ (s_strengths s)) as [strength|] eqn:Es.
  { intros [= <- <-]. exists strength. split.
    - apply generate_reference_contains. simpl. auto.
    - right. right. split; [reflexivity|]. apply (List.find_some _ _ Es). }
  destruct (negb (bool_decide (s_interests s = [])) && _)%bool; [|discriminate].
  destruct (choice (pick_interest draws) (s_interests s)) as [interest|] eqn:Ech;
    [|discriminate].
  intros [= <- <-]. exists interest. split.
  - apply generate_reference_contains. simpl. auto.
  - right. left. split; [reflexivity|]. apply (choice_in _ _ _ Ech).
Qed.

Lemma reference_kinds_witness :
  exists content,
    contains content (py "When we discussed doctor before...") = true
    /\ ((py "career" = py "career"
         /\ In content (s_careers_discussed
                          (snd (get_profile_summary
                                  {[ 1%Z := mkProfile 1 [] [] [] []
                                              [mkItem None (Some (py "doctor")) None
                                                      (Some (py "positive")) None None] ]}
                                  1))))
        \/ (py "career" = py "interest"
            /\ In content (s_interests
                             (snd (get_profile_summary
                                     {[ 1%Z := mkProfile 1 [] [] [] []
                                                 [mkItem None (Some (py "doctor")) None
                                                         (Some (py "positive")) None None] ]}
                                     1))))
        \/ (py "career" = py "strength"
            /\ In content (s_strengths
                             (snd (get_profile_summary
                                     {[ 1%Z := mkProfile 1 [] [] [] []
                                                 [mkItem None (Some (py "doctor")) None
                                                         (Some (py "positive")) None None] ]}
                                     1))))).
Proof.
  apply (reference_kinds ascii_unicode _ (mkDraws 0.9 0 1) 1%Z None
           (Some (py "Is a Doctor happy?"))).
  reflexivity.
Defined.

(** X19. A discussed career that occurs in the topic or the input, in any
    letter case, is referred to before any interest or strength, whatever the
    random numbers. *)
Theorem career_reference_first (U : Unicode) (db : Table) (draws : Draws) (sid : Z)
    (current_topic current_input : option pystr) (career : pystr) :
  In career (s_careers_discussed (snd (get_profile_summary db sid))) ->
  contains (str_lower career)
           (str_lower (or_empty current_topic ++ py " " ++ or_empty current_input))
  = true ->
  exists text,
    snd (get_relevant_reference db draws sid current_topic current_input)
    = Some (text, py "career").
Proof.
  unfold get_relevant_reference.
  destruct (get_profile_summary db sid) as [db' s]. cbn [snd]. intros Hin Hc.
  destruct (List.find _ (s_careers_discussed s)) as [c|] eqn:E.
  - eexists. reflexivity.
  - pose proof (List.find_none _ _ E career Hin) as H. cbv beta in H. congruence.
Qed.

Lemma career_reference_first_witness :
  exists text,
    snd (@get_relevant_reference ascii_unicode
           {[ 1%Z := mkProfile 1 [trait (py "doctor shows") 0.8 (py "2024-05-01T10:00:00")]
                                 [] [] []
                                 [mkItem None (Some (py "doctor")) None
                                         (Some (py "positive")) None None] ]}
           (mkDraws 0.1 0 2) 1 (Some (py "medicine")) (Some (py "Is a Doctor happy?")))
    = Some (text, py "career").
Proof.
  apply (career_reference_first ascii_unicode _ _ 1%Z _ _ (py "doctor")).
  - vm_compute. tauto.
  - reflexivity.
Defined.

(* ===================================================================== *)
(** * More about the extractor *)
(* ===================================================================== *)

Module WordFacts.

(** A word of [str.split()]: not empty, without white space. *)
Definition is_token (w : pystr) : bool :=
  (negb (falsy w) && forallb (fun c => negb (is_space c)) w)%bool.

Lemma split_ws_aux_tokens cur s :
  forallb (fun c => negb (is_space c)) cur = true ->
  forallb is_token (split_ws_aux cur s) = true.
Proof.
  revert cur. induction s as [|c s IH]; intros cur Hcur; cbn [split_ws_aux].
  - destruct cur as [|x cur']; [reflexivity|]. cbn [forallb]. rewrite andb_true_r.
    unfold is_token. rewrite forallb_rev, Hcur.
    destruct (rev (x :: cur')) eqn:E; [|reflexivity].
    apply (f_equal (@length _)) in E. rewrite length_rev in E. discriminate E.
  - destruct (is_space c) eqn:Hc.
    + destruct cur as [|x cur']; [apply IH; reflexivity|].
      cbn [forallb]. rewrite (IH [] eq_refl), andb_true_r.
      unfold is_token. rewrite forallb_rev, Hcur.
      destruct (rev (x :: cur')) eqn:E; [|reflexivity].
      apply (f_equal (@length _)) in E. rewrite length_rev in E. discriminate E.
    + apply IH. cbn [forallb]. rewrite Hc, Hcur. reflexivity.
Qed.

Lemma split_ws_tokens s : forallb is_token (split_ws s) = true.
Proof. apply split_ws_aux_tokens. reflexivity. Qed.

Lemma split_ws_aux_word cur w s :
  forallb (fun c => negb (is_space c)) w = true ->
  split_ws_aux cur (w ++ s) = split_ws_aux (rev w ++ cur) s.
Proof.
  revert cur. induction w as [|c w IH]; intros cur H; [reflexivity|].
  cbn [forallb] in H. apply andb_true_iff in H as [Hc Hw].
  apply negb_true_iff in Hc. cbn [app split_ws_aux]. rewrite Hc, (IH _ Hw).
  cbn [rev]. rewrite <- app_assoc. reflexivity.
Qed.

Lemma token_parts w :
  is_token w = true -> w <> [] /\ forallb (fun c => negb (is_space c)) w = true.
Proof.
  unfold is_token. intros [Hn Hw]%andb_true_iff. split; [|exact Hw].
  destruct w; [discriminate Hn | discriminate].
Qed.

(** Joining words with single spaces and splitting again gives the words
    back. *)
Lemma split_join ws :
  forallb is_token ws = true -> split_ws (join (py " ") ws) = ws.
Proof.
  unfold split_ws. induction ws as [|w ws IH]; [reflexivity|].
  cbn [forallb]. intros [Hw Hws]%andb_true_iff.
  destruct (token_parts w Hw) as [Hne Hns].
  assert (Hr : rev (rev w ++ []) = w) by (rewrite app_nil_r; apply rev_involutive).
  destruct ws as [|w2 ws'].
  - cbn [join]. rewrite <- (app_nil_r w) at 1. rewrite (split_ws_aux_word [] w [] Hns).
    cbn [split_ws_aux]. destruct (rev w ++ []) eqn:E; [|rewrite Hr; reflexivity].
    simpl in Hr. congruence.
  - change (join (py " ") (w :: w2 :: ws')) with (w ++ 32%N :: join (py " ") (w2 :: ws')).
    rewrite (split_ws_aux_word [] w _ Hns). cbn [split_ws_aux].
    change (is_space 32) with true. cbv iota.
    destruct (rev w ++ []) eqn:E.
    + simpl in Hr. congruence.
    + rewrite Hr, (IH Hws). reflexivity.
Qed.

Lemma split_ws_aux_blank cur suf :
  forallb is_space suf = true ->
  split_ws_aux cur suf = match cur with [] => [] | _ => [rev cur] end.
Proof.
  revert cur. induction suf as [|c suf IH]; intros cur H; [reflexivity|].
  cbn [forallb] in H. apply andb_true_iff in H as [Hc Hs].
  cbn [split_ws_aux]. rewrite Hc, (IH [] Hs). destruct cur; reflexivity.
Qed.

Lemma split_ws_aux_rpad cur s suf :
  forallb is_space suf = true -> split_ws_aux cur (s ++ suf) = split_ws_aux cur s.
Proof.
  intros H. revert cur. induction s as [|c s IH]; intros cur.
  - apply split_ws_aux_blank, H.
  - cbn [app split_ws_aux]. rewrite !IH. reflexivity.
Qed.

Lemma split_ws_lstrip s : split_ws (lstrip s) = split_ws s.
Proof.
  unfold split_ws. induction s as [|c s IH]; [reflexivity|].
  cbn [lstrip split_ws_aux]. destruct (is_space c) eqn:Hc; [exact IH|].
  cbn [split_ws_aux]. rewrite Hc. reflexivity.
Qed.

(** [s.strip().split()] is [s.split()]. *)
Lemma split_ws_strip s : split_ws (strip s) = split_ws s.
Proof.
  unfold strip. destruct (rstrip_prefix (lstrip s)) as (suf & E & Hs).
  rewrite <- (split_ws_lstrip s). rewrite E at 2.
  unfold split_ws. rewrite (split_ws_aux_rpad [] _ suf Hs). reflexivity.
Qed.

Lemma join_tokens_ends ws w :
  forallb is_token (w :: ws) = true ->
  (exists c r, join (py " ") (w :: ws) = c :: r /\ is_space c = false)
  /\ (exists r z, join (py " ") (w :: ws) = r ++ [z] /\ is_space z = false).
Proof.
  revert w. induction ws as [|w2 ws IH]; intros w H.
  - cbn [forallb] in H. apply andb_true_iff in H as [Hw _].
    destruct (token_parts w Hw) as [Hne Hns]. cbn [join]. split.
    + destruct w as [|c r]; [congruence|]. exists c, r. split; [reflexivity|].
      cbn [forallb] in Hns. apply andb_true_iff in Hns as [Hc _].
      apply negb_true_iff, Hc.
    + destruct (exists_last Hne) as (r & z & ->). exists r, z. split; [reflexivity|].
      rewrite forallb_app in Hns. apply andb_true_iff in Hns as [_ Hz].
      cbn [forallb] in Hz. rewrite andb_true_r in Hz. apply negb_true_iff, Hz.
  - cbn [forallb] in H. apply andb_true_iff in H as [Hw Hrest].
    destruct (token_parts w Hw) as [Hne Hns].
    change (join (py " ") (w :: w2 :: ws)) with (w ++ py " " ++ join (py " ") (w2 :: ws)).
    destruct (IH w2 Hrest) as [_ (r & z & Er & Hz)]. split.
    + destruct w as [|c r']; [congruence|]. exists c, (r' ++ py " " ++ join (py " ") (w2 :: ws)).
      split; [reflexivity|].
      cbn [forallb] in Hns. apply andb_true_iff in Hns as [Hc _].
      apply negb_true_iff, Hc.
    + exists (w ++ py " " ++ r), z. rewrite Er, <- !app_assoc. split; [reflexivity | exact Hz].
Qed.

(** A text made of words joined by single spaces has nothing to strip. *)
Lemma strip_join ws :
  forallb is_token ws = true -> strip (join (py " ") ws) = join (py " ") ws.
Proof.
  destruct ws as [|w ws]; [reflexivity|]. intros H.
  destruct (join_tokens_ends ws w H) as [(c & r & Ec & Hc) (r' & z & Ez & Hz)].
  unfold strip.
  assert (El : lstrip (join (py " ") (w :: ws)) = join (py " ") (w :: ws)).
  { rewrite Ec. cbn [lstrip]. rewrite Hc. reflexivity. }
  rewrite El, Ez. rewrite (rstrip_app_word r' z [] Hz). reflexivity.
Qed.

Section WithUnicode.
Context {U : Unicode}.

Lemma drop_fillers_tokens ws :
  forallb is_token ws = true -> forallb is_token (drop_fillers ws) = true.
Proof.
  induction ws as [|w ws IH]; [reflexivity|]. intros H.
  cbn [drop_fillers]. destruct (bool_decide _); [|exact H].
  cbn [forallb] in H. apply andb_true_iff in H as [_ H]. apply IH, H.
Qed.

Lemma drop_fillers_head ws w rest :
  drop_fillers ws = w :: rest -> ~ In (str_lower w) fillers.
Proof.
  induction ws as [|x ws IH]; [discriminate|].
  cbn [drop_fillers]. destruct (bool_decide (str_lower x ∈ fillers)) eqn:E; [exact IH|].
  intros [= <- <-]. apply bool_decide_eq_false in E.
  rewrite list_elem_of_In in E. exact E.
Qed.

Lemma drop_fillers_idem ws : drop_fillers (drop_fillers ws) = drop_fillers ws.
Proof.
  induction ws as [|x ws IH]; [reflexivity|].
  cbn [drop_fillers]. destruct (bool_decide (str_lower x ∈ fillers)) eqn:E; [exact IH|].
  cbn [drop_fillers]. rewrite E. reflexivity.
Qed.

Lemma clean_extraction_join text :
  _clean_extraction text = join (py " ") (drop_fillers (split_ws text)).
Proof.
  unfold _clean_extraction. rewrite split_ws_strip.
  apply strip_join, drop_fillers_tokens, split_ws_tokens.
Qed.

Lemma split_clean_extraction text :
  split_ws (_clean_extraction text) = drop_fillers (split_ws text).
Proof.
  rewrite clean_extraction_join.
  apply split_join, drop_fillers_tokens, split_ws_tokens.
Qed.

End WithUnicode.
End WordFacts.
Export WordFacts.

(** X20. [_clean_extraction] gives the words of the text, less the leading
    filler words, joined by single spaces; what it gives never starts with a
    filler word, and cleaning it again changes nothing. *)
Theorem clean_extraction_normal_form (U : Unicode) (text : pystr) :
  _clean_extraction text = join (py " ") (drop_fillers (split_ws text))
  /\ (forall w rest, split_ws (_clean_extraction text) = w :: rest ->
                     ~ In (str_lower w) fillers)
  /\ _clean_extraction (_clean_extraction text) = _clean_extraction text.
Proof.
  split; [apply clean_extraction_join|]. split.
  - intros w rest. rewrite split_clean_extraction. apply drop_fillers_head.
  - rewrite (clean_extraction_join (_clean_extraction text)).
    rewrite split_clean_extraction, drop_fillers_idem.
    symmetry. apply clean_extraction_join.
Qed.

Lemma clean_extraction_normal_form_witness :
  ~ In (@str_lower ascii_unicode (py "drawing")) fillers.
Proof.
  apply (proj1 (proj2 (clean_extraction_normal_form ascii_unicode
                         (py "  to the  drawing   and painting ")))
               (py "drawing") [py "and"; py "painting"]).
  reflexivity.
Defined.

(** X21. The sentiment of a career mention is negative exactly when the
    context has "hate" or "boring" and no positive indicator: "dislike",
    "don't want" and "not interested" each contain a positive indicator, so a
    context with one of them is positive. *)
Theorem career_sentiment_negative (context : pystr) :
  (forall phrase,
      In phrase (map py ["dislike"; "don't want"; "not interested"]%string) ->
      contains phrase context = true ->
      _determine_career_sentiment context = py "positive")
  /\ (_determine_career_sentiment context = py "negative"
      <-> existsb (fun indicator => contains indicator context)
                  (map py ["like"; "love"; "want"; "interested"; "curious";
                           "dream"; "hope"]%string) = false
          /\ (contains (py "hate") context = true
              \/ contains (py "boring") context = true)).
Proof.
  unfold _determine_career_sentiment.
  set (positive := existsb _ (map py ["like"; "love"; "want"; "interested";
                                      "curious"; "dream"; "hope"]%string)).
  assert (Hpos : forall phrase indicator,
             In indicator (map py ["like"; "love"; "want"; "interested"; "curious";
                                   "dream"; "hope"]%string) ->
             contains indicator phrase = true ->
             contains phrase context = true -> positive = true).
  { intros phrase indicator Hi Hip Hc. apply existsb_exists. exists indicator.
    split; [exact Hi|]. apply (contains_trans _ phrase); assumption. }
  split.
  - intros phrase Hp Hc.
    assert (E : positive = true).
    { destruct Hp as [<-|[<-|[<-|[]]]].
      - apply (Hpos (py "dislike") (py "like")); [vm_compute; tauto | reflexivity | exact Hc].
      - apply (Hpos (py "don't want") (py "want")); [vm_compute; tauto | reflexivity | exact Hc].
      - apply (Hpos (py "not interested") (py "interested")); [vm_compute; tauto | reflexivity | exact Hc]. }
    rewrite E. reflexivity.
  - destruct positive eqn:E.
    { split; [intros H; vm_compute in H; discriminate H | intros [H _]; discriminate H]. }
    assert (Hn : forall phrase indicator,
               In indicator (map py ["like"; "love"; "want"; "interested"; "curious";
                                     "dream"; "hope"]%string) ->
               contains indicator phrase = true -> contains phrase context = false).
    { intros phrase indicator Hi Hip.
      destruct (contains phrase context) eqn:Ec; [|reflexivity].
      discriminate (Hpos phrase indicator Hi Hip Ec). }
    cbn [existsb map].
    rewrite (Hn (py "dislike") (py "like")) by (vm_compute; tauto).
    rewrite (Hn (py "don't want") (py "want")) by (vm_compute; tauto).
    rewrite (Hn (py "not interested") (py "interested")) by (vm_compute; tauto).
    rewrite !orb_false_r. cbn [orb].
    destruct (contains (py "hate") context); cbn [orb].
    { split; auto. }
    destruct (contains (py "boring") context).
    { split; auto. }
    split; [intros H; vm_compute in H; discriminate H|].
    intros [_ [H|H]]; discriminate H.
Qed.

Lemma career_sentiment_negative_witness :
  _determine_career_sentiment (py "i don't want to be a doctor") = py "positive".
Proof.
  apply (proj1 (career_sentiment_negative (py "i don't want to be a doctor"))
               (py "don't want")).
  - vm_compute. tauto.
  - reflexivity.
Defined.

Module ExtractionFacts.

Lemma columns_lookup (f : Column -> list Item) col :
  (<["interests" := f Interests]>
     (<["dislikes" := f Dislikes]>
        (<["strengths" := f Strengths]>
           (<["challenges" := f Challenges]>
              (<["career_mentions" := f CareerMentions]> (∅ : Extractions))))))
    !! column_key col = Some (f col).
Proof. destruct col; reflexivity. Qed.

Lemma column_key_inj c1 c2 : column_key c1 = column_key c2 -> c1 = c2.
Proof. destruct c1, c2; intros H; first [reflexivity | discriminate H]. Qed.

Lemma in_column_of col l item : In item (column_of col l) -> In (col, item) l.
Proof.
  unfold column_of. rewrite <- !list_elem_of_In, list_elem_of_omap.
  intros ([c i] & Hin & H). cbn [fst snd] in H.
  destruct (bool_decide (column_key c = column_key col)) eqn:E; [|discriminate H].
  apply bool_decide_eq_true in E. apply column_key_inj in E.
  injection H as <-. subst c. exact Hin.
Qed.

Lemma find_some_contains p s idx : find p s = Some idx -> contains p s = true.
Proof.
  intros H. destruct (contains p s) eqn:E; [reflexivity|].
  rewrite (find_none p s E) in H. discriminate H.
Qed.

Lemma deduplicate_in {U : Unicode} items m : In m (_deduplicate items) -> In m items.
Proof.
  unfold _deduplicate. rewrite fold_dedup_merge_new. unfold values.
  rewrite in_map_iff. intros ([k m'] & <- & H).
  apply fold_merge_new_in in H as [[]|H]. exact H.
Qed.

Lemma deduplicate_keys {U : Unicode} items k :
  In k (map item_key (_deduplicate items)) <-> In k (map item_key items).
Proof.
  unfold _deduplicate. rewrite fold_dedup_merge_new.
  assert (H : well_keyed (fold_left merge_new items [])).
  { apply well_keyed_fold; [apply well_keyed_merge_new | apply well_keyed_nil]. }
  rewrite (proj1 (well_keyed_values _ H)), fold_merge_new_keys. simpl. tauto.
Qed.

Section WithUnicode.
Context {U : Unicode}.
Variable re_findall : pystr -> pystr -> list pystr.

Lemma extract_lookup clock message col :
  extract_from_message re_findall clock message !! column_key col
  = Some (column_of col (stamped re_findall clock message)).
Proof.
  exact (columns_lookup (fun c => column_of c (stamped re_findall clock message)) col).
Qed.

Lemma in_stamped clock message col item :
  In (col, item) (stamped re_findall clock message) ->
  exists n f, In (col, f) (appends re_findall message) /\ item = f (clock n).
Proof.
  unfold stamped. rewrite <- list_elem_of_In, elem_of_lookup_imap.
  intros (n & [c f] & E & Hl). cbn [fst snd] in E. injection E as -> ->.
  exists n, f. split; [|reflexivity].
  rewrite <- list_elem_of_In. apply (list_elem_of_lookup_2 _ n), Hl.
Qed.

Lemma in_appends message col f :
  In (col, f) (appends re_findall message) ->
  (exists patterns p m,
      In (col, patterns) compiled_patterns /\ In p patterns
      /\ In m (re_findall p message)
      /\ (2 < length (_clean_extraction m))%nat
      /\ f = trait (_clean_extraction m) 0.8%float)
  \/ (col = CareerMentions
      /\ exists keyword idx,
          In keyword CAREER_KEYWORDS
          /\ find keyword (str_lower message) = Some idx
          /\ f = fun at_ =>
                   mkItem None (Some keyword) None
                     (Some (_determine_career_sentiment
                              (slice (idx - 50)
                                 (min (length (str_lower message)) (idx + 50))
                                 (str_lower message))))
                     (Some (slice (idx - 30) (min (length message) (idx + 30)) message))
                     (Some at_)).
Proof.
  unfold appends. rewrite in_app_iff. intros [H|H].
  - left. apply in_flat_map in H as ([c patterns] & Hcp & H). cbn [fst snd] in H.
    apply in_map_iff in H as (cleaned & E & H). injection E as -> <-.
    unfold trait_candidates in H.
    rewrite <- list_elem_of_In, list_elem_of_filter, list_elem_of_In in H.
    destruct H as [Hlen H]. apply in_map_iff in H as (m & <- & H).
    apply in_flat_map in H as (p & Hp & Hm).
    exists patterns, p, m. auto.
  - right. rewrite <- list_elem_of_In, list_elem_of_omap in H.
    destruct H as (keyword & Hk & H). rewrite list_elem_of_In in Hk.
    unfold career_candidate in H.
    destruct (find keyword (str_lower message)) as [idx|] eqn:E; [|discriminate H].
    injection H as <- <-. split; [reflexivity|]. exists keyword, idx. auto.
Qed.

End WithUnicode.
End ExtractionFacts.
Export ExtractionFacts.

(** X22. Whatever the regex engine and the clock: an item that
    [extract_from_message] puts in a category is either a trait, the cleaned
    text of a match of one of the category's patterns, longer than two
    characters and with confidence 0.8, or, in "career_mentions" only, a
    mention of one of the career keywords, which occurs in the lowercased
    message. *)
Theorem extracted_item_origin (U : Unicode)
    (re_findall : pystr -> pystr -> list pystr) (clock : nat -> pystr)
    (message : pystr) (col : Column) (item : Item) :
  In item (default [] (extract_from_message re_findall clock message !! column_key col)) ->
  (exists patterns p m,
      In (col, patterns) compiled_patterns /\ In p patterns
      /\ In m (re_findall p message)
      /\ content item = Some (_clean_extraction m)
      /\ (2 < length (_clean_extraction m))%nat
      /\ confidence item = Some 0.8%float
      /\ career item = None)
  \/ (col = CareerMentions
      /\ exists keyword,
          In keyword CAREER_KEYWORDS
          /\ contains keyword (str_lower message) = true
          /\ career item = Some keyword
          /\ content item = None /\ confidence item = None).
Proof.
  rewrite extract_lookup. cbn [default]. intros H.
  apply in_column_of, in_stamped in H as (n & f & H & ->).
  apply in_appends in H as [(patterns & p & m & H1 & H2 & H3 & H4 & ->)
                           |(-> & keyword & idx & H1 & H2 & ->)].
  - left. exists patterns, p, m. cbn. auto 10.
  - right. split; [reflexivity|]. exists keyword. cbn.
    pose proof (find_some_contains _ _ _ H2). auto 10.
Qed.

Lemma extracted_item_origin_witness :
  let item := mkItem None (Some (py "doctor")) None (Some (py "positive"))
                (Some (py "I want to be a doctor")) (Some (py "t")) in
  (exists patterns p m,
      In (CareerMentions, patterns) compiled_patterns /\ In p patterns
      /\ In m []
      /\ content item = Some (@_clean_extraction ascii_unicode m)
      /\ (2 < length (@_clean_extraction ascii_unicode m))%nat
      /\ confidence item = Some 0.8%float
      /\ career item = None)
  \/ (CareerMentions = CareerMentions
      /\ exists keyword,
          In keyword CAREER_KEYWORDS
          /\ contains keyword (@str_lower ascii_unicode (py "I want to be a doctor")) = true
          /\ career item = Some keyword
          /\ content item = None /\ confidence item = None).
Proof.
  apply (extracted_item_origin ascii_unicode (fun _ _ => []) (fun _ => py "t")
           (py "I want to be a doctor") CareerMentions).
  vm_compute. left. reflexivity.
Defined.

Module ConversationFacts.
Section WithUnicode.
Context {U : Unicode}.
Variable re_findall : pystr -> pystr -> list pystr.
Variable clock : nat -> pystr.

Lemma conversation_lookup messages student_only col :
  extract_from_conversation re_findall clock messages student_only !! column_key col
  = Some (_deduplicate
            (flat_map (fun e => default [] (e !! column_key col))
               (extract_all re_findall clock 0
                  (extracted_contents messages student_only)))).
Proof.
  exact (columns_lookup
           (fun c => _deduplicate
                       (flat_map (fun e => default [] (e !! column_key c))
                          (extract_all re_findall clock 0
                             (extracted_contents messages student_only)))) col).
Qed.

Lemma in_extract_all readings contents e :
  In e (extract_all re_findall clock readings contents) ->
  exists content r,
    In content contents
    /\ e = extract_from_message re_findall (fun n => clock (r + n)) content.
Proof.
  revert readings. induction contents as [|c contents IH]; intros readings; [intros []|].
  cbn [extract_all]. intros [<-|H].
  - exists c, readings. split; [left|]; reflexivity.
  - apply IH in H as (content & r & Hin & ->). exists content, r.
    split; [right; exact Hin | reflexivity].
Qed.

Lemma in_extracted_contents messages student_only content :
  In content (extracted_contents messages student_only) ->
  content <> []
  /\ exists msg, In msg messages /\ msg_content msg = Some content
                 /\ (student_only = true -> role msg = Some (py "user")).
Proof.
  unfold extracted_contents. rewrite <- list_elem_of_In, list_elem_of_omap.
  intros (msg & Hin & H). rewrite list_elem_of_In in Hin.
  destruct (student_only && negb (bool_decide (role msg = Some (py "user"))))%bool eqn:E;
    [discriminate H|].
  destruct (msg_content msg) as [c|] eqn:Ec; cbn [default] in H; [|discriminate H].
  destruct c as [|x c]; [discriminate H|]. injection H as <-.
  split; [discriminate|]. exists msg. split; [exact Hin|]. split; [exact Ec|].
  intros ->. cbn [andb] in E. apply negb_false_iff, bool_decide_eq_true in E. exact E.
Qed.

Lemma extracted_contents_skip before msg after student_only :
  (student_only = true /\ role msg <> Some (py "user"))
  \/ default [] (msg_content msg) = [] ->
  extracted_contents (before ++ msg :: after) student_only
  = extracted_contents (before ++ after) student_only.
Proof.
  intros H. unfold extracted_contents.
  set (f := fun msg0 : Message => _).
  assert (Hf : f msg = None).
  { unfold f. destruct H as [[-> H]|H].
    - cbn [andb]. rewrite (bool_decide_eq_false_2 _ H). reflexivity.
    - rewrite H. destruct (_ && _)%bool; reflexivity. }
  clearbody f. rewrite !omap_app. f_equal. simpl. rewrite Hf. reflexivity.
Qed.

End WithUnicode.
End ConversationFacts.
Export ConversationFacts.

(** X23. Whatever the regex engine and the clock: each list that
    [extract_from_conversation] returns has one item per lowercased content
    (or career), and each of its items was extracted from the non-empty
    content of one of the messages, a message of the user when [student_only]
    is set. *)
Theorem conversation_extraction_deduplicated (U : Unicode)
    (re_findall : pystr -> pystr -> list pystr) (clock : nat -> pystr)
    (messages : list Message) (student_only : bool) (col : Column) :
  exists l,
    extract_from_conversation re_findall clock messages student_only !! column_key col
    = Some l
    /\ NoDup (map item_key l)
    /\ forall item, In item l ->
         exists msg text r,
           In msg messages /\ msg_content msg = Some text /\ text <> []
           /\ (student_only = true -> role msg = Some (py "user"))
           /\ In item (default [] (extract_from_message re_findall
                                     (fun n => clock (r + n)) text
                                   !! column_key col)).
Proof.
  eexists. split; [apply conversation_lookup|]. split; [apply deduplicate_nodup|].
  intros item H. apply deduplicate_in, in_flat_map in H as (e & He & H).
  apply in_extract_all in He as (text & r & Hin & ->).
  apply in_extracted_contents in Hin as (Hne & msg & Hmsg & Hc & Hrole).
  exists msg, text, r. auto 10.
Qed.

Lemma conversation_extraction_deduplicated_witness :
  exists l,
    extract_from_conversation (U := ascii_unicode) (fun _ _ => []) (fun _ => py "t")
      [mkMessage (Some (py "user")) (Some (py "a doctor or a DOCTOR"))] true
    !! column_key CareerMentions = Some l
    /\ NoDup (map (item_key (U := ascii_unicode)) l)
    /\ forall item, In item l ->
         exists msg text (r : nat),
           In msg [mkMessage (Some (py "user")) (Some (py "a doctor or a DOCTOR"))]
           /\ msg_content msg = Some text /\ text <> []
           /\ (true = true -> role msg = Some (py "user"))
           /\ In item (default [] (extract_from_message (U := ascii_unicode)
                                     (fun _ _ => []) (fun n => py "t") text
                                   !! column_key CareerMentions)).
Proof.
  exact (conversation_extraction_deduplicated ascii_unicode (fun _ _ => [])
           (fun _ => py "t")
           [mkMessage (Some (py "user")) (Some (py "a doctor or a DOCTOR"))] true
           CareerMentions).
Defined.

(** X24. With [student_only], a message whose role is not "user" changes
    nothing in what [extract_from_conversation] returns, and neither does, in
    either mode, a message without content or with an empty one. *)
Theorem conversation_skips_messages (U : Unicode)
    (re_findall : pystr -> pystr -> list pystr) (clock : nat -> pystr)
    (before after : list Message) (msg : Message) (student_only : bool) :
  (student_only = true /\ role msg <> Some (py "user"))
  \/ default [] (msg_content msg) = [] ->
  extract_from_conversation re_findall clock (before ++ msg :: after) student_only
  = extract_from_conversation re_findall clock (before ++ after) student_only.
Proof.
  intros H. unfold extract_from_conversation.
  rewrite (extracted_contents_skip before msg after student_only H). reflexivity.
Qed.

Lemma conversation_skips_messages_witness :
  extract_from_conversation (U := ascii_unicode) (fun _ _ => []) (fun _ => py "t")
    ([mkMessage (Some (py "user")) (Some (py "i like law"))]
     ++ mkMessage (Some (py "assistant")) (Some (py "a doctor, then?")) :: []) true
  = extract_from_conversation (U := ascii_unicode) (fun _ _ => []) (fun _ => py "t")
      ([mkMessage (Some (py "user")) (Some (py "i like law"))] ++ []) true.
Proof.
  apply (conversation_skips_messages ascii_unicode).
  left. split; [reflexivity | discriminate].
Defined.

(** X25. [merge_profiles] has a list for every key of either dict; the list
    has one item per lowercased content (or career), the keys of the two lists
    put together, and each of its items comes from one of the two. *)
Theorem merge_profiles_deduplicated (U : Unicode) (existing new : Extractions)
    (key : string) :
  (is_Some (merge_profiles existing new !! key)
   <-> is_Some (existing !! key) \/ is_Some (new !! key))
  /\ forall l, merge_profiles existing new !! key = Some l ->
       NoDup (map item_key l)
       /\ (forall k, In k (map item_key l)
                     <-> In k (map item_key (default [] (existing !! key)))
                         \/ In k (map item_key (default [] (new !! key))))
       /\ (forall item, In item l ->
             In item (default [] (existing !! key))
             \/ In item (default [] (new !! key))).
Proof.
  assert (E : merge_profiles existing new !! key
              = match existing !! key, new !! key with
                | None, None => None
                | a, b => Some (_deduplicate (default [] a ++ default [] b))
                end).
  { unfold merge_profiles. rewrite lookup_merge.
    destruct (existing !! key), (new !! key); reflexivity. }
  rewrite E. clear E.
  destruct (existing !! key) as [a|], (new !! key) as [b|]; cbn [default].
  1-3: split; [split; eauto|];
    intros l [= <-]; split; [apply deduplicate_nodup|]; split;
    [intros k; rewrite deduplicate_keys; unfold id;
     rewrite ?map_app, ?in_app_iff; cbn [map In]; tauto
    |intros item H; apply deduplicate_in in H; unfold id;
     rewrite ?in_app_iff in H; cbn [In]; tauto].
  split; [|intros l H; discriminate H].
  split; [intros [x H]; discriminate H | intros [[x H]|[x H]]; discriminate H].
Qed.

Lemma merge_profiles_deduplicated_witness :
  NoDup (map (item_key (U := ascii_unicode))
           [trait (py "art") 0.8%float (py "t0")]).
Proof.
  apply (proj2 (merge_profiles_deduplicated ascii_unicode
                  (<["interests" := [trait (py "art") 0.8%float (py "t0")]]> ∅)
                  (<["interests" := [trait (py "Art") 0.8%float (py "t1")]]> ∅)
                  "interests")
               [trait (py "art") 0.8%float (py "t0")]).
  reflexivity.
Defined.
